(** * AutoMarketplace: the server's record store, adapters and request handlers

    A shallow embedding of [server/storage.ts], [server/routes.ts],
    [server/services/vin-lookup.ts], [server/services/ollama.ts] and of the
    form schema of [shared/schema.ts].

    Conventions of the embedding:
    - JavaScript strings are [string]s; [toLowerCase] acts on the ASCII
      letters and [\s] is the ASCII white space.
    - JavaScript numbers that the schema declares as integers are [Z].
    - [async] methods of the store never suspend between their reads and
      writes, so they are state-passing functions.
    - What the runtime draws from outside (the clock, [randomUUID], the
      outcome of a [fetch], the outcome of a disk write) is an argument of
      the function that consumes it. *)

From Stdlib Require Import ZArith List String Ascii Bool Lia Permutation Sorted.
From Stdlib Require Import DecimalString.
Import ListNotations.
Local Open Scope list_scope.
Local Open Scope string_scope.

Set Implicit Arguments.

(** ** Text *)

Module Text.

Definition code (c : ascii) : N := N_of_ascii c.

Definition in_range (lo hi : N) (c : ascii) : bool :=
  ((lo <=? code c) && (code c <=? hi))%N.

Definition is_upper (c : ascii) : bool := in_range 65 90 c.
Definition is_lower (c : ascii) : bool := in_range 97 122 c.
Definition is_digit (c : ascii) : bool := in_range 48 57 c.

(** [\s] among the ASCII characters: tab, line feed, vertical tab, form
    feed, carriage return, space. *)
Definition is_space (c : ascii) : bool :=
  in_range 9 13 c || (code c =? 32)%N.

Definition lower_char (c : ascii) : ascii :=
  if is_upper c then ascii_of_N (code c + 32) else c.

Definition upper_char (c : ascii) : ascii :=
  if is_lower c then ascii_of_N (code c - 32) else c.

Fixpoint map_chars (f : ascii -> ascii) (s : string) : string :=
  match s with
  | EmptyString => EmptyString
  | String c r => String (f c) (map_chars f r)
  end.

Definition toLowerCase : string -> string := map_chars lower_char.
Definition toUpperCase : string -> string := map_chars upper_char.

Fixpoint all_chars (p : ascii -> bool) (s : string) : bool :=
  match s with
  | EmptyString => true
  | String c r => p c && all_chars p r
  end.

(** A text of ASCII characters only, every code below 128. On such a text
    the case mappings and the white space above are those of JavaScript. *)
Definition isAscii (s : string) : bool := all_chars (fun c => (code c <? 128)%N) s.

Fixpoint trimStart (s : string) : string :=
  match s with
  | String c r => if is_space c then trimStart r else s
  | EmptyString => EmptyString
  end.

Fixpoint trimEnd (s : string) : string :=
  match s with
  | EmptyString => EmptyString
  | String c r =>
      match trimEnd r with
      | EmptyString => if is_space c then EmptyString else String c EmptyString
      | r' => String c r'
      end
  end.

Definition trim (s : string) : string := trimEnd (trimStart s).

(** A string is truthy when it is not empty. *)
Definition truthy (s : string) : bool :=
  match s with EmptyString => false | _ => true end.

(** [s || undefined] on an optional string. *)
Definition or_undefined (s : option string) : option string :=
  match s with
  | Some x => if truthy x then Some x else None
  | None => None
  end.

Fixpoint join (sep : string) (l : list string) : string :=
  match l with
  | [] => ""
  | [x] => x
  | x :: r => x ++ sep ++ join sep r
  end.

End Text.

(** ** JSON values *)

#[local] Set Warnings "-register-all".

Inductive Json : Type :=
| JNull
| JBool (b : bool)
| JNum (n : Z)
| JStr (s : string)
| JArr (items : list Json)
| JObj (props : list (string * Json)).

(** ** [Map<string, V>]: keys are unique and kept in insertion order *)

Module JsMap.
Section Ops.
Variable V : Type.

Definition t := list (string * V).

Definition empty : t := [].

Fixpoint get (k : string) (m : t) : option V :=
  match m with
  | [] => None
  | (k', v) :: r => if String.eqb k k' then Some v else get k r
  end.

(** [set] keeps the position of a key that is already there and appends
    a new one. *)
Fixpoint set (k : string) (v : V) (m : t) : t :=
  match m with
  | [] => [(k, v)]
  | (k', v') :: r =>
      if String.eqb k k' then (k, v) :: r else (k', v') :: set k v r
  end.

(** [delete] answers whether the key was there. *)
Fixpoint delete (k : string) (m : t) : bool * t :=
  match m with
  | [] => (false, [])
  | (k', v') :: r =>
      if String.eqb k k' then (true, r)
      else let (found, r') := delete k r in (found, (k', v') :: r')
  end.

Definition values (m : t) : list V := map snd m.
Definition keys (m : t) : list string := map fst m.
End Ops.

Arguments empty {V}.
Arguments get {V} k m.
Arguments set {V} k v m.
Arguments delete {V} k m.
Arguments values {V} m.
Arguments keys {V} m.
End JsMap.

(** ** [Array.prototype.sort]: a stable sort under a numeric comparator *)

Module JsArray.
Section Sort.
Variable A : Type.
Variable compareFn : A -> A -> Z.

(** [x] stood before every element of [l] in the array: it stays before
    the elements it does not compare greater than. *)
Fixpoint insert (x : A) (l : list A) : list A :=
  match l with
  | [] => [x]
  | y :: r => if (compareFn x y <=? 0)%Z then x :: y :: r else y :: insert x r
  end.

Definition sort (l : list A) : list A := fold_right insert [] l.
End Sort.
End JsArray.

(** ** shared/schema.ts: the three record types and their insert types *)

Module Vehicle.
Record t : Type := mk {
  id : string;
  vin : option string;
  year : Z;
  make : string;
  model : string;
  trim : option string;
  mileage : Z;
  transmission : string;
  fuelType : string;
  condition : string;
  price : Z;
  location : string;
  description : string;
  features : option (list string);
  images : option (list string);
  aiExtractedData : option Json;
  createdAt : option Z;
  updatedAt : option Z
}.
End Vehicle.

(** [InsertVehicle]: the nullable columns are optional; [None] is an absent
    or [null] field. *)
Module InsertVehicle.
Record t : Type := mk {
  vin : option string;
  year : Z;
  make : string;
  model : string;
  trim : option string;
  mileage : Z;
  transmission : string;
  fuelType : string;
  condition : string;
  price : Z;
  location : string;
  description : string;
  features : option (list string);
  images : option (list string);
  aiExtractedData : option Json
}.
End InsertVehicle.

(** [Partial<InsertVehicle>]: the outer [None] is a key that the object does
    not have; on a nullable column [Some None] is the key given as [null]. *)
Module VehicleUpdate.
Record t : Type := mk {
  vin : option (option string);
  year : option Z;
  make : option string;
  model : option string;
  trim : option (option string);
  mileage : option Z;
  transmission : option string;
  fuelType : option string;
  condition : option string;
  price : option Z;
  location : option string;
  description : option string;
  features : option (option (list string));
  images : option (option (list string));
  aiExtractedData : option (option Json)
}.

Definition none : t :=
  mk None None None None None None None None None None None None None None None.
End VehicleUpdate.

Module Listing.
Record t : Type := mk {
  id : string;
  vehicleId : option string;
  title : string;
  platform : string;
  status : string;
  listingData : option Json;
  createdAt : option Z;
  updatedAt : option Z
}.
End Listing.

(** [InsertListing]: [status] has a column default, so it is optional. *)
Module InsertListing.
Record t : Type := mk {
  vehicleId : option string;
  title : string;
  platform : string;
  status : option string;
  listingData : option Json
}.
End InsertListing.

Module ListingUpdate.
Record t : Type := mk {
  vehicleId : option (option string);
  title : option string;
  platform : option string;
  status : option string;
  listingData : option (option Json)
}.

Definition none : t := mk None None None None None.
End ListingUpdate.

Module AiExtraction.
Record t : Type := mk {
  id : string;
  vehicleId : option string;
  imageUrl : string;
  extractedText : option string;
  confidence : option Z;
  extractedData : option Json;
  createdAt : option Z
}.
End AiExtraction.

Module InsertAiExtraction.
Record t : Type := mk {
  vehicleId : option string;
  imageUrl : string;
  extractedText : option string;
  confidence : option Z;
  extractedData : option Json
}.
End InsertAiExtraction.

(** ** server/storage.ts: [MemStorage] *)

Module MemStorage.

Record t : Type := mk {
  vehicles : JsMap.t Vehicle.t;
  listings : JsMap.t Listing.t;
  aiExtractions : JsMap.t AiExtraction.t
}.

(** The constructor: three empty maps. *)
Definition new : t := mk JsMap.empty JsMap.empty JsMap.empty.

(** [new Date(d).getTime()]; [new Date(null)] is the epoch. *)
Definition getTime (d : option Z) : Z :=
  match d with Some ms => ms | None => 0%Z end.

(** [x || y] where [x] may be absent. *)
Definition given {A : Type} (x : option A) (y : A) : A :=
  match x with Some a => a | None => y end.

(** The creation instants that the two listings compare. *)
Definition vehicleTime (v : Vehicle.t) : Z := getTime (Vehicle.createdAt v).
Definition listingTime (l : Listing.t) : Z := getTime (Listing.createdAt l).

(** *** vehicles *)

Definition getVehicle (id : string) (st : t) : option Vehicle.t :=
  JsMap.get id (vehicles st).

Definition getAllVehicles (st : t) : list Vehicle.t :=
  JsArray.sort
    (fun a b => (getTime (Vehicle.createdAt b) - getTime (Vehicle.createdAt a))%Z)
    (JsMap.values (vehicles st)).

(** [id] is what [randomUUID()] returned and [now] what [new Date()] read. *)
Definition createVehicle (id : string) (now : Z) (insertVehicle : InsertVehicle.t)
    (st : t) : Vehicle.t * t :=
  let vehicle :=
    {| Vehicle.id := id;
       Vehicle.vin := InsertVehicle.vin insertVehicle;
       Vehicle.year := InsertVehicle.year insertVehicle;
       Vehicle.make := InsertVehicle.make insertVehicle;
       Vehicle.model := InsertVehicle.model insertVehicle;
       Vehicle.trim := Text.or_undefined (InsertVehicle.trim insertVehicle);
       Vehicle.mileage := InsertVehicle.mileage insertVehicle;
       Vehicle.transmission := InsertVehicle.transmission insertVehicle;
       Vehicle.fuelType := InsertVehicle.fuelType insertVehicle;
       Vehicle.condition := InsertVehicle.condition insertVehicle;
       Vehicle.price := InsertVehicle.price insertVehicle;
       Vehicle.location := InsertVehicle.location insertVehicle;
       Vehicle.description := InsertVehicle.description insertVehicle;
       Vehicle.features := Some (given (InsertVehicle.features insertVehicle) []);
       Vehicle.images := Some (given (InsertVehicle.images insertVehicle) []);
       Vehicle.aiExtractedData := InsertVehicle.aiExtractedData insertVehicle;
       Vehicle.createdAt := Some now;
       Vehicle.updatedAt := Some now |} in
  (vehicle, mk (JsMap.set id vehicle (vehicles st)) (listings st) (aiExtractions st)).

(** [u.features ? [...u.features] : existing.features]: an array, empty or
    not, is truthy; [null] and an absent key are not. *)
Definition copied_or_existing (u : option (option (list string)))
    (existing : option (list string)) : option (list string) :=
  match u with
  | Some (Some l) => Some l
  | _ => existing
  end.

Definition updateVehicle (now : Z) (id : string) (updateData : VehicleUpdate.t)
    (st : t) : option Vehicle.t * t :=
  match JsMap.get id (vehicles st) with
  | None => (None, st)
  | Some existing =>
      let updated :=
        {| Vehicle.id := Vehicle.id existing;
           Vehicle.vin := given (VehicleUpdate.vin updateData) (Vehicle.vin existing);
           Vehicle.year := given (VehicleUpdate.year updateData) (Vehicle.year existing);
           Vehicle.make := given (VehicleUpdate.make updateData) (Vehicle.make existing);
           Vehicle.model := given (VehicleUpdate.model updateData) (Vehicle.model existing);
           Vehicle.trim := given (VehicleUpdate.trim updateData) (Vehicle.trim existing);
           Vehicle.mileage :=
             given (VehicleUpdate.mileage updateData) (Vehicle.mileage existing);
           Vehicle.transmission :=
             given (VehicleUpdate.transmission updateData) (Vehicle.transmission existing);
           Vehicle.fuelType :=
             given (VehicleUpdate.fuelType updateData) (Vehicle.fuelType existing);
           Vehicle.condition :=
             given (VehicleUpdate.condition updateData) (Vehicle.condition existing);
           Vehicle.price := given (VehicleUpdate.price updateData) (Vehicle.price existing);
           Vehicle.location :=
             given (VehicleUpdate.location updateData) (Vehicle.location existing);
           Vehicle.description :=
             given (VehicleUpdate.description updateData) (Vehicle.description existing);
           Vehicle.features :=
             copied_or_existing (VehicleUpdate.features updateData) (Vehicle.features existing);
           Vehicle.images :=
             copied_or_existing (VehicleUpdate.images updateData) (Vehicle.images existing);
           Vehicle.aiExtractedData :=
             given (VehicleUpdate.aiExtractedData updateData)
                   (Vehicle.aiExtractedData existing);
           Vehicle.createdAt := Vehicle.createdAt existing;
           Vehicle.updatedAt := Some now |} in
      (Some updated,
       mk (JsMap.set id updated (vehicles st)) (listings st) (aiExtractions st))
  end.

Definition deleteVehicle (id : string) (st : t) : bool * t :=
  let (found, vs) := JsMap.delete id (vehicles st) in
  (found, mk vs (listings st) (aiExtractions st)).

(** *** listings *)

Definition getListing (id : string) (st : t) : option Listing.t :=
  JsMap.get id (listings st).

Definition option_eqb (a : option string) (b : string) : bool :=
  match a with Some x => String.eqb x b | None => false end.

Definition getListingsByVehicle (vehicleId : string) (st : t) : list Listing.t :=
  filter (fun l => option_eqb (Listing.vehicleId l) vehicleId)
         (JsMap.values (listings st)).

Definition getAllListings (st : t) : list Listing.t :=
  JsArray.sort
    (fun a b => (getTime (Listing.createdAt b) - getTime (Listing.createdAt a))%Z)
    (JsMap.values (listings st)).

(** [insertListing.status || "draft"]. *)
Definition status_or_draft (s : option string) : string :=
  match Text.or_undefined s with Some x => x | None => "draft" end.

Definition createListing (id : string) (now : Z) (insertListing : InsertListing.t)
    (st : t) : Listing.t * t :=
  let listing :=
    {| Listing.id := id;
       Listing.vehicleId := InsertListing.vehicleId insertListing;
       Listing.title := InsertListing.title insertListing;
       Listing.platform := InsertListing.platform insertListing;
       Listing.status := status_or_draft (InsertListing.status insertListing);
       Listing.listingData := InsertListing.listingData insertListing;
       Listing.createdAt := Some now;
       Listing.updatedAt := Some now |} in
  (listing, mk (vehicles st) (JsMap.set id listing (listings st)) (aiExtractions st)).

Definition updateListing (now : Z) (id : string) (updateData : ListingUpdate.t)
    (st : t) : option Listing.t * t :=
  match JsMap.get id (listings st) with
  | None => (None, st)
  | Some existing =>
      let updated :=
        {| Listing.id := Listing.id existing;
           Listing.vehicleId :=
             given (ListingUpdate.vehicleId updateData) (Listing.vehicleId existing);
           Listing.title := given (ListingUpdate.title updateData) (Listing.title existing);
           Listing.platform :=
             given (ListingUpdate.platform updateData) (Listing.platform existing);
           Listing.status := given (ListingUpdate.status updateData) (Listing.status existing);
           Listing.listingData :=
             given (ListingUpdate.listingData updateData) (Listing.listingData existing);
           Listing.createdAt := Listing.createdAt existing;
           Listing.updatedAt := Some now |} in
      (Some updated,
       mk (vehicles st) (JsMap.set id updated (listings st)) (aiExtractions st))
  end.

Definition deleteListing (id : string) (st : t) : bool * t :=
  let (found, ls) := JsMap.delete id (listings st) in
  (found, mk (vehicles st) ls (aiExtractions st)).

(** *** extractions *)

Definition getAiExtraction (id : string) (st : t) : option AiExtraction.t :=
  JsMap.get id (aiExtractions st).

Definition getAiExtractionsByVehicle (vehicleId : string) (st : t) : list AiExtraction.t :=
  filter (fun e => option_eqb (AiExtraction.vehicleId e) vehicleId)
         (JsMap.values (aiExtractions st)).

Definition createAiExtraction (id : string) (now : Z)
    (insertExtraction : InsertAiExtraction.t) (st : t) : AiExtraction.t * t :=
  let extraction :=
    {| AiExtraction.id := id;
       AiExtraction.vehicleId :=
         Text.or_undefined (InsertAiExtraction.vehicleId insertExtraction);
       AiExtraction.imageUrl := InsertAiExtraction.imageUrl insertExtraction;
       AiExtraction.extractedText := InsertAiExtraction.extractedText insertExtraction;
       AiExtraction.confidence := InsertAiExtraction.confidence insertExtraction;
       AiExtraction.extractedData := InsertAiExtraction.extractedData insertExtraction;
       AiExtraction.createdAt := Some now |} in
  (extraction,
   mk (vehicles st) (listings st) (JsMap.set id extraction (aiExtractions st))).

End MemStorage.

(** ** Outbound HTTP and the effects of a handler *)

Module Http.

Inductive Call : Type :=
| Get (url : string)
| Post (url : string) (body : Json).

(** What [fetch] resolves to; [json] is [None] when [response.json()]
    rejects. *)
Record Response (B : Type) : Type := mkResponse {
  ok : bool;
  status : Z;
  statusText : string;
  json : option B
}.

(** [fetch] rejects (the endpoint cannot be reached) or resolves. *)
Inductive Outcome (B : Type) : Type :=
| Rejected (reason : string)
| Responded (r : Response B).

Arguments Rejected {B} reason.
Arguments Responded {B} r.

End Http.

(** An asynchronous computation either returns or throws an [Error] with a
    message, and leaves behind the outbound calls it issued, the files it
    wrote and the identifiers it drew. *)
Module Effect.

Record World : Type := mkWorld {
  calls : list Http.Call;
  written : list (string * string);
  drawn : nat
}.

Definition start : World := mkWorld [] [] 0.

Inductive result (A : Type) : Type :=
| Return (a : A)
| Throw (message : string).

Arguments Return {A} a.
Arguments Throw {A} message.

Definition t (A : Type) : Type := World -> result A * World.

Definition ret (A : Type) (a : A) : t A := fun w => (Return a, w).

Definition throw (A : Type) (message : string) : t A := fun w => (Throw message, w).
Arguments throw {A} message.

Definition bind (A B : Type) (m : t A) (f : A -> t B) : t B :=
  fun w =>
    match m w with
    | (Return a, w') => f a w'
    | (Throw e, w') => (Throw e, w')
    end.

(** [try { m } catch (error) { handler(error.message) }]. *)
Definition try_catch (A : Type) (m : t A) (handler : string -> t A) : t A :=
  fun w =>
    match m w with
    | (Return a, w') => (Return a, w')
    | (Throw e, w') => handler e w'
    end.

(** [await fetch(...)]: the call is issued, and then it resolves or rejects
    as the endpoint decides. *)
Definition fetch (B : Type) (endpoint : Http.Call -> Http.Outcome B) (c : Http.Call)
    : t (Http.Response B) :=
  fun w =>
    let w' := mkWorld (calls w ++ [c])%list (written w) (drawn w) in
    match endpoint c with
    | Http.Rejected reason => (Throw reason, w')
    | Http.Responded r => (Return r, w')
    end.

(** [await response.json()]. *)
Definition json (B : Type) (r : Http.Response B) : t B :=
  match Http.json r with
  | Some b => ret b
  | None => throw "Unexpected token in JSON"
  end.

Definition run (A : Type) (m : t A) : result A * World := m start.

End Effect.

Declare Scope effect_scope.
Delimit Scope effect_scope with effect.
Notation "x <- m ;; k" := (Effect.bind m (fun x => k))
  (at level 61, m at next level, right associativity) : effect_scope.

(** ** Property reads on an object literal *)

Module JsObject.

(** What reading [obj[key]] can give when the own properties of [obj] are
    strings: nothing, a string, or one of the built-ins that every object
    inherits. *)
Inductive value : Type :=
| Undefined
| Str (s : string)
| Builtin (name : string).

(** The properties of [Object.prototype]. *)
Definition objectPrototype : list (string * value) :=
  [ ("constructor", Builtin "Object");
    ("__defineGetter__", Builtin "Object.prototype.__defineGetter__");
    ("__defineSetter__", Builtin "Object.prototype.__defineSetter__");
    ("hasOwnProperty", Builtin "Object.prototype.hasOwnProperty");
    ("__lookupGetter__", Builtin "Object.prototype.__lookupGetter__");
    ("__lookupSetter__", Builtin "Object.prototype.__lookupSetter__");
    ("isPrototypeOf", Builtin "Object.prototype.isPrototypeOf");
    ("propertyIsEnumerable", Builtin "Object.prototype.propertyIsEnumerable");
    ("toString", Builtin "Object.prototype.toString");
    ("valueOf", Builtin "Object.prototype.valueOf");
    ("__proto__", Builtin "Object.prototype");
    ("toLocaleString", Builtin "Object.prototype.toLocaleString") ].

(** [literal[key]]: an own property first, then the prototype. *)
Definition get (literal : list (string * string)) (key : string) : value :=
  match JsMap.get key literal with
  | Some s => Str s
  | None =>
      match JsMap.get key objectPrototype with
      | Some b => b
      | None => Undefined
      end
  end.

Definition truthy (v : value) : bool :=
  match v with
  | Undefined => false
  | Str s => Text.truthy s
  | Builtin _ => true
  end.

(** [v || fallback]. *)
Definition or (v : value) (fallback : string) : value :=
  if truthy v then v else Str fallback.

End JsObject.

(** ** Numbers as text *)

Module Number.

(** [String(n)] for an integer. *)
Definition toString (n : Z) : string := NilZero.string_of_int (Z.to_int n).

(** The digits of a reversed numeral with a comma after every third one
    that has a digit after it. *)
Fixpoint group3 (reversed : list ascii) : list ascii :=
  match reversed with
  | a :: b :: c :: ((_ :: _) as more) => a :: b :: c :: ","%char :: group3 more
  | _ => reversed
  end.

Definition digits (n : Z) : list ascii :=
  list_ascii_of_string (NilZero.string_of_uint (N.to_uint (Z.abs_N n))).

(** [n.toLocaleString()] for an integer under the [en-US] locale. *)
Definition toLocaleString (n : Z) : string :=
  ((if (n <? 0)%Z then "-" else "") ++
   string_of_list_ascii (rev (group3 (rev (digits n)))))%string.

End Number.

(** ** Regular expressions: the fragment that the services use

    Matching is the backtracking search of [RegExp.prototype.exec]: the
    alternatives are tried in order, a repetition is greedy, and the first
    way to match the whole pattern wins. *)

Module Regex.

(** A character class; [inverted] is the leading [^]. *)
Record charset : Type := mkSet {
  members : ascii -> bool;
  inverted : bool
}.

(** The canonical form that the [i] flag compares. *)
Definition same (ignoreCase : bool) (a b : ascii) : bool :=
  if ignoreCase then Ascii.eqb (Text.upper_char a) (Text.upper_char b)
  else Ascii.eqb a b.

Definition accepts (ignoreCase : bool) (cs : charset) (c : ascii) : bool :=
  xorb (inverted cs)
       (if ignoreCase
        then members cs c || members cs (Text.upper_char c) || members cs (Text.lower_char c)
        else members cs c).

Inductive t : Type :=
| Lit (s : string)
| Times (n : nat) (cs : charset)
| Plus (cs : charset)
| Star (cs : charset)
| Seq (a b : t)
| Alt (a b : t)
| Group (a : t).

(** What is left of [s] after the literal [l], if [s] starts with it. *)
Fixpoint literal (ignoreCase : bool) (l s : string) : option string :=
  match l with
  | EmptyString => Some s
  | String a l' =>
      match s with
      | String b s' => if same ignoreCase a b then literal ignoreCase l' s' else None
      | EmptyString => None
      end
  end.

(** The part of [s] before its suffix [rest]. *)
Definition consumed (s rest : string) : string :=
  substring 0 (String.length s - String.length rest) s.

Section Exec.
Variable ignoreCase : bool.
Variable R : Type.

Fixpoint times (n : nat) (cs : charset) (s : string) (k : string -> option R)
    : option R :=
  match n with
  | O => k s
  | S n' =>
      match s with
      | String c r => if accepts ignoreCase cs c then times n' cs r k else None
      | EmptyString => None
      end
  end.

(** Greedy: as many characters as the class takes, then one fewer, ... *)
Fixpoint star (cs : charset) (s : string) (k : string -> option R) : option R :=
  match s with
  | String c r =>
      if accepts ignoreCase cs c
      then match star cs r k with
           | Some x => Some x
           | None => k s
           end
      else k s
  | EmptyString => k s
  end.

Definition plus (cs : charset) (s : string) (k : string -> option R) : option R :=
  match s with
  | String c r => if accepts ignoreCase cs c then star cs r k else None
  | EmptyString => None
  end.

(** [exec r s cap k]: match [r] at the start of [s] and hand what is left,
    with the capture of group 1, to the rest of the pattern [k]. *)
Fixpoint exec (r : t) (s : string) (cap : option string)
    (k : string -> option string -> option R) : option R :=
  match r with
  | Lit l =>
      match literal ignoreCase l s with
      | Some rest => k rest cap
      | None => None
      end
  | Times n cs => times n cs s (fun rest => k rest cap)
  | Plus cs => plus cs s (fun rest => k rest cap)
  | Star cs => star cs s (fun rest => k rest cap)
  | Seq a b => exec a s cap (fun rest cap' => exec b rest cap' k)
  | Alt a b =>
      match exec a s cap k with
      | Some x => Some x
      | None => exec b s cap k
      end
  | Group a => exec a s cap (fun rest _ => k rest (Some (consumed s rest)))
  end.
End Exec.

(** The [$] after the pattern: nothing is left. *)
Definition atEnd (rest : string) : option unit :=
  match rest with EmptyString => Some tt | _ => None end.

(** [/^r$/.test(s)]. *)
Definition testWhole (ignoreCase : bool) (r : t) (s : string) : bool :=
  match exec ignoreCase r s None (fun rest _ => atEnd rest) with
  | Some _ => true
  | None => false
  end.

(** [s.match(/r/)] without the [g] flag: the match at the leftmost start
    that has one, as the matched text and the capture of group 1. *)
Fixpoint search (ignoreCase : bool) (r : t) (s : string)
    : option (string * option string) :=
  match exec ignoreCase r s None (fun rest cap => Some (consumed s rest, cap)) with
  | Some m => Some m
  | None =>
      match s with
      | String _ s' => search ignoreCase r s'
      | EmptyString => None
      end
  end.

Definition isChar (c : ascii) : ascii -> bool := Ascii.eqb c.

(** [[\s\S]] *)
Definition anything : charset :=
  mkSet (fun c => Text.is_space c || negb (Text.is_space c)) false.

(** [[:\s]] *)
Definition colonOrSpace : charset :=
  mkSet (fun c => isChar ":" c || Text.is_space c) false.

(** [[A-Z0-9\-\s]] *)
Definition plateChars : charset :=
  mkSet (fun c => Text.is_upper c || Text.is_digit c || isChar "-" c || Text.is_space c) false.

(** [[^.\n]] *)
Definition notDotNorNewline : charset :=
  mkSet (fun c => isChar "." c || isChar (ascii_of_N 10) c) true.

(** [[A-HJ-NPR-Z0-9]] *)
Definition vinChars : charset :=
  mkSet (fun c => Text.in_range 65 72 c || Text.in_range 74 78 c || isChar "P" c ||
                  Text.in_range 82 90 c || Text.is_digit c) false.

End Regex.

(** ** server/services/vin-lookup.ts: [VinLookupService] *)

Module VinLookupService.

(** A row of the registry's [DecodeVinValues] answer: the registry gives
    every value as a string; [None] is a value it leaves out. *)
Record NhtsaResult : Type := mkRow {
  ErrorCode : option string;
  ErrorText : option string;
  Make : option string;
  Model : option string;
  ModelYear : option string;
  Trim : option string;
  EngineHP : option string;
  TransmissionStyle : option string;
  FuelTypePrimary : option string;
  BodyClass : option string;
  DriveType : option string
}.

Record NhtsaData : Type := mkData {
  Results : option (list NhtsaResult)
}.

Record VinLookupResult : Type := mkResult {
  make : option string;
  model : option string;
  year : option Z;
  trim : option string;
  engine : option string;
  transmission : option string;
  fuelType : JsObject.value;
  bodyStyle : option string;
  drivetrain : option string;
  success : bool;
  source : option string;
  error : option string
}.

(** [{ success: false, error }] *)
Definition failed (message : string) : VinLookupResult :=
  mkResult None None None None None None JsObject.Undefined None None
           false None (Some message).

Definition vinPattern : Regex.t := Regex.Times 17 Regex.vinChars.

Definition isValidVin (vin : string) : bool :=
  if negb (String.length vin =? 17)%nat then false
  else if negb (Regex.testWhole false vinPattern vin) then false
  else true.

Definition mappings : list (string * string) :=
  [ ("gasoline", "gasoline");
    ("gas", "gasoline");
    ("electric", "electric");
    ("hybrid", "hybrid");
    ("diesel", "diesel");
    ("flex fuel", "gasoline");
    ("e85", "gasoline") ].

Definition mapFuelType (fuelType : option string) : JsObject.value :=
  match Text.or_undefined fuelType with
  | None => JsObject.Undefined
  | Some f =>
      let normalized := Text.toLowerCase f in
      JsObject.or (JsObject.get mappings normalized) "gasoline"
  end.

(** *** [parseInt] *)

Definition digitValue (c : ascii) : option Z :=
  if Text.is_digit c then Some (Z.of_N (Text.code c) - 48)%Z
  else if Text.in_range 97 122 c then Some (Z.of_N (Text.code c) - 87)%Z
  else if Text.in_range 65 90 c then Some (Z.of_N (Text.code c) - 55)%Z
  else None.

Fixpoint digitsPrefix (radix : Z) (s : string) (acc : option Z) : option Z :=
  match s with
  | String c r =>
      match digitValue c with
      | Some d =>
          if (d <? radix)%Z
          then digitsPrefix radix r (Some (MemStorage.given acc 0 * radix + d)%Z)
          else acc
      | None => acc
      end
  | EmptyString => acc
  end.

(** [None] is [NaN]. *)
Definition parseInt (input : option string) : option Z :=
  match input with
  | None => None
  | Some text =>
      let s := Text.trimStart text in
      let '(sign, s) :=
        match s with
        | String "-" r => ((-1)%Z, r)
        | String "+" r => (1%Z, r)
        | _ => (1%Z, s)
        end in
      let '(radix, s) :=
        match s with
        | String "0" (String x r) =>
            if Regex.isChar "x" x || Regex.isChar "X" x then (16%Z, r) else (10%Z, s)
        | _ => (10%Z, s)
        end in
      option_map (Z.mul sign) (digitsPrefix radix s None)
  end.

(** [n || undefined] on a number that may be [NaN]. *)
Definition number_or_undefined (n : option Z) : option Z :=
  match n with
  | Some 0%Z => None
  | _ => n
  end.

Section Service.
(** The registry endpoint, and [this.apiKey] and [this.baseUrl] as the
    constructor read them from the environment. *)
Variable registry : Http.Call -> Http.Outcome NhtsaData.
Variable apiKey : string.
Variable baseUrl : string.

Local Open Scope effect_scope.

Definition registryUrl (vin : string) : string :=
  baseUrl ++ "/vehicles/DecodeVinValues/" ++ vin ++ "?format=json".

Definition lookupWithNHTSA (vin : string) : Effect.t VinLookupResult :=
  let url := registryUrl vin in
  response <- Effect.fetch registry (Http.Get url) ;;
  if negb (Http.ok response)
  then Effect.throw ("NHTSA API error: " ++ Number.toString (Http.status response))
  else
    data <- Effect.json response ;;
    let result :=
      match Results data with
      | Some (first :: _) => Some first
      | _ => None
      end in
    match result with
    | None => Effect.ret (failed "VIN not found in NHTSA database")
    | Some result =>
        if negb (MemStorage.option_eqb (ErrorCode result) "0")
        then Effect.ret
               (failed (MemStorage.given (Text.or_undefined (ErrorText result))
                                         "VIN not found in NHTSA database"))
        else Effect.ret
               {| make := Text.or_undefined (Make result);
                  model := Text.or_undefined (Model result);
                  year := number_or_undefined (parseInt (ModelYear result));
                  trim := Text.or_undefined (Trim result);
                  engine :=
                    match Text.or_undefined (EngineHP result) with
                    | Some hp => Some (hp ++ " HP")
                    | None => None
                    end;
                  transmission := Text.or_undefined (TransmissionStyle result);
                  fuelType := mapFuelType (FuelTypePrimary result);
                  bodyStyle := Text.or_undefined (BodyClass result);
                  drivetrain := Text.or_undefined (DriveType result);
                  success := true;
                  source := Some "NHTSA";
                  error := None |}
    end.

(** The commercial provider is a placeholder that issues no call. *)
Definition lookupWithCommercialAPI (vin : string) : Effect.t VinLookupResult :=
  Effect.ret (failed "Commercial VIN API not configured").

Definition lookupVin (vin : string) : Effect.t VinLookupResult :=
  if negb (isValidVin vin)
  then Effect.ret (failed "Invalid VIN format. VIN must be 17 characters.")
  else
    Effect.try_catch
      (nhtsaResult <- lookupWithNHTSA vin ;;
       if success nhtsaResult then Effect.ret nhtsaResult
       else if Text.truthy apiKey then lookupWithCommercialAPI vin
       else Effect.ret
              (failed "VIN lookup service unavailable. Please enter vehicle information manually."))
      (fun _ =>
         Effect.ret
           (failed "VIN lookup failed. Please try again or enter information manually.")).
End Service.

(** The four messages with which [lookupVin] fails. *)
Definition failureMessages : list string :=
  [ "Invalid VIN format. VIN must be 17 characters.";
    "Commercial VIN API not configured";
    "VIN lookup service unavailable. Please enter vehicle information manually.";
    "VIN lookup failed. Please try again or enter information manually." ].

(** No text field of the result is the empty string, and the year is not 0. *)
Definition noEmptyField (r : VinLookupResult) : Prop :=
  make r <> Some "" /\ model r <> Some "" /\ trim r <> Some "" /\
  engine r <> Some "" /\ transmission r <> Some "" /\ bodyStyle r <> Some "" /\
  drivetrain r <> Some "" /\ year r <> Some 0%Z.

End VinLookupService.

(** ** client/src/lib/vin-lookup.ts: the validators of [VinLookupClient] *)

Module VinLookupClient.

Definition isValidVin (vin : string) : bool :=
  if negb (String.length vin =? 17)%nat then false
  else if negb (Regex.testWhole false VinLookupService.vinPattern (Text.toUpperCase vin))
       then false
       else true.

(** [validateVin(vin).valid]; the pattern has the [i] flag. *)
Definition validateVin (vin : string) : bool :=
  if negb (String.length vin =? 17)%nat then false
  else if negb (Regex.testWhole true VinLookupService.vinPattern vin) then false
  else true.

(** [[^A-HJ-NPR-Z0-9]] *)
Definition notVinChars : Regex.charset :=
  Regex.mkSet (Regex.members Regex.vinChars) true.

(** [s.replace(/[cs]/g, "")]: every character of the class is dropped. *)
Fixpoint removeAll (cs : Regex.charset) (s : string) : string :=
  match s with
  | EmptyString => EmptyString
  | String c r =>
      if Regex.accepts false cs c then removeAll cs r else String c (removeAll cs r)
  end.

Definition formatVin (vin : string) : string :=
  removeAll notVinChars (Text.toUpperCase vin).

Section Client.
(** The server's API as the browser reaches it, and [this.baseUrl]. *)
Variable api : Http.Call -> Http.Outcome VinLookupService.VinLookupResult.
Variable baseUrl : string.

Local Open Scope effect_scope.

Definition lookupCall (vin : string) : Http.Call :=
  Http.Get (baseUrl ++ "/vin/" ++ Text.toUpperCase vin).

(** The [try] covers the request and the status; the body is returned
    without [await], so a body that is not JSON rejects outside of it. *)
Definition lookupVin (vin : string) : Effect.t VinLookupService.VinLookupResult :=
  if negb (isValidVin vin)
  then Effect.ret
         (VinLookupService.failed "Invalid VIN format. VIN must be 17 characters.")
  else
    answered <-
      Effect.try_catch
        (response <- Effect.fetch api (lookupCall vin) ;;
         if negb (Http.ok response)
         then Effect.throw ("HTTP " ++ Number.toString (Http.status response))
         else Effect.ret (inr response))
        (fun message => Effect.ret (inl (VinLookupService.failed message))) ;;
    match answered with
    | inl failure => Effect.ret failure
    | inr response => Effect.json response
    end.
End Client.

End VinLookupClient.

(** ** server/services/ollama.ts: [OllamaService] *)

Module OllamaService.

(** The body of the endpoint's answer; [response] is [None] when the body
    has no text under that key. *)
Record OllamaResponse : Type := mkData {
  response : option string;
  done : bool
}.

(** The analysis result is an object: the extracted fields with
    [confidence], [extractedText] and [rawResponse] set over them. *)
Definition VisionAnalysisResult : Type := JsMap.t Json.

Definition quoted (s : string) : string :=
  String (ascii_of_N 34) s ++ String (ascii_of_N 34) EmptyString.

Definition newline : string := String (ascii_of_N 10) EmptyString.

Definition promptLine (key value tail : string) : string :=
  "      " ++ quoted key ++ ": " ++ quoted value ++ tail ++ newline.

Definition prompt : string :=
  "Analyze this vehicle image and extract the following information in JSON format:"
  ++ newline ++ "    {" ++ newline
  ++ promptLine "licensePlate" "visible license plate number or null" ","
  ++ promptLine "damage" "description of any visible damage or 'none'" ","
  ++ promptLine "interior"
       "condition of interior if visible (excellent/good/fair/poor) or null" ","
  ++ promptLine "exterior" "condition of exterior (excellent/good/fair/poor)" ","
  ++ promptLine "make" "vehicle make if identifiable" ","
  ++ promptLine "model" "vehicle model if identifiable" ", "
  ++ promptLine "year" "estimated year or null" ","
  ++ promptLine "color" "primary vehicle color" ","
  ++ "      " ++ quoted "features" ++ ": [" ++ quoted "list" ++ ", " ++ quoted "of"
  ++ ", " ++ quoted "visible" ++ ", " ++ quoted "features" ++ "]" ++ newline
  ++ "    }" ++ newline ++ "    " ++ newline
  ++ "    Be accurate and only include information you can clearly see. Use null for unclear items.".

(** [/\{[\s\S]*\}/] *)
Definition jsonSpan : Regex.t :=
  Regex.Seq (Regex.Lit "{") (Regex.Seq (Regex.Star Regex.anything) (Regex.Lit "}")).

(** [/license plate[:\s]+([A-Z0-9\-\s]+)/i] *)
Definition licensePlatePattern : Regex.t :=
  Regex.Seq (Regex.Lit "license plate")
    (Regex.Seq (Regex.Plus Regex.colonOrSpace) (Regex.Group (Regex.Plus Regex.plateChars))).

(** [/damage[:\s]+([^.\n]+)/i] *)
Definition damagePattern : Regex.t :=
  Regex.Seq (Regex.Lit "damage")
    (Regex.Seq (Regex.Plus Regex.colonOrSpace)
               (Regex.Group (Regex.Plus Regex.notDotNorNewline))).

(** [(excellent|good|fair|poor)] *)
Definition conditionWord : Regex.t :=
  Regex.Group
    (Regex.Alt (Regex.Lit "excellent")
       (Regex.Alt (Regex.Lit "good") (Regex.Alt (Regex.Lit "fair") (Regex.Lit "poor")))).

(** [/interior[:\s]+(excellent|good|fair|poor)/i] *)
Definition interiorPattern : Regex.t :=
  Regex.Seq (Regex.Lit "interior") (Regex.Seq (Regex.Plus Regex.colonOrSpace) conditionWord).

(** [/exterior[:\s]+(excellent|good|fair|poor)/i] *)
Definition exteriorPattern : Regex.t :=
  Regex.Seq (Regex.Lit "exterior") (Regex.Seq (Regex.Plus Regex.colonOrSpace) conditionWord).

(** [if (m) { result[key] = f(m[1]); }] *)
Definition assign (key : string) (m : option (string * option string))
    (f : string -> string) (result : JsMap.t Json) : JsMap.t Json :=
  match m with
  | Some (_, Some captured) => JsMap.set key (JStr (f captured)) result
  | _ => result
  end.

Definition parseTextResponse (text : string) : JsMap.t Json :=
  let result := JsMap.empty in
  let result :=
    assign "licensePlate" (Regex.search true licensePlatePattern text) Text.trim result in
  let result := assign "damage" (Regex.search true damagePattern text) Text.trim result in
  let result :=
    assign "interior" (Regex.search true interiorPattern text) Text.toLowerCase result in
  let result :=
    assign "exterior" (Regex.search true exteriorPattern text) Text.toLowerCase result in
  result.

(** [text.match(/\{[\s\S]*\}/)], as [jsonMatch[0]]. *)
Definition jsonMatch (text : string) : option string :=
  option_map fst (Regex.search false jsonSpan text).

Definition typeError : string := "Cannot read properties of undefined (reading 'match')".

Section Service.
(** The inference endpoint, [JSON.parse] on a text that starts with a
    brace (it returns an object or throws), and [this.baseUrl] and
    [this.model]. *)
Variable endpoint : Http.Call -> Http.Outcome OllamaResponse.
Variable JSON_parse : string -> option (JsMap.t Json).
Variable baseUrl : string.
Variable model : string.

Local Open Scope effect_scope.

(** The inner [try]: the extracted data and the confidence. *)
Definition extract (text : option string) : Effect.t (JsMap.t Json * Z) :=
  Effect.try_catch
    (match text with
     | None => Effect.throw typeError
     | Some t =>
         match jsonMatch t with
         | Some span =>
             match JSON_parse span with
             | Some parsed => Effect.ret (parsed, 85%Z)
             | None => Effect.throw "Unexpected token in JSON"
             end
         | None => Effect.ret (JsMap.empty, 50%Z)
         end
     end)
    (fun _ =>
       match text with
       | None => Effect.throw typeError
       | Some t => Effect.ret (parseTextResponse t, 60%Z)
       end).

Definition textJson (text : option string) : Json :=
  match text with Some t => JStr t | None => JNull end.

(** The single-shot request for one image. *)
Definition generateCall (imageBase64 : string) : Http.Call :=
  Http.Post (baseUrl ++ "/api/generate")
    (JObj [ ("model", JStr model);
            ("prompt", JStr prompt);
            ("images", JArr [JStr imageBase64]);
            ("stream", JBool false) ]).

Definition analyzeVehicleImage (imageBase64 : string) : Effect.t VisionAnalysisResult :=
  Effect.try_catch
    (response <- Effect.fetch endpoint (generateCall imageBase64) ;;
     if negb (Http.ok response)
     then Effect.throw ("Ollama API error: " ++ Number.toString (Http.status response)
                        ++ " " ++ Http.statusText response)
     else
       data <- Effect.json response ;;
       extracted <- extract (OllamaService.response data) ;;
       Effect.ret
         (JsMap.set "rawResponse" (textJson (OllamaService.response data))
            (JsMap.set "extractedText" (textJson (OllamaService.response data))
               (JsMap.set "confidence" (JNum (snd extracted)) (fst extracted)))))
    (fun message => Effect.throw ("Failed to analyze image with Ollama: " ++ message)).
End Service.

(** *** The span, read off the text

    From the first opening brace of the text through its last closing
    brace, when one comes after the other. *)

Definition isOpen (c : ascii) : bool := Ascii.eqb "{" c.
Definition isClose (c : ascii) : bool := Ascii.eqb "}" c.

(** The suffix of the text that starts at its first opening brace. *)
Fixpoint fromFirstOpen (s : string) : option string :=
  match s with
  | EmptyString => None
  | String c r => if isOpen c then Some s else fromFirstOpen r
  end.

(** The longest prefix of the text that ends in a closing brace. *)
Fixpoint throughLastClose (s : string) : option string :=
  match s with
  | EmptyString => None
  | String c r =>
      match throughLastClose r with
      | Some p => Some (String c p)
      | None => if isClose c then Some (String c EmptyString) else None
      end
  end.

Definition braceSpan (text : string) : option string :=
  match fromFirstOpen text with
  | Some s => throughLastClose s
  | None => None
  end.

(** The three keys that the result sets over the extracted data. *)
Definition reserved (key : string) : bool :=
  String.eqb key "confidence" || String.eqb key "extractedText"
  || String.eqb key "rawResponse".

(** Every other field of [result] is the field of [source]. *)
Definition fieldsFrom (source : JsMap.t Json) (result : VisionAnalysisResult) : Prop :=
  forall key, reserved key = false -> JsMap.get key result = JsMap.get key source.

(** *** The health check and the list of models *)

Record ModelTag : Type := mkTag {
  name : string
}.

(** The body of [GET /api/tags]; [models] is [None] when the body has no
    such key. *)
Record TagsData : Type := mkTags {
  models : option (list ModelTag)
}.

Section Health.
Variable tags : Http.Call -> Http.Outcome TagsData.
Variable baseUrl : string.

Local Open Scope effect_scope.

Definition tagsCall : Http.Call := Http.Get (baseUrl ++ "/api/tags").

Definition checkHealth : Effect.t bool :=
  Effect.try_catch
    (response <- Effect.fetch tags tagsCall ;;
     Effect.ret (Http.ok response))
    (fun _ => Effect.ret false).

Definition listModels : Effect.t (list string) :=
  Effect.try_catch
    (response <- Effect.fetch tags tagsCall ;;
     if negb (Http.ok response) then Effect.ret []
     else
       data <- Effect.json response ;;
       Effect.ret
         match models data with
         | Some found => map name found
         | None => []
         end)
    (fun _ => Effect.ret []).
End Health.

(** The start of every message that the adapter throws. *)
Definition failurePrefix : string := "Failed to analyze image with Ollama: ".

(** What the two service calls of the health route come to, by the answer
    of the endpoint to the request for the tags. *)
Definition healthOf (o : Http.Outcome TagsData) : bool * list string :=
  match o with
  | Http.Rejected _ => (false, [])
  | Http.Responded r =>
      if Http.ok r
      then (true,
            match Http.json r with
            | Some data =>
                match models data with
                | Some found => map name found
                | None => []
                end
            | None => []
            end)
      else (false, [])
  end.

(** The four words of a condition. *)
Definition conditionWords : list string := ["excellent"; "good"; "fair"; "poor"].


(** [f(m[1])] of a match [m], when there is one. *)
Definition captured (m : option (string * option string)) (f : string -> string)
    : option Json :=
  match m with
  | Some (_, Some group) => Some (JStr (f group))
  | _ => None
  end.

End OllamaService.

(** ** server/services/image-processor.ts: [ImageProcessor] *)

Module ImageProcessor.

Record ProcessedImage : Type := mkImage {
  filename : string;
  originalName : string;
  size : Z;
  mimetype : string;
  base64 : string;
  url : string
}.

Definition allowedTypes : list string :=
  ["image/jpeg"; "image/jpg"; "image/png"; "image/webp"].

Definition maxSize : Z := 10 * 1024 * 1024.

Definition includes (l : list string) (s : string) : bool := existsb (String.eqb s) l.

Definition validateImageFile (mimetype : string) (size : Z) : Effect.t unit :=
  if negb (includes allowedTypes (Text.toLowerCase mimetype))
  then Effect.throw "Invalid file type. Only JPEG, PNG, and WEBP images are allowed."
  else if (size >? maxSize)%Z
       then Effect.throw "File too large. Maximum size is 10MB."
       else Effect.ret tt.

Section Processor.
(** [this.uploadDir]; the identifiers that [randomUUID] gives, by the number
    drawn before; [path.extname]; [buffer.toString("base64")]; and the error
    with which the disk refuses a path, when it does. *)
Variable uploadDir : string.
Variable randomUUID : nat -> string.
Variable extname : string -> string.
Variable toBase64 : string -> string.
Variable diskError : string -> option string.

Local Open Scope effect_scope.

Definition mkdir (dir : string) : Effect.t unit :=
  fun w =>
    match diskError dir with
    | Some e => (Effect.Throw e, w)
    | None => (Effect.Return tt, w)
    end.

Definition writeFile (path data : string) : Effect.t unit :=
  fun w =>
    match diskError path with
    | Some e => (Effect.Throw e, w)
    | None =>
        (Effect.Return tt,
         Effect.mkWorld (Effect.calls w) (Effect.written w ++ [(path, data)])%list
                        (Effect.drawn w))
    end.

Definition drawUUID : Effect.t string :=
  fun w =>
    (Effect.Return (randomUUID (Effect.drawn w)),
     Effect.mkWorld (Effect.calls w) (Effect.written w) (S (Effect.drawn w))).

Definition processUploadedImage (buffer originalName mimetype : string)
    : Effect.t ProcessedImage :=
  _ <- mkdir uploadDir ;;
  let ext := extname originalName in
  uuid <- drawUUID ;;
  let filename := uuid ++ ext in
  let filepath := uploadDir ++ "/" ++ filename in
  _ <- writeFile filepath buffer ;;
  let base64 := toBase64 buffer in
  Effect.ret
    {| filename := filename;
       originalName := originalName;
       size := Z.of_nat (String.length buffer);
       mimetype := mimetype;
       base64 := base64;
       url := "/uploads/vehicles/" ++ filename |}.

Definition optimizeImage (buffer : string) : Effect.t string := Effect.ret buffer.
End Processor.

End ImageProcessor.

(** ** shared/schema.ts: [vehicleFormSchema] *)

Module VehicleFormSchema.

(** Each check answers the parsed value, or [None] for an issue. *)

(** [z.string().min(n)] *)
Definition stringMin (n : nat) (v : option Json) : option string :=
  match v with
  | Some (JStr s) => if (n <=? String.length s)%nat then Some s else None
  | _ => None
  end.

(** [z.number().min(lo).max(hi)] *)
Definition numberRange (lo hi : Z) (v : option Json) : option Z :=
  match v with
  | Some (JNum n) => if ((lo <=? n) && (n <=? hi))%Z then Some n else None
  | _ => None
  end.

(** [z.enum([...])] *)
Definition enum (allowed : list string) (v : option Json) : option string :=
  match v with
  | Some (JStr s) => if existsb (String.eqb s) allowed then Some s else None
  | _ => None
  end.

(** A nullable text column: the key may be absent or [null]. *)
Definition optionalText (v : option Json) : option (option string) :=
  match v with
  | None => Some None
  | Some JNull => Some None
  | Some (JStr s) => Some (Some s)
  | Some _ => None
  end.

Fixpoint strings (items : list Json) : option (list string) :=
  match items with
  | [] => Some []
  | JStr s :: rest => option_map (cons s) (strings rest)
  | _ :: _ => None
  end.

(** A nullable text-array column. *)
Definition optionalTexts (v : option Json) : option (option (list string)) :=
  match v with
  | None => Some None
  | Some JNull => Some None
  | Some (JArr items) => option_map Some (strings items)
  | Some _ => None
  end.

(** A nullable json column takes any value. *)
Definition optionalJson (v : option Json) : option (option Json) :=
  match v with
  | None => Some None
  | Some JNull => Some None
  | Some j => Some (Some j)
  end.

Definition issue (A : Type) (path : string) (checked : option A) : list string :=
  match checked with
  | Some _ => []
  | None => [path]
  end.

(** [vehicleFormSchema.parse(body)]: the validated data, or the paths of the
    issues of the [ZodError] that it throws. [currentYear] is the
    [new Date().getFullYear()] that the schema read when it was built. Keys
    that the schema does not have are dropped. *)
Definition parse (currentYear : Z) (body : option Json) : list string + InsertVehicle.t :=
  match body with
  | Some (JObj props) =>
      let vin := optionalText (JsMap.get "vin" props) in
      let year := numberRange 1900 (currentYear + 1) (JsMap.get "year" props) in
      let make := stringMin 1 (JsMap.get "make" props) in
      let model := stringMin 1 (JsMap.get "model" props) in
      let trim := optionalText (JsMap.get "trim" props) in
      let mileage := numberRange 0 999999 (JsMap.get "mileage" props) in
      let transmission :=
        enum ["automatic"; "manual"; "cvt"] (JsMap.get "transmission" props) in
      let fuelType :=
        enum ["gasoline"; "hybrid"; "electric"; "diesel"] (JsMap.get "fuelType" props) in
      let condition :=
        enum ["excellent"; "good"; "fair"; "poor"] (JsMap.get "condition" props) in
      let price := numberRange 1 999999 (JsMap.get "price" props) in
      let location := stringMin 1 (JsMap.get "location" props) in
      let description := stringMin 10 (JsMap.get "description" props) in
      let features := optionalTexts (JsMap.get "features" props) in
      let images := optionalTexts (JsMap.get "images" props) in
      let aiExtractedData := optionalJson (JsMap.get "aiExtractedData" props) in
      match vin, year, make, model, trim, mileage, transmission, fuelType,
            condition, price, location, description, features, images,
            aiExtractedData with
      | Some vin, Some year, Some make, Some model, Some trim, Some mileage,
        Some transmission, Some fuelType, Some condition, Some price,
        Some location, Some description, Some features, Some images,
        Some aiExtractedData =>
          inr {| InsertVehicle.vin := vin;
                 InsertVehicle.year := year;
                 InsertVehicle.make := make;
                 InsertVehicle.model := model;
                 InsertVehicle.trim := trim;
                 InsertVehicle.mileage := mileage;
                 InsertVehicle.transmission := transmission;
                 InsertVehicle.fuelType := fuelType;
                 InsertVehicle.condition := condition;
                 InsertVehicle.price := price;
                 InsertVehicle.location := location;
                 InsertVehicle.description := description;
                 InsertVehicle.features := features;
                 InsertVehicle.images := images;
                 InsertVehicle.aiExtractedData := aiExtractedData |}
      | _, _, _, _, _, _, _, _, _, _, _, _, _, _, _ =>
          inl (issue "vin" vin ++ issue "year" year ++ issue "make" make
               ++ issue "model" model ++ issue "trim" trim ++ issue "mileage" mileage
               ++ issue "transmission" transmission ++ issue "fuelType" fuelType
               ++ issue "condition" condition ++ issue "price" price
               ++ issue "location" location ++ issue "description" description
               ++ issue "features" features ++ issue "images" images
               ++ issue "aiExtractedData" aiExtractedData)%list
      end
  | _ => inl [""]
  end.

(** *** [vehicleFormSchema.partial()] *)

(** A key of the partial schema: it may be absent, and when it is there it
    is checked as in the full schema. *)
Definition partialKey (A : Type) (check : option Json -> option A) (v : option Json)
    : option (option A) :=
  match v with
  | None => Some None
  | Some _ => option_map Some (check v)
  end.

(** [vehicleFormSchema.partial().parse(body)]. *)
Definition parsePartial (currentYear : Z) (body : option Json)
    : list string + VehicleUpdate.t :=
  match body with
  | Some (JObj props) =>
      let vin := partialKey optionalText (JsMap.get "vin" props) in
      let year := partialKey (numberRange 1900 (currentYear + 1)) (JsMap.get "year" props) in
      let make := partialKey (stringMin 1) (JsMap.get "make" props) in
      let model := partialKey (stringMin 1) (JsMap.get "model" props) in
      let trim := partialKey optionalText (JsMap.get "trim" props) in
      let mileage := partialKey (numberRange 0 999999) (JsMap.get "mileage" props) in
      let transmission :=
        partialKey (enum ["automatic"; "manual"; "cvt"]) (JsMap.get "transmission" props) in
      let fuelType :=
        partialKey (enum ["gasoline"; "hybrid"; "electric"; "diesel"])
                   (JsMap.get "fuelType" props) in
      let condition :=
        partialKey (enum ["excellent"; "good"; "fair"; "poor"])
                   (JsMap.get "condition" props) in
      let price := partialKey (numberRange 1 999999) (JsMap.get "price" props) in
      let location := partialKey (stringMin 1) (JsMap.get "location" props) in
      let description := partialKey (stringMin 10) (JsMap.get "description" props) in
      let features := partialKey optionalTexts (JsMap.get "features" props) in
      let images := partialKey optionalTexts (JsMap.get "images" props) in
      let aiExtractedData := partialKey optionalJson (JsMap.get "aiExtractedData" props) in
      match vin, year, make, model, trim, mileage, transmission, fuelType,
            condition, price, location, description, features, images,
            aiExtractedData with
      | Some vin, Some year, Some make, Some model, Some trim, Some mileage,
        Some transmission, Some fuelType, Some condition, Some price,
        Some location, Some description, Some features, Some images,
        Some aiExtractedData =>
          inr {| VehicleUpdate.vin := vin;
                 VehicleUpdate.year := year;
                 VehicleUpdate.make := make;
                 VehicleUpdate.model := model;
                 VehicleUpdate.trim := trim;
                 VehicleUpdate.mileage := mileage;
                 VehicleUpdate.transmission := transmission;
                 VehicleUpdate.fuelType := fuelType;
                 VehicleUpdate.condition := condition;
                 VehicleUpdate.price := price;
                 VehicleUpdate.location := location;
                 VehicleUpdate.description := description;
                 VehicleUpdate.features := features;
                 VehicleUpdate.images := images;
                 VehicleUpdate.aiExtractedData := aiExtractedData |}
      | _, _, _, _, _, _, _, _, _, _, _, _, _, _, _ =>
          inl (issue "vin" vin ++ issue "year" year ++ issue "make" make
               ++ issue "model" model ++ issue "trim" trim ++ issue "mileage" mileage
               ++ issue "transmission" transmission ++ issue "fuelType" fuelType
               ++ issue "condition" condition ++ issue "price" price
               ++ issue "location" location ++ issue "description" description
               ++ issue "features" features ++ issue "images" images
               ++ issue "aiExtractedData" aiExtractedData)%list
      end
  | _ => inl [""]
  end.

End VehicleFormSchema.

(** ** server/routes.ts: the request handlers *)

Module Routes.

Record UploadedFile : Type := mkFile {
  buffer : string;
  originalname : string;
  mimetype : string;
  size : Z
}.

(** An element of [aiExtractions] in the upload reply. *)
Record Extraction : Type := mkExtraction {
  imageUrl : string;
  extractedText : option Json;
  confidence : option Json;
  extractedData : OllamaService.VisionAnalysisResult
}.

Inductive Body : Type :=
| VehicleJson (vehicle : Vehicle.t)
| ListingJson (listing : Listing.t)
| UploadJson (images : list ImageProcessor.ProcessedImage)
             (aiExtractions : list Extraction) (message : string)
| MessageJson (message : string)
| IssuesJson (issues : list string).

Record Reply : Type := mkReply {
  status : Z;
  body : Body
}.

(** *** [POST /api/vehicles] *)

(** [id] and [now] are what [randomUUID()] and [new Date()] give the store
    should the handler come to create the record. *)
Definition postVehicle (currentYear : Z) (id : string) (now : Z) (reqBody : option Json)
    (st : MemStorage.t) : Reply * MemStorage.t :=
  match VehicleFormSchema.parse currentYear reqBody with
  | inr validatedData =>
      let (vehicle, st') := MemStorage.createVehicle id now validatedData st in
      (mkReply 201 (VehicleJson vehicle), st')
  | inl issues => (mkReply 400 (IssuesJson issues), st)
  end.

(** *** [POST /api/images/upload] *)

Section Upload.
Variable endpoint : Http.Call -> Http.Outcome OllamaService.OllamaResponse.
Variable JSON_parse : string -> option (JsMap.t Json).
Variable baseUrl : string.
Variable model : string.
Variable uploadDir : string.
Variable randomUUID : nat -> string.
Variable extname : string -> string.
Variable toBase64 : string -> string.
Variable diskError : string -> option string.

Local Open Scope effect_scope.

Definition analyze : string -> Effect.t OllamaService.VisionAnalysisResult :=
  OllamaService.analyzeVehicleImage endpoint JSON_parse baseUrl model.

(** The body of the [for] loop over [req.files], with the two arrays that it
    pushes to. *)
Fixpoint uploadLoop (files : list UploadedFile)
    (processedImages : list ImageProcessor.ProcessedImage)
    (aiExtractions : list Extraction)
    : Effect.t (list ImageProcessor.ProcessedImage * list Extraction) :=
  match files with
  | [] => Effect.ret (processedImages, aiExtractions)
  | file :: rest =>
      _ <- ImageProcessor.validateImageFile (mimetype file) (size file) ;;
      processedImage <-
        ImageProcessor.processUploadedImage uploadDir randomUUID extname toBase64
          diskError (buffer file) (originalname file) (mimetype file) ;;
      let processedImages := (processedImages ++ [processedImage])%list in
      aiExtractions <-
        Effect.try_catch
          (aiResult <- analyze (ImageProcessor.base64 processedImage) ;;
           Effect.ret
             (aiExtractions ++
              [ {| imageUrl := ImageProcessor.url processedImage;
                   extractedText := JsMap.get "extractedText" aiResult;
                   confidence := JsMap.get "confidence" aiResult;
                   extractedData := aiResult |} ])%list)
          (fun _ => Effect.ret aiExtractions) ;;
      uploadLoop rest processedImages aiExtractions
  end.

(** [req.files] is [None] when the request has no array of files. *)
Definition uploadImages (reqFiles : option (list UploadedFile)) : Effect.t Reply :=
  Effect.try_catch
    (match reqFiles with
     | None => Effect.ret (mkReply 400 (MessageJson "No images uploaded"))
     | Some [] => Effect.ret (mkReply 400 (MessageJson "No images uploaded"))
     | Some files =>
         arrays <- uploadLoop files [] [] ;;
         Effect.ret
           (mkReply 200
              (UploadJson (fst arrays) (snd arrays)
                 ("Successfully uploaded "
                  ++ Number.toString (Z.of_nat (List.length (fst arrays)))
                  ++ " images")))
     end)
    (fun message => Effect.ret (mkReply 400 (MessageJson message))).

(** A file of an allowed type and of at most the allowed size. *)
Definition validFile (file : UploadedFile) : Prop :=
  ImageProcessor.includes ImageProcessor.allowedTypes (Text.toLowerCase (mimetype file))
    = true /\
  (size file <= ImageProcessor.maxSize)%Z.

(** The inference adapter throws on the image of the file. *)
Definition analysisFails (file : UploadedFile) : bool :=
  match fst (analyze (toBase64 (buffer file)) Effect.start) with
  | Effect.Throw _ => true
  | Effect.Return _ => false
  end.

Definition failures (files : list UploadedFile) : nat :=
  List.length (filter analysisFails files).
End Upload.

(** *** [POST /api/listings/generate] *)

Definition newline : string := OllamaService.newline.

Record ListingContent : Type := mkContent {
  title : string;
  description : string;
  price : Z;
  location : string;
  images : list string;
  features : list string;
  vehicleDetails : Json
}.

Definition nullable (s : option string) : Json :=
  match s with Some x => JStr x | None => JNull end.

Definition generateListingContent (vehicle : Vehicle.t) (platform : string)
    : ListingContent :=
  let features := MemStorage.given (Vehicle.features vehicle) [] in
  let featuresText :=
    if (0 <? List.length features)%nat
    then newline ++ newline ++ "Features:" ++ newline ++ "• "
         ++ Text.join (newline ++ "• ") features
    else "" in
  let title :=
    Number.toString (Vehicle.year vehicle) ++ " " ++ Vehicle.make vehicle ++ " "
    ++ Vehicle.model vehicle
    ++ match Text.or_undefined (Vehicle.trim vehicle) with
       | Some trim => " " ++ trim
       | None => ""
       end
    ++ " - $" ++ Number.toLocaleString (Vehicle.price vehicle) in
  let description :=
    Vehicle.description vehicle ++ featuresText ++ newline ++ newline
    ++ "📍 Location: " ++ Vehicle.location vehicle ++ newline
    ++ "🚗 Mileage: " ++ Number.toLocaleString (Vehicle.mileage vehicle) ++ " miles"
    ++ newline
    ++ "⚙️ Transmission: " ++ Vehicle.transmission vehicle ++ newline
    ++ "⛽ Fuel Type: " ++ Vehicle.fuelType vehicle ++ newline
    ++ "✨ Condition: " ++ Vehicle.condition vehicle ++ newline ++ newline
    ++ "Serious inquiries only. Cash, financing, or trade considered." in
  {| title := title;
     description := description;
     price := Vehicle.price vehicle;
     location := Vehicle.location vehicle;
     images := MemStorage.given (Vehicle.images vehicle) [];
     features := MemStorage.given (Vehicle.features vehicle) [];
     vehicleDetails :=
       JObj [ ("year", JNum (Vehicle.year vehicle));
              ("make", JStr (Vehicle.make vehicle));
              ("model", JStr (Vehicle.model vehicle));
              ("trim", nullable (Vehicle.trim vehicle));
              ("mileage", JNum (Vehicle.mileage vehicle));
              ("transmission", JStr (Vehicle.transmission vehicle));
              ("fuelType", JStr (Vehicle.fuelType vehicle));
              ("condition", JStr (Vehicle.condition vehicle)) ] |}.

(** The content as the [listingData] of the listing. *)
Definition contentJson (c : ListingContent) : Json :=
  JObj [ ("title", JStr (title c));
         ("description", JStr (description c));
         ("price", JNum (price c));
         ("location", JStr (location c));
         ("images", JArr (map JStr (images c)));
         ("features", JArr (map JStr (features c)));
         ("vehicleDetails", vehicleDetails c) ].

(** [platform] is [None] when the body has no such key: the default of the
    destructuring applies. *)
Definition generateListing (id : string) (now : Z) (vehicleId : string)
    (platform : option string) (st : MemStorage.t) : Reply * MemStorage.t :=
  let platform := MemStorage.given platform "facebook" in
  match MemStorage.getVehicle vehicleId st with
  | None => (mkReply 404 (MessageJson "Vehicle not found"), st)
  | Some vehicle =>
      let listingData := generateListingContent vehicle platform in
      let (listing, st') :=
        MemStorage.createListing id now
          {| InsertListing.vehicleId := Some vehicleId;
             InsertListing.title := title listingData;
             InsertListing.platform := platform;
             InsertListing.status := Some "draft";
             InsertListing.listingData := Some (contentJson listingData) |} st in
      (mkReply 200 (ListingJson listing), st')
  end.

End Routes.

(** ** Thousands separators *)

Module Thousands.

(** Digits written in groups: a first group of one to three digits, and then
    groups of three digits, each after a comma. *)
Inductive grouped : list ascii -> list ascii -> Prop :=
| first_group (d : list ascii) :
    (1 <= List.length d <= 3)%nat -> grouped d d
| next_group (d out g : list ascii) :
    grouped d out -> List.length g = 3%nat ->
    grouped (d ++ g)%list (out ++ ","%char :: g)%list.

End Thousands.

(** ** The VIN decode contract *)

Module VinSpec.

(** A VIN-shaped string: 17 characters, each a digit or a letter other
    than I, O and Q, in either case. *)
Definition vinShape (vin : string) : bool :=
  (String.length vin =? 17)%nat &&
  Text.all_chars (Regex.accepts true Regex.vinChars) vin.

(** The same in upper case only. *)
Definition upperVinShape (vin : string) : bool :=
  (String.length vin =? 17)%nat &&
  Text.all_chars (Regex.accepts false Regex.vinChars) vin.

(** The synonym table of the fuel types. *)
Definition synonyms : list (string * string) :=
  [ ("gas", "gasoline");
    ("e85", "gasoline");
    ("flex fuel", "gasoline");
    ("electric", "electric");
    ("hybrid", "hybrid");
    ("diesel", "diesel");
    ("gasoline", "gasoline") ].

(** A non-empty fuel type goes through the table without regard to case,
    and to gasoline when the table does not have it; an empty or missing
    one has no value. *)
Definition normalize (fuelType : option string) : option string :=
  match fuelType with
  | None => None
  | Some EmptyString => None
  | Some f =>
      match JsMap.get (Text.toLowerCase f) synonyms with
      | Some t => Some t
      | None => Some "gasoline"
      end
  end.

Definition asValue (o : option string) : JsObject.value :=
  match o with
  | Some s => JsObject.Str s
  | None => JsObject.Undefined
  end.

End VinSpec.

(** ** The update contract: a merge of the given fields over the record *)

Module Merge.

(** A field that the update gives takes the given value, and a field that
    it does not give keeps the prior one. *)
Definition field (A : Type) (g : option A) (prior result : A) : Prop :=
  match g with
  | Some x => result = x
  | None => result = prior
  end.

(** The same for a list column, where an update that gives [null] leaves
    the list that the record has. *)
Definition listField (g : option (option (list string)))
    (prior result : option (list string)) : Prop :=
  match g with
  | Some (Some l) => result = Some l
  | Some None => result = prior
  | None => result = prior
  end.

Definition vehicle (now : Z) (u : VehicleUpdate.t) (prior result : Vehicle.t) : Prop :=
  Vehicle.id result = Vehicle.id prior /\
  Vehicle.createdAt result = Vehicle.createdAt prior /\
  Vehicle.updatedAt result = Some now /\
  field (VehicleUpdate.vin u) (Vehicle.vin prior) (Vehicle.vin result) /\
  field (VehicleUpdate.year u) (Vehicle.year prior) (Vehicle.year result) /\
  field (VehicleUpdate.make u) (Vehicle.make prior) (Vehicle.make result) /\
  field (VehicleUpdate.model u) (Vehicle.model prior) (Vehicle.model result) /\
  field (VehicleUpdate.trim u) (Vehicle.trim prior) (Vehicle.trim result) /\
  field (VehicleUpdate.mileage u) (Vehicle.mileage prior) (Vehicle.mileage result) /\
  field (VehicleUpdate.transmission u) (Vehicle.transmission prior)
        (Vehicle.transmission result) /\
  field (VehicleUpdate.fuelType u) (Vehicle.fuelType prior) (Vehicle.fuelType result) /\
  field (VehicleUpdate.condition u) (Vehicle.condition prior) (Vehicle.condition result) /\
  field (VehicleUpdate.price u) (Vehicle.price prior) (Vehicle.price result) /\
  field (VehicleUpdate.location u) (Vehicle.location prior) (Vehicle.location result) /\
  field (VehicleUpdate.description u) (Vehicle.description prior)
        (Vehicle.description result) /\
  listField (VehicleUpdate.features u) (Vehicle.features prior) (Vehicle.features result) /\
  listField (VehicleUpdate.images u) (Vehicle.images prior) (Vehicle.images result) /\
  field (VehicleUpdate.aiExtractedData u) (Vehicle.aiExtractedData prior)
        (Vehicle.aiExtractedData result).

Definition listing (now : Z) (u : ListingUpdate.t) (prior result : Listing.t) : Prop :=
  Listing.id result = Listing.id prior /\
  Listing.createdAt result = Listing.createdAt prior /\
  Listing.updatedAt result = Some now /\
  field (ListingUpdate.vehicleId u) (Listing.vehicleId prior) (Listing.vehicleId result) /\
  field (ListingUpdate.title u) (Listing.title prior) (Listing.title result) /\
  field (ListingUpdate.platform u) (Listing.platform prior) (Listing.platform result) /\
  field (ListingUpdate.status u) (Listing.status prior) (Listing.status result) /\
  field (ListingUpdate.listingData u) (Listing.listingData prior)
        (Listing.listingData result).

End Merge.

(** ** Sample records *)

Module Sample.

Definition civic : Vehicle.t :=
  {| Vehicle.id := "v1";
     Vehicle.vin := None;
     Vehicle.year := 2020;
     Vehicle.make := "Honda";
     Vehicle.model := "Civic";
     Vehicle.trim := Some "EX";
     Vehicle.mileage := 42000;
     Vehicle.transmission := "automatic";
     Vehicle.fuelType := "gasoline";
     Vehicle.condition := "good";
     Vehicle.price := 18500;
     Vehicle.location := "Austin, TX";
     Vehicle.description := "One owner, clean title.";
     Vehicle.features := Some ["Sunroof"; "Bluetooth"];
     Vehicle.images := Some [];
     Vehicle.aiExtractedData := None;
     Vehicle.createdAt := Some 1000%Z;
     Vehicle.updatedAt := Some 1000%Z |}.

Definition store : MemStorage.t :=
  MemStorage.mk (JsMap.set "v1" civic JsMap.empty) JsMap.empty JsMap.empty.

(** The body [{"features": null}] of a [PUT /api/vehicles/v1]. *)
Definition featuresNull : VehicleUpdate.t :=
  {| VehicleUpdate.vin := None; VehicleUpdate.year := None;
     VehicleUpdate.make := None; VehicleUpdate.model := None;
     VehicleUpdate.trim := None; VehicleUpdate.mileage := None;
     VehicleUpdate.transmission := None; VehicleUpdate.fuelType := None;
     VehicleUpdate.condition := None; VehicleUpdate.price := None;
     VehicleUpdate.location := None; VehicleUpdate.description := None;
     VehicleUpdate.features := Some None; VehicleUpdate.images := None;
     VehicleUpdate.aiExtractedData := None |}.

(** An inference endpoint: it answers image [A] with a text that holds a
    JSON object, refuses the connection for image [B], and answers every
    other image with a text whose braces hold no JSON. *)
Definition answerSpan : string :=
  "{" ++ OllamaService.quoted "exterior" ++ ": " ++ OllamaService.quoted "good" ++ "}".

Definition answerA : string := "Here is the result: " ++ answerSpan ++ " Done.".

Definition answerC : string := "The exterior: Good. Damage: scratch on {the} door.".

Definition respond (text : string) : Http.Outcome OllamaService.OllamaResponse :=
  Http.Responded
    (Http.mkResponse true 200 "OK" (Some (OllamaService.mkData (Some text) true))).

Definition ollama (c : Http.Call) : Http.Outcome OllamaService.OllamaResponse :=
  match c with
  | Http.Post _ (JObj [_; _; (_, JArr [JStr image]); _]) =>
      if String.eqb image "A" then respond answerA
      else if String.eqb image "B" then Http.Rejected "connect ECONNREFUSED"
      else respond answerC
  | _ => Http.Rejected "not found"
  end.

(** [JSON.parse] on the spans of the sample answers. *)
Definition parseJson (span : string) : option (JsMap.t Json) :=
  if String.eqb span answerSpan then Some [("exterior", JStr "good")] else None.

Definition uuid (n : nat) : string := "image-" ++ Number.toString (Z.of_nat n).

Definition jpegExtension (name : string) : string := ".jpg".

(** The images of the samples stand for their own encoding. *)
Definition encoded (buffer : string) : string := buffer.

Definition diskAccepts (path : string) : option string := None.

Definition upload : option (list Routes.UploadedFile) -> Effect.t Routes.Reply :=
  Routes.uploadImages ollama parseJson "http://localhost:11434" "llava"
    "/srv/app/uploads/vehicles" uuid jpegExtension encoded diskAccepts.

Definition threeFiles : list Routes.UploadedFile :=
  [ Routes.mkFile "A" "front.jpg" "image/jpeg" 1;
    Routes.mkFile "B" "rear.jpg" "image/JPEG" 1;
    Routes.mkFile "C" "side.jpg" "image/png" 1 ].

End Sample.

(** ** The stores that the methods of [MemStorage] build *)

Module History.

(** A store is reached from the three empty maps by calls of the methods
    that write. *)
Inductive Reachable : MemStorage.t -> Prop :=
| reach_new : Reachable MemStorage.new
| reach_createVehicle (id : string) (now : Z) (ins : InsertVehicle.t) (st : MemStorage.t) :
    Reachable st -> Reachable (snd (MemStorage.createVehicle id now ins st))
| reach_updateVehicle (now : Z) (id : string) (u : VehicleUpdate.t) (st : MemStorage.t) :
    Reachable st -> Reachable (snd (MemStorage.updateVehicle now id u st))
| reach_deleteVehicle (id : string) (st : MemStorage.t) :
    Reachable st -> Reachable (snd (MemStorage.deleteVehicle id st))
| reach_createListing (id : string) (now : Z) (ins : InsertListing.t) (st : MemStorage.t) :
    Reachable st -> Reachable (snd (MemStorage.createListing id now ins st))
| reach_updateListing (now : Z) (id : string) (u : ListingUpdate.t) (st : MemStorage.t) :
    Reachable st -> Reachable (snd (MemStorage.updateListing now id u st))
| reach_deleteListing (id : string) (st : MemStorage.t) :
    Reachable st -> Reachable (snd (MemStorage.deleteListing id st))
| reach_createAiExtraction (id : string) (now : Z) (ins : InsertAiExtraction.t)
    (st : MemStorage.t) :
    Reachable st -> Reachable (snd (MemStorage.createAiExtraction id now ins st)).

(** What a stored vehicle looks like: it carries the key it is stored
    under, its two lists are arrays and its creation instant is set. *)
Definition vehicleEntry (kv : string * Vehicle.t) : Prop :=
  Vehicle.id (snd kv) = fst kv /\
  Vehicle.features (snd kv) <> None /\
  Vehicle.images (snd kv) <> None /\
  Vehicle.createdAt (snd kv) <> None.

Definition listingEntry (kv : string * Listing.t) : Prop :=
  Listing.id (snd kv) = fst kv /\ Listing.createdAt (snd kv) <> None.

Definition extractionEntry (kv : string * AiExtraction.t) : Prop :=
  AiExtraction.id (snd kv) = fst kv /\
  AiExtraction.createdAt (snd kv) <> None /\
  AiExtraction.vehicleId (snd kv) <> Some "".

Definition invariant (st : MemStorage.t) : Prop :=
  NoDup (JsMap.keys (MemStorage.vehicles st)) /\
  NoDup (JsMap.keys (MemStorage.listings st)) /\
  NoDup (JsMap.keys (MemStorage.aiExtractions st)) /\
  Forall vehicleEntry (MemStorage.vehicles st) /\
  Forall listingEntry (MemStorage.listings st) /\
  Forall extractionEntry (MemStorage.aiExtractions st).

(** [after] is [before] with one occurrence of [x] replaced by [y], where it
    stood. *)
Inductive Replaced (A : Type) (x y : A) : list A -> list A -> Prop :=
| replaced_here (l : list A) : Replaced x y (x :: l) (y :: l)
| replaced_later (a : A) (before after : list A) :
    Replaced x y before after -> Replaced x y (a :: before) (a :: after).

End History.

(** The payload that creates the sample vehicle. *)
Module SampleInsert.

Definition civic : InsertVehicle.t :=
  {| InsertVehicle.vin := None;
     InsertVehicle.year := 2020;
     InsertVehicle.make := "Honda";
     InsertVehicle.model := "Civic";
     InsertVehicle.trim := Some "EX";
     InsertVehicle.mileage := 42000;
     InsertVehicle.transmission := "automatic";
     InsertVehicle.fuelType := "gasoline";
     InsertVehicle.condition := "good";
     InsertVehicle.price := 18500;
     InsertVehicle.location := "Austin, TX";
     InsertVehicle.description := "One owner, clean title.";
     InsertVehicle.features := Some ["Sunroof"; "Bluetooth"];
     InsertVehicle.images := None;
     InsertVehicle.aiExtractedData := None |}.

Definition facebookDraft : InsertListing.t :=
  {| InsertListing.vehicleId := Some "v1";
     InsertListing.title := "2020 Honda Civic EX";
     InsertListing.platform := "facebook";
     InsertListing.status := None;
     InsertListing.listingData := None |}.

Definition plateReading : InsertAiExtraction.t :=
  {| InsertAiExtraction.vehicleId := Some "v1";
     InsertAiExtraction.imageUrl := "/uploads/vehicles/front.jpg";
     InsertAiExtraction.extractedText := Some "license plate: ABC-123";
     InsertAiExtraction.confidence := Some 60%Z;
     InsertAiExtraction.extractedData := None |}.

End SampleInsert.

(** ** shared/schema.ts: [insertListingSchema] *)

Module InsertListingSchema.

(** [z.string()] *)
Definition text (v : option Json) : option string :=
  match v with
  | Some (JStr s) => Some s
  | _ => None
  end.

(** A text column with a default: the key may be absent, not [null]. *)
Definition defaultedText (v : option Json) : option (option string) :=
  match v with
  | None => Some None
  | Some (JStr s) => Some (Some s)
  | Some _ => None
  end.

(** [insertListingSchema.parse(body)]. *)
Definition parse (body : option Json) : list string + InsertListing.t :=
  match body with
  | Some (JObj props) =>
      let vehicleId := VehicleFormSchema.optionalText (JsMap.get "vehicleId" props) in
      let title := text (JsMap.get "title" props) in
      let platform := text (JsMap.get "platform" props) in
      let status := defaultedText (JsMap.get "status" props) in
      let listingData := VehicleFormSchema.optionalJson (JsMap.get "listingData" props) in
      match vehicleId, title, platform, status, listingData with
      | Some vehicleId, Some title, Some platform, Some status, Some listingData =>
          inr {| InsertListing.vehicleId := vehicleId;
                 InsertListing.title := title;
                 InsertListing.platform := platform;
                 InsertListing.status := status;
                 InsertListing.listingData := listingData |}
      | _, _, _, _, _ =>
          inl (VehicleFormSchema.issue "vehicleId" vehicleId
               ++ VehicleFormSchema.issue "title" title
               ++ VehicleFormSchema.issue "platform" platform
               ++ VehicleFormSchema.issue "status" status
               ++ VehicleFormSchema.issue "listingData" listingData)%list
      end
  | _ => inl [""]
  end.

End InsertListingSchema.

(** ** server/routes.ts: the other request handlers *)

Module Api.

Inductive Body : Type :=
| VehiclesJson (vehicles : list Vehicle.t)
| VehicleJson (vehicle : Vehicle.t)
| ListingsJson (listings : list Listing.t)
| ListingJson (listing : Listing.t)
| AnalysisJson (result : OllamaService.VisionAnalysisResult)
| VinJson (result : VinLookupService.VinLookupResult)
| VinErrorJson (message : string)
| HealthJson (healthy : bool) (models : list string) (status : string)
| MessageJson (message : string)
| IssuesJson (issues : list string)
| NoContent.

Record Reply : Type := mkReply {
  status : Z;
  body : Body
}.

(** *** [GET /api/vehicles] and [GET /api/vehicles/:id] *)

Definition getVehicles (st : MemStorage.t) : Reply :=
  mkReply 200 (VehiclesJson (MemStorage.getAllVehicles st)).

Definition getVehicleById (id : string) (st : MemStorage.t) : Reply :=
  match MemStorage.getVehicle id st with
  | None => mkReply 404 (MessageJson "Vehicle not found")
  | Some vehicle => mkReply 200 (VehicleJson vehicle)
  end.

(** *** [PUT /api/vehicles/:id] *)

Definition putVehicle (currentYear : Z) (now : Z) (id : string) (reqBody : option Json)
    (st : MemStorage.t) : Reply * MemStorage.t :=
  match VehicleFormSchema.parsePartial currentYear reqBody with
  | inr validatedData =>
      match MemStorage.updateVehicle now id validatedData st with
      | (None, st') => (mkReply 404 (MessageJson "Vehicle not found"), st')
      | (Some vehicle, st') => (mkReply 200 (VehicleJson vehicle), st')
      end
  | inl issues => (mkReply 400 (IssuesJson issues), st)
  end.

(** *** [DELETE /api/vehicles/:id] *)

Definition deleteVehicle (id : string) (st : MemStorage.t) : Reply * MemStorage.t :=
  let (success, st') := MemStorage.deleteVehicle id st in
  if negb success then (mkReply 404 (MessageJson "Vehicle not found"), st')
  else (mkReply 204 NoContent, st').

(** *** [GET /api/listings] and [POST /api/listings] *)

Definition getListings (st : MemStorage.t) : Reply :=
  mkReply 200 (ListingsJson (MemStorage.getAllListings st)).

Definition postListing (id : string) (now : Z) (reqBody : option Json) (st : MemStorage.t)
    : Reply * MemStorage.t :=
  match InsertListingSchema.parse reqBody with
  | inr validatedData =>
      let (listing, st') := MemStorage.createListing id now validatedData st in
      (mkReply 201 (ListingJson listing), st')
  | inl issues => (mkReply 400 (IssuesJson issues), st)
  end.

(** *** [POST /api/images/analyze] *)

Definition textOf (v : option Json) : option string :=
  match v with Some (JStr s) => Some s | _ => None end.

Definition numberOf (v : option Json) : option Z :=
  match v with Some (JNum n) => Some n | _ => None end.

Section Analyze.
Variable endpoint : Http.Call -> Http.Outcome OllamaService.OllamaResponse.
Variable JSON_parse : string -> option (JsMap.t Json).
Variable baseUrl : string.
Variable model : string.

Local Open Scope effect_scope.

(** [imageBase64] and [vehicleId] are the two keys of the body, [None] when
    the body does not have them. *)
Definition analyzeImage (id : string) (now : Z) (imageBase64 vehicleId : option string)
    (st : MemStorage.t) : Effect.t (Reply * MemStorage.t) :=
  Effect.try_catch
    (match Text.or_undefined imageBase64 with
     | None => Effect.ret (mkReply 400 (MessageJson "Image data is required"), st)
     | Some image =>
         aiResult <-
           OllamaService.analyzeVehicleImage endpoint JSON_parse baseUrl model image ;;
         let st' :=
           match Text.or_undefined vehicleId with
           | Some vehicle =>
               snd (MemStorage.createAiExtraction id now
                      {| InsertAiExtraction.vehicleId := Some vehicle;
                         InsertAiExtraction.imageUrl := "base64_image";
                         InsertAiExtraction.extractedText :=
                           textOf (JsMap.get "extractedText" aiResult);
                         InsertAiExtraction.confidence :=
                           numberOf (JsMap.get "confidence" aiResult);
                         InsertAiExtraction.extractedData := Some (JObj aiResult) |} st)
           | None => st
           end in
         Effect.ret (mkReply 200 (AnalysisJson aiResult), st')
     end)
    (fun message => Effect.ret (mkReply 400 (MessageJson message), st)).
End Analyze.

(** *** [GET /api/vin/:vin] *)

Section Vin.
Variable registry : Http.Call -> Http.Outcome VinLookupService.NhtsaData.
Variable apiKey : string.
Variable baseUrl : string.

Local Open Scope effect_scope.

Definition vinLookup (vin : string) : Effect.t Reply :=
  Effect.try_catch
    (result <- VinLookupService.lookupVin registry apiKey baseUrl vin ;;
     Effect.ret (mkReply 200 (VinJson result)))
    (fun _ => Effect.ret (mkReply 500 (VinErrorJson "VIN lookup service error"))).
End Vin.

(** *** [GET /api/ollama/health] *)

Section HealthRoute.
Variable tags : Http.Call -> Http.Outcome OllamaService.TagsData.
Variable baseUrl : string.

Local Open Scope effect_scope.

Definition ollamaHealth : Effect.t Reply :=
  Effect.try_catch
    (isHealthy <- OllamaService.checkHealth tags baseUrl ;;
     models <- OllamaService.listModels tags baseUrl ;;
     Effect.ret
       (mkReply 200
          (HealthJson isHealthy models
             (if isHealthy then "Local AI Ready" else "Ollama not available"))))
    (fun _ => Effect.ret (mkReply 200 (HealthJson false [] "Ollama connection failed"))).
End HealthRoute.

(** *** The upload middleware: [multer] with the limits of the route *)

Definition maxCount : nat := 10.

Definition fileSize : Z := 10 * 1024 * 1024.

Definition fileFilter (file : Routes.UploadedFile) : bool :=
  ImageProcessor.includes ["image/jpeg"; "image/jpg"; "image/png"; "image/webp"]
    (Text.toLowerCase (Routes.mimetype file)).

(** The batches that [upload.array("images", 10)] hands to the handler: at
    most ten files, each let through by the filter and of at most the size
    limit. *)
Definition admitted (files : list Routes.UploadedFile) : bool :=
  (List.length files <=? maxCount)%nat &&
  forallb (fun file => fileFilter file && (Routes.size file <=? fileSize)%Z) files.

End Api.

(** ** The bounds of the form schema, on a stored vehicle *)

Module Bounds.

Definition vehicle (currentYear : Z) (v : Vehicle.t) : Prop :=
  (1900 <= Vehicle.year v <= currentYear + 1)%Z /\
  (0 <= Vehicle.mileage v <= 999999)%Z /\
  (1 <= Vehicle.price v <= 999999)%Z /\
  (1 <= String.length (Vehicle.make v))%nat /\
  (1 <= String.length (Vehicle.model v))%nat /\
  (1 <= String.length (Vehicle.location v))%nat /\
  (10 <= String.length (Vehicle.description v))%nat /\
  In (Vehicle.transmission v) ["automatic"; "manual"; "cvt"] /\
  In (Vehicle.fuelType v) ["gasoline"; "hybrid"; "electric"; "diesel"] /\
  In (Vehicle.condition v) ["excellent"; "good"; "fair"; "poor"].

Definition store (currentYear : Z) (st : MemStorage.t) : Prop :=
  Forall (vehicle currentYear) (JsMap.values (MemStorage.vehicles st)).

End Bounds.

(** A body that passes the vehicle schema. *)
Module SampleBody.

Definition civic : Json :=
  JObj [ ("year", JNum 2020); ("make", JStr "Honda"); ("model", JStr "Civic");
         ("trim", JStr "EX"); ("mileage", JNum 42000);
         ("transmission", JStr "automatic"); ("fuelType", JStr "gasoline");
         ("condition", JStr "good"); ("price", JNum 18500);
         ("location", JStr "Austin, TX");
         ("description", JStr "One owner, clean title.");
         ("features", JArr [JStr "Sunroof"; JStr "Bluetooth"]);
         ("owner", JStr "dropped by the schema") ].

Definition cheaper : Json := JObj [("price", JNum 17900)].

Definition free : Json := JObj [("price", JNum 0)].

End SampleBody.

(** A registry that knows one vehicle and leaves its trim empty. *)
Module SampleRegistry.

Definition accord : VinLookupService.NhtsaResult :=
  VinLookupService.mkRow (Some "0") (Some "") (Some "HONDA") (Some "Accord")
    (Some "2003") (Some "") (Some "240") None (Some "Gasoline") (Some "Coupe") (Some "").

Definition registry (c : Http.Call) : Http.Outcome VinLookupService.NhtsaData :=
  Http.Responded
    (Http.mkResponse true 200 "OK" (Some (VinLookupService.mkData (Some [accord])))).

End SampleRegistry.

(** Three vehicles, created at the instants 1000, 3000 and 2000 in that
    order. *)
Module SampleLot.

Definition store : MemStorage.t :=
  snd (MemStorage.createVehicle "v3" 2000 SampleInsert.civic
         (snd (MemStorage.createVehicle "v2" 3000 SampleInsert.civic
                 (snd (MemStorage.createVehicle "v1" 1000 SampleInsert.civic
                         MemStorage.new))))).

End SampleLot.

(** ** The disk under the upload directory *)

Module Disk.
Section Paths.
Variable uploadDir : string.
Variable randomUUID : nat -> string.
Variable extname : string -> string.
Variable diskError : string -> option string.

(** The path that [processUploadedImage] writes a file to when the
    identifier it draws is the [n]-th. *)
Definition storedPath (n : nat) (file : Routes.UploadedFile) : string :=
  uploadDir ++ "/" ++ randomUUID n ++ extname (Routes.originalname file).

(** The disk accepts the write of each file of the run, the first of which
    is stored under the [n]-th identifier. *)
Fixpoint accepts (n : nat) (files : list Routes.UploadedFile) : Prop :=
  match files with
  | [] => True
  | file :: rest => diskError (storedPath n file) = None /\ accepts (S n) rest
  end.
End Paths.
End Disk.

(** A disk that has no room for the second file of a batch. *)
Module SampleDisk.

Definition full (path : string) : option string :=
  if String.eqb path "/srv/app/uploads/vehicles/image-1.jpg"
  then Some "ENOSPC: no space left on device, write"
  else None.

End SampleDisk.

(* ================================================================== *)
(** * Properties *)
(* ================================================================== *)

(** ** The insertion-ordered map *)

Module JsMapFacts.
Section Facts.
Variable V : Type.
Implicit Types (m : JsMap.t V) (k : string) (v : V).

Lemma get_set_same m k v : JsMap.get k (JsMap.set k v m) = Some v.
Proof.
  induction m as [|[k' v'] r IH]; simpl.
  - now rewrite String.eqb_refl.
  - destruct (String.eqb k k') eqn:E; simpl.
    + now rewrite String.eqb_refl.
    + now rewrite E.
Qed.

Lemma get_set_other m k k' v :
  k' <> k -> JsMap.get k' (JsMap.set k v m) = JsMap.get k' m.
Proof.
  intros Hne. induction m as [|[k0 v0] r IH]; simpl.
  - apply String.eqb_neq in Hne. now rewrite Hne.
  - destruct (String.eqb k k0) eqn:E; simpl.
    + apply String.eqb_eq in E. subst k0.
      apply String.eqb_neq in Hne. now rewrite Hne.
    + now rewrite IH.
Qed.

(** Overwriting a key keeps every key where it was. *)
Lemma keys_set_present m k v v0 :
  JsMap.get k m = Some v0 -> JsMap.keys (JsMap.set k v m) = JsMap.keys m.
Proof.
  unfold JsMap.keys.
  induction m as [|[k' v'] r IH]; simpl; [discriminate|].
  destruct (String.eqb k k') eqn:E; simpl.
  - apply String.eqb_eq in E. now subst.
  - intros H. now rewrite IH.
Qed.

Lemma delete_absent m k :
  JsMap.get k m = None -> JsMap.delete k m = (false, m).
Proof.
  induction m as [|[k' v'] r IH]; simpl; auto.
  destruct (String.eqb k k'); [discriminate|].
  intros H. now rewrite IH.
Qed.

Lemma delete_present m k v :
  JsMap.get k m = Some v -> fst (JsMap.delete k m) = true.
Proof.
  induction m as [|[k' v'] r IH]; simpl; [discriminate|].
  destruct (String.eqb k k'); auto.
  intros H. specialize (IH H). destruct (JsMap.delete k r). auto.
Qed.
End Facts.
End JsMapFacts.

(** ** The stable sort, under the comparator [key b - key a] *)

Module SortFacts.
Section Descending.
Variable A : Type.
Variable key : A -> Z.

Definition newestFirst (a b : A) : Z := (key b - key a)%Z.

(** [a] may stand before [b]. *)
Definition notOlder (a b : A) : Prop := (key b <= key a)%Z.

Lemma insert_perm x l : Permutation (x :: l) (JsArray.insert newestFirst x l).
Proof.
  induction l as [|y r IH]; simpl; auto.
  destruct (newestFirst x y <=? 0)%Z; auto.
  rewrite perm_swap. now apply perm_skip.
Qed.

Lemma sort_perm l : Permutation l (JsArray.sort newestFirst l).
Proof.
  induction l as [|x r IH]; simpl; auto.
  rewrite <- insert_perm. now apply perm_skip.
Qed.

Lemma insert_sorted x l :
  StronglySorted notOlder l ->
  StronglySorted notOlder (JsArray.insert newestFirst x l).
Proof.
  induction 1 as [|y r Hs IH Hall]; simpl.
  - repeat constructor.
  - unfold newestFirst at 1.
    destruct (key y - key x <=? 0)%Z eqn:E.
    + apply Z.leb_le in E.
      constructor; [now constructor|].
      constructor; [unfold notOlder; lia|].
      eapply Forall_impl; [|exact Hall].
      unfold notOlder. intros; lia.
    + apply Z.leb_gt in E.
      constructor; auto.
      eapply Permutation_Forall; [apply insert_perm|].
      constructor; auto. unfold notOlder; lia.
Qed.

Lemma sort_sorted l : StronglySorted notOlder (JsArray.sort newestFirst l).
Proof.
  induction l as [|x r IH]; simpl; [constructor | now apply insert_sorted].
Qed.

(** Stability: records created at the same instant keep the order the
    array had them in. *)
Definition sameKey (k : Z) (a : A) : bool := (key a =? k)%Z.

Lemma insert_stable k x l :
  filter (sameKey k) (JsArray.insert newestFirst x l) = filter (sameKey k) (x :: l).
Proof.
  induction l as [|y r IH]; auto.
  cbn [JsArray.insert]. unfold newestFirst at 1.
  destruct (key y - key x <=? 0)%Z eqn:E; auto.
  apply Z.leb_gt in E.
  cbn [filter] in *. rewrite IH. unfold sameKey.
  destruct (key x =? k)%Z eqn:Ex; destruct (key y =? k)%Z eqn:Ey; auto.
  apply Z.eqb_eq in Ex, Ey. lia.
Qed.

Lemma sort_stable k l :
  filter (sameKey k) (JsArray.sort newestFirst l) = filter (sameKey k) l.
Proof.
  induction l as [|x r IH]; auto.
  cbn [JsArray.sort fold_right]. rewrite insert_stable.
  cbn [filter]. fold (JsArray.sort newestFirst r). now rewrite IH.
Qed.
End Descending.
End SortFacts.

(** ** The record store *)

Module StorageProps.
Import MemStorage.

Lemma sorted_weaken (A : Type) (P Q : A -> A -> Prop) (l : list A) :
  (forall a b, P a b -> Q a b) -> StronglySorted P l -> StronglySorted Q l.
Proof.
  intros H. induction 1 as [|a r Hs IH Hall]; constructor; auto.
  eapply Forall_impl; [|exact Hall]. intros b. apply H.
Qed.

(** C6. [getAllVehicles] and [getAllListings] return exactly the records of
    their map, each record as often as the map holds it, and in the
    returned array the stored [createdAt] of a record is never earlier than
    the stored [createdAt] of a record that stands after it; a [createdAt]
    that is [null] counts as the epoch, as [new Date(null)] does. *)
Theorem getAll_newest_first (st : t) :
  (Permutation (JsMap.values (vehicles st)) (getAllVehicles st) /\
   StronglySorted
     (fun a b =>
        match Vehicle.createdAt a, Vehicle.createdAt b with
        | Some ta, Some tb => (tb <= ta)%Z
        | Some ta, None => (0 <= ta)%Z
        | None, Some tb => (tb <= 0)%Z
        | None, None => True
        end)
     (getAllVehicles st)) /\
  (Permutation (JsMap.values (listings st)) (getAllListings st) /\
   StronglySorted
     (fun a b =>
        match Listing.createdAt a, Listing.createdAt b with
        | Some ta, Some tb => (tb <= ta)%Z
        | Some ta, None => (0 <= ta)%Z
        | None, Some tb => (tb <= 0)%Z
        | None, None => True
        end)
     (getAllListings st)).
Proof.
  split; split.
  - apply (SortFacts.sort_perm vehicleTime).
  - apply sorted_weaken with (P := SortFacts.notOlder vehicleTime);
      [|apply (SortFacts.sort_sorted vehicleTime)].
    intros a b. unfold SortFacts.notOlder, vehicleTime, getTime.
    destruct (Vehicle.createdAt a), (Vehicle.createdAt b); auto.
  - apply (SortFacts.sort_perm listingTime).
  - apply sorted_weaken with (P := SortFacts.notOlder listingTime);
      [|apply (SortFacts.sort_sorted listingTime)].
    intros a b. unfold SortFacts.notOlder, listingTime, getTime.
    destruct (Listing.createdAt a), (Listing.createdAt b); auto.
Qed.

(** Three vehicles created at 1000, 3000 and 2000 come back as the second,
    the third and the first. *)
Lemma getAll_newest_first_sample :
  map Vehicle.id (getAllVehicles SampleLot.store) = ["v2"; "v3"; "v1"] /\
  map Vehicle.createdAt (getAllVehicles SampleLot.store)
    = [Some 3000%Z; Some 2000%Z; Some 1000%Z] /\
  StronglySorted
    (fun a b =>
       match Vehicle.createdAt a, Vehicle.createdAt b with
       | Some ta, Some tb => (tb <= ta)%Z
       | Some ta, None => (0 <= ta)%Z
       | None, Some tb => (tb <= 0)%Z
       | None, None => True
       end)
    (getAllVehicles SampleLot.store).
Proof.
  split; [reflexivity|]. split; [reflexivity|].
  exact (proj2 (proj1 (getAll_newest_first SampleLot.store))).
Defined.

(** Records of one creation instant come out in the order of insertion. *)
Lemma getAllVehicles_ties_in_insertion_order (st : t) (ms : Z) :
  filter (SortFacts.sameKey vehicleTime ms) (getAllVehicles st) =
  filter (SortFacts.sameKey vehicleTime ms) (JsMap.values (vehicles st)).
Proof. apply (SortFacts.sort_stable vehicleTime). Qed.

(** C9. Deleting a vehicle changes neither the listings map nor the
    extractions map, so the listings and extractions that refer to the
    vehicle are still there. *)
Theorem deleteVehicle_no_cascade (id : string) (st : t) :
  listings (snd (deleteVehicle id st)) = listings st /\
  aiExtractions (snd (deleteVehicle id st)) = aiExtractions st /\
  getListingsByVehicle id (snd (deleteVehicle id st)) = getListingsByVehicle id st /\
  getAiExtractionsByVehicle id (snd (deleteVehicle id st)) =
    getAiExtractionsByVehicle id st.
Proof.
  unfold deleteVehicle, getListingsByVehicle, getAiExtractionsByVehicle.
  destruct (JsMap.delete id (vehicles st)) as [found vs]. simpl. auto.
Qed.

(** C10. [createVehicle] stores under the generated id the record it
    returns; its trim is [null] when the payload has no trim or the empty
    one and the given trim otherwise; its features and images are the given
    lists, or the empty list when the payload has none; its id is the
    generated one and its two timestamps are the same instant. *)
Theorem createVehicle_defaults (id : string) (now : Z) (ins : InsertVehicle.t) (st : t) :
  let v := fst (createVehicle id now ins st) in
  let st' := snd (createVehicle id now ins st) in
  getVehicle id st' = Some v /\
  Vehicle.id v = id /\
  Vehicle.createdAt v = Some now /\
  Vehicle.updatedAt v = Vehicle.createdAt v /\
  (InsertVehicle.trim ins = None \/ InsertVehicle.trim ins = Some "" ->
   Vehicle.trim v = None) /\
  (forall s, InsertVehicle.trim ins = Some s -> s <> "" -> Vehicle.trim v = Some s) /\
  (InsertVehicle.features ins = None -> Vehicle.features v = Some []) /\
  (forall l, InsertVehicle.features ins = Some l -> Vehicle.features v = Some l) /\
  (InsertVehicle.images ins = None -> Vehicle.images v = Some []) /\
  (forall l, InsertVehicle.images ins = Some l -> Vehicle.images v = Some l).
Proof.
  cbn -[JsMap.get JsMap.set]. unfold getVehicle. cbn -[JsMap.get JsMap.set].
  repeat split.
  - apply JsMapFacts.get_set_same.
  - intros [H|H]; rewrite H; reflexivity.
  - intros s H Hs. rewrite H. destruct s; [congruence | reflexivity].
  - intros H; now rewrite H.
  - intros l H; now rewrite H.
  - intros H; now rewrite H.
  - intros l H; now rewrite H.
Qed.

Lemma given_field (A : Type) (g : option A) (prior : A) :
  Merge.field g prior (given g prior).
Proof. destruct g; reflexivity. Qed.

Lemma copied_listField g prior :
  Merge.listField g prior (copied_or_existing g prior).
Proof. destruct g as [[l|]|]; reflexivity. Qed.

Create HintDb merge.
#[local] Hint Resolve given_field copied_listField : merge.

(** C7, as the store has it. For an id that the map holds, [updateVehicle]
    and [updateListing] return a record that has every given field at its
    given value and every other field at its prior value, with [updatedAt]
    refreshed and [id] and [createdAt] kept; a features or images field
    given as [null] leaves the list of the record. The returned record is
    the one stored under the id, and nothing else in the store changes.
    For an id that the map does not hold they return nothing and the store
    is the same. *)
Theorem update_merges_over_existing :
  (forall (now : Z) (id : string) (u : VehicleUpdate.t) (st : t),
      match getVehicle id st with
      | None => updateVehicle now id u st = (None, st)
      | Some existing =>
          exists updated,
            fst (updateVehicle now id u st) = Some updated /\
            Merge.vehicle now u existing updated /\
            getVehicle id (snd (updateVehicle now id u st)) = Some updated /\
            (forall k, k <> id ->
               getVehicle k (snd (updateVehicle now id u st)) = getVehicle k st) /\
            listings (snd (updateVehicle now id u st)) = listings st /\
            aiExtractions (snd (updateVehicle now id u st)) = aiExtractions st
      end) /\
  (forall (now : Z) (id : string) (u : ListingUpdate.t) (st : t),
      match getListing id st with
      | None => updateListing now id u st = (None, st)
      | Some existing =>
          exists updated,
            fst (updateListing now id u st) = Some updated /\
            Merge.listing now u existing updated /\
            getListing id (snd (updateListing now id u st)) = Some updated /\
            (forall k, k <> id ->
               getListing k (snd (updateListing now id u st)) = getListing k st) /\
            vehicles (snd (updateListing now id u st)) = vehicles st /\
            aiExtractions (snd (updateListing now id u st)) = aiExtractions st
      end).
Proof.
  split; intros now id u st.
  - unfold getVehicle, updateVehicle.
    destruct (JsMap.get id (vehicles st)) as [existing|] eqn:E; [|reflexivity].
    eexists. split; [reflexivity|]. cbn -[JsMap.get JsMap.set].
    split; [|split; [|split]]; auto.
    + unfold Merge.vehicle. cbn. repeat split; auto with merge.
    + apply JsMapFacts.get_set_same.
    + intros k Hk. now apply JsMapFacts.get_set_other.
  - unfold getListing, updateListing.
    destruct (JsMap.get id (listings st)) as [existing|] eqn:E; [|reflexivity].
    eexists. split; [reflexivity|]. cbn -[JsMap.get JsMap.set].
    split; [|split; [|split]]; auto.
    + unfold Merge.listing. cbn. repeat split; auto with merge.
    + apply JsMapFacts.get_set_same.
    + intros k Hk. now apply JsMapFacts.get_set_other.
Qed.

(** C7, as stated, fails on a list column: an update of the sample vehicle
    that gives [features: null] returns a record that still has the two
    features, where a merge of the given field would have [null]. *)
Lemma updateVehicle_null_features_not_merged :
  exists updated,
    getVehicle "v1" Sample.store = Some Sample.civic /\
    fst (updateVehicle 2000 "v1" Sample.featuresNull Sample.store) = Some updated /\
    VehicleUpdate.features Sample.featuresNull = Some None /\
    Vehicle.features updated = Some ["Sunroof"; "Bluetooth"] /\
    ~ Merge.field (VehicleUpdate.features Sample.featuresNull)
        (Vehicle.features Sample.civic) (Vehicle.features updated).
Proof.
  eexists. repeat split; try reflexivity.
  cbn. discriminate.
Qed.

End StorageProps.

(** ** The VIN decode adapter *)

Module VinProps.
Import VinLookupService.

Section WholeMatch.
Variable ignoreCase : bool.
Variable cs : Regex.charset.

(** [/^[cs]{n}$/] takes exactly the strings of [n] characters of the class. *)
Lemma times_whole (n : nat) (s : string) :
  Regex.times ignoreCase n cs s Regex.atEnd = Some tt <->
  String.length s = n /\ Text.all_chars (Regex.accepts ignoreCase cs) s = true.
Proof.
  revert s. induction n as [|n IH]; intros s; destruct s as [|c r]; simpl.
  - intuition.
  - split; [discriminate | intros [H _]; discriminate].
  - split; [discriminate | intros [H _]; discriminate].
  - destruct (Regex.accepts ignoreCase cs c); simpl.
    + rewrite IH. intuition.
    + split; [discriminate | intros [_ H]; discriminate].
Qed.

Lemma testWhole_times (n : nat) (s : string) :
  Regex.testWhole ignoreCase (Regex.Times n cs) s =
  (String.length s =? n)%nat && Text.all_chars (Regex.accepts ignoreCase cs) s.
Proof.
  unfold Regex.testWhole. cbn [Regex.exec].
  destruct (Regex.times ignoreCase n cs s Regex.atEnd) as [[]|] eqn:E.
  - apply times_whole in E. destruct E as [E1 E2].
    rewrite E2. apply Nat.eqb_eq in E1. now rewrite E1.
  - symmetry. apply not_true_is_false. intros H.
    apply andb_true_iff in H. destruct H as [H1 H2].
    apply Nat.eqb_eq in H1.
    assert (Regex.times ignoreCase n cs s Regex.atEnd = Some tt) as H
        by (apply times_whole; auto).
    congruence.
Qed.
End WholeMatch.

(** The server accepts exactly the upper-case VIN shapes. *)
Lemma isValidVin_upperVinShape (vin : string) :
  isValidVin vin = VinSpec.upperVinShape vin.
Proof.
  unfold isValidVin, VinSpec.upperVinShape, vinPattern.
  rewrite testWhole_times.
  destruct (String.length vin =? 17)%nat; simpl; auto.
  now destruct (Text.all_chars _ vin).
Qed.

(** The client's validator accepts every VIN shape, in either case. *)
Lemma validateVin_vinShape (vin : string) :
  VinLookupClient.validateVin vin = VinSpec.vinShape vin.
Proof.
  unfold VinLookupClient.validateVin, VinSpec.vinShape, vinPattern.
  rewrite testWhole_times.
  destruct (String.length vin =? 17)%nat; simpl; auto.
  now destruct (Text.all_chars _ vin).
Qed.

(** A character that upper-casing leaves alone is in the VIN alphabet
    without regard to case only when it is in it as it stands. *)
Lemma upper_accepts (c : ascii) :
  Text.upper_char c = c ->
  Regex.accepts true Regex.vinChars c = Regex.accepts false Regex.vinChars c.
Proof.
  destruct c as [[] [] [] [] [] [] [] []]; vm_compute; intros H;
    try reflexivity; discriminate.
Qed.

(** On upper-case text the server accepts every VIN shape. *)
Lemma isValidVin_upper_case (vin : string) :
  Text.toUpperCase vin = vin -> isValidVin vin = VinSpec.vinShape vin.
Proof.
  intros Hup. rewrite isValidVin_upperVinShape.
  unfold VinSpec.upperVinShape, VinSpec.vinShape. f_equal.
  induction vin as [|c r IH]; [reflexivity|].
  cbn in Hup. injection Hup as Hc Hr.
  cbn [Text.all_chars]. now rewrite (upper_accepts Hc), (IH Hr).
Qed.

Section Calls.
Variable registry : Http.Call -> Http.Outcome NhtsaData.
Variable apiKey : string.
Variable baseUrl : string.

(** The registry lookup issues its one call whatever comes back. *)
Lemma lookupWithNHTSA_one_call (vin : string) (w : Effect.World) :
  Effect.calls (snd (lookupWithNHTSA registry baseUrl vin w)) =
  (Effect.calls w ++ [Http.Get (registryUrl baseUrl vin)])%list.
Proof.
  unfold lookupWithNHTSA, Effect.bind, Effect.fetch. cbv zeta.
  destruct (registry (Http.Get (registryUrl baseUrl vin))) as [reason|r]; [reflexivity|].
  destruct (Http.ok r); cbn; [|reflexivity].
  unfold Effect.json.
  destruct (Http.json r) as [data|]; [|reflexivity].
  cbn. destruct (Results data) as [[|first rest]|]; try reflexivity.
  now destruct (MemStorage.option_eqb (ErrorCode first) "0").
Qed.

(** A string that the server does not accept is answered with the format
    error, and no call goes out. *)
Lemma lookupVin_invalid_no_call (vin : string) :
  isValidVin vin = false ->
  Effect.run (lookupVin registry apiKey baseUrl vin) =
  (Effect.Return (failed "Invalid VIN format. VIN must be 17 characters."),
   Effect.start).
Proof. intros H. unfold lookupVin. now rewrite H. Qed.

(** A string that the server accepts causes exactly one call, to the
    registry, and the lookup returns a result. *)
Lemma lookupVin_valid_one_call (vin : string) :
  isValidVin vin = true ->
  Effect.calls (snd (Effect.run (lookupVin registry apiKey baseUrl vin))) =
    [Http.Get (registryUrl baseUrl vin)] /\
  exists result,
    fst (Effect.run (lookupVin registry apiKey baseUrl vin)) = Effect.Return result.
Proof.
  intros H. unfold lookupVin, Effect.run. rewrite H. cbn [negb].
  unfold Effect.try_catch, Effect.bind.
  pose proof (lookupWithNHTSA_one_call vin Effect.start) as Hc.
  destruct (lookupWithNHTSA registry baseUrl vin Effect.start) as [[r|e] w'];
    cbn [snd] in Hc.
  - destruct (success r); [cbn; eauto|].
    destruct (Text.truthy apiKey); cbn; eauto.
  - cbn. eauto.
Qed.

(** An upper-case VIN shape causes exactly one call. *)
Lemma lookupVin_upper_case_one_call (vin : string) :
  VinSpec.vinShape vin = true ->
  Text.toUpperCase vin = vin ->
  Effect.calls (snd (Effect.run (lookupVin registry apiKey baseUrl vin))) =
    [Http.Get (registryUrl baseUrl vin)].
Proof.
  intros Hshape Hup. apply lookupVin_valid_one_call.
  now rewrite isValidVin_upper_case.
Qed.

(** C1, on the failing input. The 17 characters [1hgcm82633a004352] are
    digits and letters other than I, O and Q, and the client's two
    validators accept them; the server answers them with the format
    error and issues no call. *)
Theorem lookupVin_rejects_lower_case :
  VinSpec.vinShape "1hgcm82633a004352" = true /\
  VinLookupClient.isValidVin "1hgcm82633a004352" = true /\
  VinLookupClient.validateVin "1hgcm82633a004352" = true /\
  Effect.run (lookupVin registry apiKey baseUrl "1hgcm82633a004352") =
  (Effect.Return (failed "Invalid VIN format. VIN must be 17 characters."),
   Effect.start).
Proof. repeat split; reflexivity. Qed.
End Calls.

(** *** Fuel types *)

Lemma or_undefined_some (f : string) :
  f <> "" -> Text.or_undefined (Some f) = Some f.
Proof. destruct f; [congruence | reflexivity]. Qed.

(** The table of the code and the table of the contract have the same
    rows. *)
Lemma mappings_synonyms (key : string) :
  JsMap.get key mappings = JsMap.get key VinSpec.synonyms.
Proof.
  unfold mappings, VinSpec.synonyms. cbn [JsMap.get].
  repeat match goal with
         | |- context [String.eqb key ?k] =>
             let E := fresh "E" in destruct (String.eqb key k) eqn:E
         end; try reflexivity;
    repeat match goal with
           | H : String.eqb _ _ = true |- _ => apply String.eqb_eq in H
           end; congruence.
Qed.

(** Away from the names that every object inherits, [mapFuelType] is the
    normalization of the contract. *)
Lemma mapFuelType_normalize (fuelType : option string) :
  (forall f, fuelType = Some f ->
             JsMap.get (Text.toLowerCase f) JsObject.objectPrototype = None) ->
  mapFuelType fuelType = VinSpec.asValue (VinSpec.normalize fuelType).
Proof.
  intros Hproto. destruct fuelType as [f|]; [|reflexivity].
  destruct f as [|c r]; [reflexivity|].
  specialize (Hproto _ eq_refl).
  unfold mapFuelType, VinSpec.normalize.
  rewrite or_undefined_some by discriminate.
  cbv zeta. unfold JsObject.get. rewrite Hproto, mappings_synonyms.
  destruct (JsMap.get _ VinSpec.synonyms) as [t|] eqn:E; [|reflexivity].
  unfold JsObject.or. cbn.
  destruct t; [|reflexivity].
  revert E. unfold VinSpec.synonyms. cbn [JsMap.get].
  repeat match goal with
         | |- context [String.eqb ?a ?k] => destruct (String.eqb a k)
         end; discriminate.
Qed.

(** The rows of the table, in mixed case, and a fuel type outside it. *)
Example mapFuelType_rows :
  map mapFuelType
      [ Some "Gas"; Some "E85"; Some "Flex Fuel"; Some "ELECTRIC"; Some "Hybrid";
        Some "Diesel"; Some "Gasoline"; Some "Hydrogen"; Some ""; None ] =
  [ JsObject.Str "gasoline"; JsObject.Str "gasoline"; JsObject.Str "gasoline";
    JsObject.Str "electric"; JsObject.Str "hybrid"; JsObject.Str "diesel";
    JsObject.Str "gasoline"; JsObject.Str "gasoline"; JsObject.Undefined;
    JsObject.Undefined ].
Proof. reflexivity. Qed.

(** C2, on the failing input. The fuel type [constructor] is not in the
    table, and [mapFuelType] returns for it the constructor that the
    table object inherits, where the contract has gasoline. *)
Theorem mapFuelType_inherited_property :
  JsMap.get (Text.toLowerCase "constructor") mappings = None /\
  VinSpec.normalize (Some "constructor") = Some "gasoline" /\
  mapFuelType (Some "constructor") = JsObject.Builtin "Object" /\
  mapFuelType (Some "constructor") <> JsObject.Str "gasoline".
Proof. repeat split; try reflexivity. discriminate. Qed.

End VinProps.

(** ** The API layer: vehicles and listings *)

Module RouteProps.
Import Routes.

(** A body whose make is the empty string does not pass the schema. *)
Lemma parse_empty_make (currentYear : Z) (props : list (string * Json)) :
  JsMap.get "make" props = Some (JStr "") ->
  exists issues,
    VehicleFormSchema.parse currentYear (Some (JObj props)) = inl issues /\
    In "make" issues.
Proof.
  intros Hmake. unfold VehicleFormSchema.parse. rewrite Hmake.
  cbn [VehicleFormSchema.stringMin String.length Nat.leb].
  destruct (VehicleFormSchema.optionalText (JsMap.get "vin" props));
    destruct (VehicleFormSchema.numberRange 1900 (currentYear + 1)
                (JsMap.get "year" props));
    (eexists; split; [reflexivity|]);
    cbn [VehicleFormSchema.issue app];
    rewrite ?in_app_iff; cbn [In]; auto.
Qed.

(** C8. When the body of [POST /api/vehicles] does not pass the vehicle
    schema, the handler answers 400 with the issues and the store is the one
    it was: no vehicle is created. *)
Theorem postVehicle_rejects_invalid_body
    (currentYear : Z) (id : string) (now : Z) (reqBody : option Json)
    (st : MemStorage.t) (issues : list string) :
  VehicleFormSchema.parse currentYear reqBody = inl issues ->
  status (fst (postVehicle currentYear id now reqBody st)) = 400%Z /\
  body (fst (postVehicle currentYear id now reqBody st)) = IssuesJson issues /\
  snd (postVehicle currentYear id now reqBody st) = st /\
  MemStorage.getVehicle id (snd (postVehicle currentYear id now reqBody st)) =
    MemStorage.getVehicle id st.
Proof.
  intros H. unfold postVehicle. rewrite H. cbn. auto.
Qed.

(** The body [{"make": "", "year": 2020}] against the sample store. *)
Lemma postVehicle_rejects_empty_make :
  status (fst (postVehicle 2026 "v2" 7000
                 (Some (JObj [("make", JStr ""); ("year", JNum 2020)])) Sample.store))
    = 400%Z /\
  body (fst (postVehicle 2026 "v2" 7000
               (Some (JObj [("make", JStr ""); ("year", JNum 2020)])) Sample.store))
    = IssuesJson ["make"; "model"; "mileage"; "transmission"; "fuelType";
                  "condition"; "price"; "location"; "description"] /\
  snd (postVehicle 2026 "v2" 7000
         (Some (JObj [("make", JStr ""); ("year", JNum 2020)])) Sample.store)
    = Sample.store /\
  MemStorage.getVehicle "v2"
    (snd (postVehicle 2026 "v2" 7000
            (Some (JObj [("make", JStr ""); ("year", JNum 2020)])) Sample.store))
    = MemStorage.getVehicle "v2" Sample.store.
Proof.
  apply (@postVehicle_rejects_invalid_body 2026 "v2" 7000
           (Some (JObj [("make", JStr ""); ("year", JNum 2020)])) Sample.store).
  reflexivity.
Defined.

(** C5. For a vehicle that the store holds, [generate-listing] with the
    platform facebook, given or by default, answers 200 with a listing,
    stored under its id, whose title is the year, the make and the model
    with single spaces between them, then a space and the trim when the
    vehicle has a trim (one that is not empty), then [ - $] and the price
    as [toLocaleString] writes it. *)
Theorem generateListing_facebook_title
    (id : string) (now : Z) (vehicleId : string) (platform : option string)
    (st : MemStorage.t) (vehicle : Vehicle.t) :
  MemStorage.getVehicle vehicleId st = Some vehicle ->
  platform = Some "facebook" \/ platform = None ->
  exists listing,
    fst (generateListing id now vehicleId platform st)
      = mkReply 200 (ListingJson listing) /\
    MemStorage.getListing id (snd (generateListing id now vehicleId platform st))
      = Some listing /\
    Listing.platform listing = "facebook" /\
    (forall trim, Vehicle.trim vehicle = Some trim -> trim <> "" ->
       Listing.title listing =
         Number.toString (Vehicle.year vehicle) ++ " " ++ Vehicle.make vehicle ++ " "
         ++ Vehicle.model vehicle ++ " " ++ trim
         ++ " - $" ++ Number.toLocaleString (Vehicle.price vehicle)) /\
    (Vehicle.trim vehicle = None \/ Vehicle.trim vehicle = Some "" ->
       Listing.title listing =
         Number.toString (Vehicle.year vehicle) ++ " " ++ Vehicle.make vehicle ++ " "
         ++ Vehicle.model vehicle
         ++ " - $" ++ Number.toLocaleString (Vehicle.price vehicle)).
Proof.
  intros Hv Hp. unfold generateListing. rewrite Hv.
  cbn -[JsMap.get JsMap.set Number.toString Number.toLocaleString String.append
        MemStorage.given].
  eexists. split; [reflexivity|].
  split; [apply JsMapFacts.get_set_same|].
  split; [destruct Hp; subst; reflexivity|].
  cbn -[Number.toString Number.toLocaleString String.append].
  split.
  - intros trim Ht Hne. rewrite Ht.
    destruct trim as [|c r]; [congruence|]. reflexivity.
  - intros [Ht|Ht]; rewrite Ht; reflexivity.
Qed.

(** The sample vehicle: [2020 Honda Civic EX - $18,500]. *)
Lemma generateListing_sample_title :
  exists listing,
    fst (generateListing "l1" 5000 "v1" (Some "facebook") Sample.store)
      = mkReply 200 (ListingJson listing) /\
    Listing.title listing = "2020 Honda Civic EX - $18,500".
Proof.
  destruct (@generateListing_facebook_title "l1" 5000 "v1" (Some "facebook")
              Sample.store Sample.civic eq_refl (or_introl eq_refl))
    as (listing & Hreply & _ & _ & Htrim & _).
  exists listing. split; [exact Hreply|].
  rewrite (Htrim "EX" eq_refl); [reflexivity | discriminate].
Defined.

End RouteProps.

(** ** Numbers as text *)

Module NumberProps.

Lemma group3_grouped_upto (n : nat) (r : list ascii) :
  (List.length r <= n)%nat -> r <> [] ->
  Thousands.grouped (rev r) (rev (Number.group3 r)).
Proof.
  revert r. induction n as [|n IH]; intros r Hlen Hne.
  - destruct r; [congruence | simpl in Hlen; lia].
  - destruct r as [|a [|b [|c [|x more]]]]; try congruence;
      try (apply Thousands.first_group; simpl; lia).
    change (Number.group3 (a :: b :: c :: x :: more))
      with (a :: b :: c :: ","%char :: Number.group3 (x :: more)).
    change (a :: b :: c :: x :: more) with ([a; b; c] ++ x :: more)%list.
    change (a :: b :: c :: ","%char :: Number.group3 (x :: more))
      with ([a; b; c] ++ ","%char :: Number.group3 (x :: more))%list.
    rewrite !rev_app_distr.
    change (rev (","%char :: Number.group3 (x :: more)))
      with (rev (Number.group3 (x :: more)) ++ [","%char])%list.
    rewrite <- app_assoc.
    apply Thousands.next_group; [|reflexivity].
    apply IH; [simpl in *; lia | discriminate].
Qed.

Lemma digits_toString (n : Z) :
  (0 <= n)%Z -> string_of_list_ascii (Number.digits n) = Number.toString n.
Proof.
  intros Hn. unfold Number.digits, Number.toString.
  rewrite string_of_list_ascii_of_string.
  destruct n as [|p|p]; try reflexivity. lia.
Qed.

Lemma digits_not_empty (n : Z) : Number.digits n <> [].
Proof.
  unfold Number.digits, NilZero.string_of_uint.
  destruct (N.to_uint (Z.abs_N n)); discriminate.
Qed.

(** [toLocaleString] writes a natural number as its decimal digits in groups
    of three, counted from the right, with a comma between the groups. *)
Lemma toLocaleString_grouped (n : Z) :
  (0 <= n)%Z ->
  exists out,
    Number.toLocaleString n = string_of_list_ascii out /\
    Thousands.grouped (list_ascii_of_string (Number.toString n)) out.
Proof.
  intros Hn. exists (rev (Number.group3 (rev (Number.digits n)))). split.
  - unfold Number.toLocaleString.
    destruct (n <? 0)%Z eqn:E; [apply Z.ltb_lt in E; lia | reflexivity].
  - rewrite <- (digits_toString Hn), list_ascii_of_string_of_list_ascii.
    rewrite <- (rev_involutive (Number.digits n)) at 1.
    apply (@group3_grouped_upto (List.length (rev (Number.digits n)))); [lia|].
    intros H. apply (f_equal (@rev ascii)) in H.
    rewrite rev_involutive in H. now apply (digits_not_empty n).
Qed.

Example toLocaleString_18500 : Number.toLocaleString 18500 = "18,500".
Proof. reflexivity. Qed.

Example toLocaleString_999999 : Number.toLocaleString 999999 = "999,999".
Proof. reflexivity. Qed.

Example toLocaleString_950 : Number.toLocaleString 950 = "950".
Proof. reflexivity. Qed.

End NumberProps.

(** ** The vision inference adapter *)

Module OllamaProps.
Import OllamaService.

Lemma reserved_confidence : reserved "confidence" = true.
Proof. reflexivity. Qed.

Lemma reserved_neq (key other : string) :
  reserved key = false -> reserved other = true -> key <> other.
Proof. intros Hk Ho E. subst. congruence. Qed.

(** Setting the three keys leaves every other field as it was and ends with
    the three keys at their values. *)
Lemma result_fields (source : JsMap.t Json) (c : Z) (text : Json) :
  let result :=
    JsMap.set "rawResponse" text
      (JsMap.set "extractedText" text (JsMap.set "confidence" (JNum c) source)) in
  JsMap.get "confidence" result = Some (JNum c) /\
  JsMap.get "extractedText" result = Some text /\
  JsMap.get "rawResponse" result = Some text /\
  fieldsFrom source result.
Proof.
  cbv zeta. repeat split.
  - rewrite !JsMapFacts.get_set_other by discriminate.
    apply JsMapFacts.get_set_same.
  - rewrite JsMapFacts.get_set_other by discriminate.
    apply JsMapFacts.get_set_same.
  - apply JsMapFacts.get_set_same.
  - intros key Hk.
    rewrite !JsMapFacts.get_set_other; auto;
      apply (reserved_neq Hk); reflexivity.
Qed.

(** The text fallback writes no key but its four. *)
Lemma parseTextResponse_keys (text key : string) (v : Json) :
  JsMap.get key (parseTextResponse text) = Some v ->
  In key ["licensePlate"; "damage"; "interior"; "exterior"].
Proof.
  unfold parseTextResponse.
  assert (forall k m f (r : JsMap.t Json),
             (forall v', JsMap.get key r = Some v' ->
                         In key ["licensePlate"; "damage"; "interior"; "exterior"]) ->
             In k ["licensePlate"; "damage"; "interior"; "exterior"] ->
             forall v', JsMap.get key (assign k m f r) = Some v' ->
                        In key ["licensePlate"; "damage"; "interior"; "exterior"]) as Hstep.
  { intros k m f r Hr Hk v'. unfold assign.
    destruct m as [[whole [captured|]]|]; try apply Hr.
    destruct (String.eqb key k) eqn:E.
    - apply String.eqb_eq in E. subst. intros _. exact Hk.
    - apply String.eqb_neq in E. rewrite JsMapFacts.get_set_other by auto. apply Hr. }
  revert v. repeat (apply Hstep; [|cbn [In]; tauto]).
  intros v'. discriminate.
Qed.




(** *** The span that the pattern finds *)

Lemma length_append (a b : string) :
  String.length (a ++ b) = (String.length a + String.length b)%nat.
Proof. induction a as [|c a IH]; simpl; auto. Qed.

Lemma substring_prefix (a b : string) : substring 0 (String.length a) (a ++ b) = a.
Proof.
  induction a as [|c a IH]; simpl.
  - destruct b; reflexivity.
  - now rewrite IH.
Qed.

Lemma consumed_append (a b : string) : Regex.consumed (a ++ b) b = a.
Proof.
  unfold Regex.consumed. rewrite length_append.
  replace (String.length a + String.length b - String.length b)%nat
    with (String.length a) by lia.
  apply substring_prefix.
Qed.

(** What is left of the text after its last closing brace. *)
Fixpoint afterLastClose (s : string) : option string :=
  match s with
  | EmptyString => None
  | String c r =>
      match afterLastClose r with
      | Some post => Some post
      | None => if isClose c then Some r else None
      end
  end.

(** The prefix through the last closing brace and the rest after it make up
    the text. *)
Lemma through_after (s : string) :
  match throughLastClose s, afterLastClose s with
  | Some p, Some post => s = p ++ post
  | None, None => True
  | _, _ => False
  end.
Proof.
  induction s as [|c r IH]; simpl; auto.
  destruct (throughLastClose r) as [p|], (afterLastClose r) as [post|];
    try contradiction.
  - simpl. now rewrite IH.
  - destruct (isClose c); simpl; auto.
Qed.

Section Greedy.
Variable R : Type.
Variable found : string -> R.

#[local] Abbreviation closing :=
  (fun rest : string =>
     match Regex.literal false "}" rest with
     | Some rest' => Some (found rest')
     | None => None
     end).

(** The greedy [[\s\S]*] before a closing brace runs up to the last closing
    brace. *)
Lemma star_to_last_close (s : string) :
  Regex.star false Regex.anything s closing = option_map found (afterLastClose s).
Proof.
  induction s as [|c r IH]; [reflexivity|].
  cbn [Regex.star afterLastClose].
  replace (Regex.accepts false Regex.anything c) with true
    by (unfold Regex.accepts, Regex.anything; cbn; now destruct (Text.is_space c)).
  rewrite IH. destruct (afterLastClose r) as [post|]; [reflexivity|].
  cbn. unfold isClose. now destruct (Ascii.eqb "}" c).
Qed.
End Greedy.

Lemma exec_jsonSpan (s : string) :
  Regex.exec false jsonSpan s None (fun rest cap => Some (Regex.consumed s rest, cap)) =
  match s with
  | String c r =>
      if isOpen c
      then option_map (fun post => (Regex.consumed s post, None)) (afterLastClose r)
      else None
  | EmptyString => None
  end.
Proof.
  destruct s as [|c r]; [reflexivity|].
  unfold jsonSpan. cbn [Regex.exec Regex.literal Regex.same]. unfold isOpen.
  destruct (Ascii.eqb "{" c); [|reflexivity].
  apply (star_to_last_close (fun post => (Regex.consumed (String c r) post, None))).
Qed.

Lemma search_no_close (s : string) :
  afterLastClose s = None -> Regex.search false jsonSpan s = None.
Proof.
  induction s as [|c r IH]; intros H.
  - reflexivity.
  - cbn [Regex.search]. rewrite exec_jsonSpan.
    cbn [afterLastClose] in H.
    destruct (afterLastClose r) as [post|]; [discriminate|].
    destruct (isOpen c); cbn; auto.
Qed.

(** [text.match(/\{[\s\S]*\}/)] is the text from its first opening brace
    through its last closing brace. *)
Lemma jsonMatch_braceSpan (text : string) : jsonMatch text = braceSpan text.
Proof.
  unfold jsonMatch, braceSpan.
  induction text as [|c r IH]; [reflexivity|].
  cbn [Regex.search fromFirstOpen]. rewrite exec_jsonSpan.
  destruct (isOpen c) eqn:Eo.
  - pose proof (through_after r) as Hr. cbn [throughLastClose].
    destruct (throughLastClose r) as [p|], (afterLastClose r) as [post|] eqn:Ea;
      try contradiction.
    + cbn [option_map fst]. subst r.
      change (String c (p ++ post)) with (String c p ++ post).
      now rewrite consumed_append.
    + cbn [option_map]. rewrite (search_no_close r Ea). cbn [option_map].
      unfold isOpen, isClose in *.
      apply Ascii.eqb_eq in Eo. subst c. reflexivity.
  - exact IH.
Qed.

Section Policy.
Variable endpoint : Http.Call -> Http.Outcome OllamaResponse.
Variable JSON_parse : string -> option (JsMap.t Json).
Variable baseUrl : string.
Variable model : string.

(** What the adapter returns does not depend on what happened before. *)
Lemma analyzeVehicleImage_any_world (image : string) (w : Effect.World) :
  fst (analyzeVehicleImage endpoint JSON_parse baseUrl model image w) =
  fst (analyzeVehicleImage endpoint JSON_parse baseUrl model image Effect.start).
Proof.
  unfold analyzeVehicleImage, Effect.try_catch, Effect.bind, Effect.fetch.
  destruct (endpoint (generateCall baseUrl model image)) as [reason|r]; [reflexivity|].
  destruct (Http.ok r); cbn; [|reflexivity].
  unfold Effect.json. destruct (Http.json r) as [data|]; [|reflexivity].
  cbn. unfold extract, Effect.try_catch.
  destruct (response data) as [text|]; [|reflexivity].
  destruct (jsonMatch text) as [span|]; [|reflexivity].
  destruct (JSON_parse span); reflexivity.
Qed.

End Policy.


(** The sample endpoint on image [C]: the span [{the}] does not parse, so
    the confidence is 60 and the fields are those of the text fallback. *)
Example analyzeVehicleImage_sample_fallback :
  fst (Effect.run
         (analyzeVehicleImage Sample.ollama Sample.parseJson "http://localhost:11434"
            "llava" "C"))
  = Effect.Return
      [ ("damage", JStr "scratch on {the} door");
        ("exterior", JStr "good");
        ("confidence", JNum 60);
        ("extractedText", JStr Sample.answerC);
        ("rawResponse", JStr Sample.answerC) ].
Proof. reflexivity. Qed.

End OllamaProps.

(** ** The upload handler *)

Module UploadProps.
Import Routes.

Lemma bind_return (A B : Type) (m : Effect.t A) (f : A -> Effect.t B)
    (w w' : Effect.World) (a : A) :
  m w = (Effect.Return a, w') -> Effect.bind m f w = f a w'.
Proof. intros H. unfold Effect.bind. now rewrite H. Qed.

Lemma validateImageFile_valid (mime : string) (bytes : Z) (w : Effect.World) :
  ImageProcessor.includes ImageProcessor.allowedTypes (Text.toLowerCase mime) = true ->
  (bytes <= ImageProcessor.maxSize)%Z ->
  ImageProcessor.validateImageFile mime bytes w = (Effect.Return tt, w).
Proof.
  intros Ht Hs. unfold ImageProcessor.validateImageFile. rewrite Ht. cbn [negb].
  destruct (bytes >? ImageProcessor.maxSize)%Z eqn:E; [|reflexivity].
  apply Z.gtb_lt in E. lia.
Qed.

Section Batch.
Variable endpoint : Http.Call -> Http.Outcome OllamaService.OllamaResponse.
Variable JSON_parse : string -> option (JsMap.t Json).
Variable baseUrl : string.
Variable model : string.
Variable uploadDir : string.
Variable randomUUID : nat -> string.
Variable extname : string -> string.
Variable toBase64 : string -> string.
Variable diskError : string -> option string.

Hypothesis disk_accepts : forall path, diskError path = None.

#[local] Abbreviation process :=
  (ImageProcessor.processUploadedImage uploadDir randomUUID extname toBase64 diskError).
#[local] Abbreviation loop :=
  (uploadLoop endpoint JSON_parse baseUrl model uploadDir randomUUID extname toBase64
     diskError).
#[local] Abbreviation fails := (analysisFails endpoint JSON_parse baseUrl model toBase64).
#[local] Abbreviation failed := (failures endpoint JSON_parse baseUrl model toBase64).

(** On a disk that accepts the write, the intake returns the image with the
    encoding of the bytes. *)
Lemma processUploadedImage_stored (bytes name mime : string) (w : Effect.World) :
  exists image w',
    process bytes name mime w = (Effect.Return image, w') /\
    ImageProcessor.base64 image = toBase64 bytes.
Proof.
  unfold ImageProcessor.processUploadedImage, Effect.bind, ImageProcessor.mkdir,
    ImageProcessor.drawUUID, ImageProcessor.writeFile.
  rewrite !disk_accepts. unfold Effect.ret.
  eexists. eexists. split; reflexivity.
Qed.

(** The loop pushes one image per file, and one extraction per file whose
    analysis does not throw. *)
Lemma uploadLoop_lengths (files : list UploadedFile) :
  Forall validFile files ->
  forall images extractions w,
  exists images' extractions' w',
    loop files images extractions w = (Effect.Return (images', extractions'), w') /\
    List.length images' = (List.length images + List.length files)%nat /\
    (List.length extractions' + failed files =
     List.length extractions + List.length files)%nat.
Proof.
  induction 1 as [|file rest [Htype Hsize] Hrest IH]; intros images extractions w.
  - exists images, extractions, w. cbn. repeat split; lia.
  - cbn [uploadLoop].
    rewrite (@bind_return _ _ _ _ _ _ _ (@validateImageFile_valid _ _ w Htype Hsize)).
    destruct (processUploadedImage_stored (buffer file) (originalname file)
                (mimetype file) w) as (image & w1 & Hp & Hb).
    rewrite (@bind_return _ _ _ _ _ _ _ Hp).
    unfold failures. cbn [filter]. unfold analysisFails at 1. unfold analyze.
    rewrite <- Hb.
    rewrite <- (OllamaProps.analyzeVehicleImage_any_world endpoint JSON_parse baseUrl
                  model (ImageProcessor.base64 image) w1).
    unfold Effect.bind at 1, Effect.try_catch, Effect.bind, analyze.
    destruct (OllamaService.analyzeVehicleImage endpoint JSON_parse baseUrl model
                (ImageProcessor.base64 image) w1) as [[aiResult|message] w2];
      cbn [fst Effect.ret].
    + match goal with
      | |- context [loop rest ?i ?e w2] =>
          destruct (IH i e w2) as (images' & extractions' & w' & Hl & Hi & He)
      end.
      exists images', extractions', w'. split; [exact Hl|].
      unfold failures in He. rewrite length_app in Hi, He. cbn [List.length] in *.
      split; lia.
    + match goal with
      | |- context [loop rest ?i ?e w2] =>
          destruct (IH i e w2) as (images' & extractions' & w' & Hl & Hi & He)
      end.
      exists images', extractions', w'. split; [exact Hl|].
      unfold failures in He. rewrite length_app in Hi. cbn [List.length] in *.
      split; lia.
Qed.

Lemma failures_le (files : list UploadedFile) : (failed files <= List.length files)%nat.
Proof. unfold failures. apply filter_length_le. Qed.

(** C4, as the handler has it. A batch that is not empty, of N files of an
    allowed type and size that the disk accepts, k of which make the
    inference adapter throw, is answered 200 with N images and N - k
    extractions: no failure of the adapter ends the batch or changes the
    status. *)
Theorem uploadImages_partial_batch (files : list UploadedFile) :
  files <> [] ->
  Forall validFile files ->
  exists images extractions message,
    fst (Effect.run
           (uploadImages endpoint JSON_parse baseUrl model uploadDir randomUUID extname
              toBase64 diskError (Some files)))
      = Effect.Return (mkReply 200 (UploadJson images extractions message)) /\
    List.length images = List.length files /\
    List.length extractions = (List.length files - failed files)%nat.
Proof.
  intros Hne Hvalid.
  destruct (uploadLoop_lengths Hvalid [] [] Effect.start)
    as (images & extractions & w' & Hl & Hi & He).
  pose proof (failures_le files) as Hk.
  exists images, extractions.
  destruct files as [|file rest]; [congruence|].
  unfold Effect.run, uploadImages, Effect.try_catch, Effect.bind.
  rewrite Hl. cbn [fst snd Effect.ret].
  eexists. split; [reflexivity|].
  cbn [List.length] in *. split; lia.
Qed.
End Batch.

(** Three files of which the second cannot reach the endpoint: 200, three
    images, two extractions. *)
Lemma uploadImages_three_files_one_failure :
  exists images extractions message,
    fst (Effect.run (Sample.upload (Some Sample.threeFiles)))
      = Effect.Return (mkReply 200 (UploadJson images extractions message)) /\
    List.length images = 3%nat /\
    List.length extractions = 2%nat.
Proof.
  apply (@uploadImages_partial_batch Sample.ollama Sample.parseJson
           "http://localhost:11434" "llava" "/srv/app/uploads/vehicles" Sample.uuid
           Sample.jpegExtension Sample.encoded Sample.diskAccepts
           (fun _ => eq_refl) Sample.threeFiles).
  - discriminate.
  - unfold Sample.threeFiles, validFile, ImageProcessor.maxSize.
    repeat constructor; cbn; lia.
Defined.

(** C4, as stated, fails on the empty batch: each of its zero files is
    valid and none makes the adapter throw, and the handler answers it 400,
    where the claim has 200 with two empty arrays. *)
Lemma uploadImages_empty_batch_400 :
  Forall validFile [] /\
  failures Sample.ollama Sample.parseJson "http://localhost:11434" "llava"
    Sample.encoded [] = 0%nat /\
  exists reply,
    fst (Effect.run (Sample.upload (Some []))) = Effect.Return reply /\
    reply = mkReply 400 (MessageJson "No images uploaded") /\
    status reply <> 200%Z.
Proof.
  split; [constructor|]. split; [reflexivity|].
  eexists. split; [reflexivity|]. split; [reflexivity|]. discriminate.
Qed.

End UploadProps.

(** ** The record store: histories and invariants *)

Module HistoryProps.
Import MemStorage.

Section MapFacts.
Variable V : Type.
Implicit Types (m : JsMap.t V) (k : string) (v : V).

Lemma get_none_keys m k : JsMap.get k m = None <-> ~ In k (JsMap.keys m).
Proof.
  unfold JsMap.keys. induction m as [|[k' v'] r IH]; simpl.
  - tauto.
  - destruct (String.eqb k k') eqn:E.
    + apply String.eqb_eq in E. subst. split; [discriminate | tauto].
    + apply String.eqb_neq in E. rewrite IH. split; [intros H [H'|H']; auto | tauto].
Qed.

Lemma keys_set_in m k v k' :
  In k' (JsMap.keys (JsMap.set k v m)) <-> k' = k \/ In k' (JsMap.keys m).
Proof.
  unfold JsMap.keys. induction m as [|[k0 v0] r IH]; simpl.
  - intuition.
  - destruct (String.eqb k k0) eqn:E; simpl.
    + apply String.eqb_eq in E. subst. intuition.
    + rewrite IH. intuition.
Qed.

Lemma set_unique m k v : NoDup (JsMap.keys m) -> NoDup (JsMap.keys (JsMap.set k v m)).
Proof.
  unfold JsMap.keys. induction m as [|[k0 v0] r IH]; simpl; intros H.
  - repeat constructor. auto.
  - inversion H as [|? ? Hn Hr]; subst.
    destruct (String.eqb k k0) eqn:E; simpl.
    + apply String.eqb_eq in E. subst. now constructor.
    + apply String.eqb_neq in E. constructor; auto.
      intros Hin. apply (keys_set_in r k v k0) in Hin. destruct Hin; auto.
Qed.

Lemma keys_delete_in m k k' :
  In k' (JsMap.keys (snd (JsMap.delete k m))) -> In k' (JsMap.keys m).
Proof.
  unfold JsMap.keys. induction m as [|[k0 v0] r IH]; simpl; auto.
  destruct (String.eqb k k0); simpl; auto.
  destruct (JsMap.delete k r) as [found r'] eqn:E. simpl in *. intuition.
Qed.

Lemma delete_unique m k : NoDup (JsMap.keys m) -> NoDup (JsMap.keys (snd (JsMap.delete k m))).
Proof.
  induction m as [|[k0 v0] r IH]; simpl; intros H; auto.
  inversion H as [|? ? Hn Hr]; subst.
  destruct (String.eqb k k0); simpl; auto.
  pose proof (keys_delete_in r k k0) as Hin.
  destruct (JsMap.delete k r) as [found r'] eqn:E. simpl in *.
  constructor; auto.
Qed.

Lemma get_delete_same m k :
  NoDup (JsMap.keys m) -> JsMap.get k (snd (JsMap.delete k m)) = None.
Proof.
  induction m as [|[k0 v0] r IH]; simpl; intros H; auto.
  inversion H as [|? ? Hn Hr]; subst.
  destruct (String.eqb k k0) eqn:E; simpl.
  - apply String.eqb_eq in E. subst. now apply get_none_keys.
  - specialize (IH Hr). destruct (JsMap.delete k r) as [found r']. simpl in *.
    now rewrite E.
Qed.

Lemma get_delete_other m k k' :
  k' <> k -> JsMap.get k' (snd (JsMap.delete k m)) = JsMap.get k' m.
Proof.
  intros Hne. induction m as [|[k0 v0] r IH]; simpl; auto.
  destruct (String.eqb k k0) eqn:E; simpl.
  - apply String.eqb_eq in E. subst.
    apply String.eqb_neq in Hne. now rewrite Hne.
  - destruct (JsMap.delete k r) as [found r']. simpl in *. now rewrite IH.
Qed.

Lemma delete_found m k :
  fst (JsMap.delete k m) = match JsMap.get k m with Some _ => true | None => false end.
Proof.
  induction m as [|[k0 v0] r IH]; simpl; auto.
  destruct (String.eqb k k0); simpl; auto.
  destruct (JsMap.delete k r) as [found r']. auto.
Qed.

Lemma set_forall (P : string * V -> Prop) m k v :
  P (k, v) -> Forall P m -> Forall P (JsMap.set k v m).
Proof.
  intros Hp. induction 1 as [|[k0 v0] r H0 Hr IH]; simpl.
  - repeat constructor. exact Hp.
  - destruct (String.eqb k k0); constructor; auto.
Qed.

Lemma delete_forall (P : string * V -> Prop) m k :
  Forall P m -> Forall P (snd (JsMap.delete k m)).
Proof.
  induction 1 as [|[k0 v0] r H0 Hr IH]; simpl; auto.
  destruct (String.eqb k k0); simpl; auto.
  destruct (JsMap.delete k r) as [found r']. simpl in *. constructor; auto.
Qed.

Lemma get_in m k v : JsMap.get k m = Some v -> In (k, v) m.
Proof.
  induction m as [|[k0 v0] r IH]; simpl; [discriminate|].
  destruct (String.eqb k k0) eqn:E.
  - apply String.eqb_eq in E. intros H. injection H as H. subst. auto.
  - auto.
Qed.

(** A new key goes to the end of the map. *)
Lemma values_set_fresh m k v :
  JsMap.get k m = None -> JsMap.values (JsMap.set k v m) = (JsMap.values m ++ [v])%list.
Proof.
  unfold JsMap.values. induction m as [|[k0 v0] r IH]; simpl; auto.
  destruct (String.eqb k k0); [discriminate|]. intros H. simpl. now rewrite IH.
Qed.

(** A key that is there keeps its place. *)
Lemma values_set_present m k v v0 :
  JsMap.get k m = Some v0 ->
  History.Replaced v0 v (JsMap.values m) (JsMap.values (JsMap.set k v m)).
Proof.
  unfold JsMap.values. induction m as [|[k0 v1] r IH]; simpl; [discriminate|].
  destruct (String.eqb k k0); simpl.
  - intros H. injection H as H. subst. constructor.
  - intros H. constructor. auto.
Qed.
End MapFacts.

(** Every store that the methods build keeps the invariant. *)
Lemma reachable_invariant (st : t) : History.Reachable st -> History.invariant st.
Proof.
  unfold History.invariant.
  induction 1 as [|id now ins st _ IH|now id u st _ IH|id st _ IH|id now ins st _ IH
                 |now id u st _ IH|id st _ IH|id now ins st _ IH];
    try destruct IH as (Nv & Nl & Ne & Fv & Fl & Fe).
  - cbn. repeat split; constructor.
  - cbn -[JsMap.set]. repeat split; auto.
    + now apply set_unique.
    + apply set_forall; auto. unfold History.vehicleEntry. cbn.
      repeat split; discriminate.
  - unfold updateVehicle.
    destruct (JsMap.get id (vehicles st)) as [existing|] eqn:E;
      cbn -[JsMap.set]; repeat split; auto.
    + now apply set_unique.
    + apply set_forall; auto.
      pose proof (@get_in _ _ _ _ E) as Hin.
      rewrite Forall_forall in Fv. destruct (Fv _ Hin) as (Hid & Hf & Hi & Hc).
      unfold History.vehicleEntry. cbn in *. repeat split; auto.
      * destruct (VehicleUpdate.features u) as [[l|]|]; cbn; auto. discriminate.
      * destruct (VehicleUpdate.images u) as [[l|]|]; cbn; auto. discriminate.
  - unfold deleteVehicle.
    pose proof (@delete_unique _ (vehicles st) id Nv) as Hn.
    pose proof (@delete_forall _ _ _ id Fv) as Hf.
    destruct (JsMap.delete id (vehicles st)) as [found vs]. cbn in *. repeat split; auto.
  - cbn -[JsMap.set]. repeat split; auto.
    + now apply set_unique.
    + apply set_forall; auto. unfold History.listingEntry. cbn. split; [auto|discriminate].
  - unfold updateListing.
    destruct (JsMap.get id (listings st)) as [existing|] eqn:E;
      cbn -[JsMap.set]; repeat split; auto.
    + now apply set_unique.
    + apply set_forall; auto.
      pose proof (@get_in _ _ _ _ E) as Hin.
      rewrite Forall_forall in Fl. destruct (Fl _ Hin) as (Hid & Hc).
      unfold History.listingEntry. cbn in *. auto.
  - unfold deleteListing.
    pose proof (@delete_unique _ (listings st) id Nl) as Hn.
    pose proof (@delete_forall _ _ _ id Fl) as Hf.
    destruct (JsMap.delete id (listings st)) as [found ls]. cbn in *. repeat split; auto.
  - cbn -[JsMap.set]. repeat split; auto.
    + now apply set_unique.
    + apply set_forall; auto. unfold History.extractionEntry. cbn.
      repeat split; try discriminate.
      destruct (InsertAiExtraction.vehicleId ins) as [[|c r]|]; cbn; discriminate.
Qed.

End HistoryProps.

(** ** The record store: what the methods do to a store *)

Module StoreProps.
Import MemStorage.

Lemma sample_store_reachable : History.Reachable Sample.store.
Proof.
  change Sample.store with (snd (createVehicle "v1" 1000 SampleInsert.civic new)).
  apply History.reach_createVehicle, History.reach_new.
Qed.

(** In a store that the methods built, a record is found under its own id;
    a vehicle found there has arrays for its features and images, never
    [null], and a creation instant; an extraction found there never has the
    empty string for its vehicle. *)
Theorem reachable_records (st : t) :
  History.Reachable st ->
  (forall id v, getVehicle id st = Some v ->
     Vehicle.id v = id /\ Vehicle.features v <> None /\ Vehicle.images v <> None /\
     Vehicle.createdAt v <> None) /\
  (forall id l, getListing id st = Some l ->
     Listing.id l = id /\ Listing.createdAt l <> None) /\
  (forall id e, getAiExtraction id st = Some e ->
     AiExtraction.id e = id /\ AiExtraction.createdAt e <> None /\
     AiExtraction.vehicleId e <> Some "").
Proof.
  intros Hr. destruct (HistoryProps.reachable_invariant Hr) as (_ & _ & _ & Fv & Fl & Fe).
  rewrite Forall_forall in Fv, Fl, Fe.
  split; [|split]; intros id x Hget; apply HistoryProps.get_in in Hget.
  - destruct (Fv _ Hget) as (H1 & H2 & H3 & H4). cbn in *. auto.
  - destruct (Fl _ Hget) as (H1 & H2). cbn in *. auto.
  - destruct (Fe _ Hget) as (H1 & H2 & H3). cbn in *. auto.
Qed.

Lemma reachable_records_sample :
  Vehicle.id Sample.civic = "v1" /\ Vehicle.features Sample.civic <> None /\
  Vehicle.images Sample.civic <> None /\ Vehicle.createdAt Sample.civic <> None.
Proof.
  destruct (@reachable_records Sample.store sample_store_reachable) as (Hv & _ & _).
  exact (Hv "v1" Sample.civic eq_refl).
Defined.

(** Deleting from a store that the methods built: the answer tells whether
    the id was there, afterwards the id is not there, every other vehicle is
    as it was, and deleting an id that is not there changes nothing. *)
Theorem deleteVehicle_removes (id : string) (st : t) :
  History.Reachable st ->
  fst (deleteVehicle id st) =
    match getVehicle id st with Some _ => true | None => false end /\
  getVehicle id (snd (deleteVehicle id st)) = None /\
  (forall k, k <> id -> getVehicle k (snd (deleteVehicle id st)) = getVehicle k st) /\
  (getVehicle id st = None -> snd (deleteVehicle id st) = st).
Proof.
  intros Hr. destruct (HistoryProps.reachable_invariant Hr) as (Nv & _).
  unfold deleteVehicle, getVehicle.
  pose proof (HistoryProps.delete_found (vehicles st) id) as Hf.
  pose proof (@HistoryProps.get_delete_same _ (vehicles st) id Nv) as Hs.
  pose proof (fun k => @HistoryProps.get_delete_other _ (vehicles st) id k) as Ho.
  pose proof (@JsMapFacts.delete_absent _ (vehicles st) id) as Ha.
  destruct (JsMap.delete id (vehicles st)) as [found vs]. cbn in *.
  repeat split; auto.
  intros Hn. specialize (Ha Hn). injection Ha as _ Hvs. subst vs.
  now destruct st.
Qed.

Lemma deleteVehicle_removes_sample :
  fst (deleteVehicle "v1" Sample.store) = true /\
  getVehicle "v1" (snd (deleteVehicle "v1" Sample.store)) = None.
Proof.
  destruct (@deleteVehicle_removes "v1" Sample.store sample_store_reachable)
    as (Hf & Hg & _).
  split; [exact Hf | exact Hg].
Defined.

(** The same for listings. *)
Theorem deleteListing_removes (id : string) (st : t) :
  History.Reachable st ->
  fst (deleteListing id st) =
    match getListing id st with Some _ => true | None => false end /\
  getListing id (snd (deleteListing id st)) = None /\
  (forall k, k <> id -> getListing k (snd (deleteListing id st)) = getListing k st) /\
  vehicles (snd (deleteListing id st)) = vehicles st /\
  aiExtractions (snd (deleteListing id st)) = aiExtractions st.
Proof.
  intros Hr. destruct (HistoryProps.reachable_invariant Hr) as (_ & Nl & _).
  unfold deleteListing, getListing.
  pose proof (HistoryProps.delete_found (listings st) id) as Hf.
  pose proof (@HistoryProps.get_delete_same _ (listings st) id Nl) as Hs.
  pose proof (fun k => @HistoryProps.get_delete_other _ (listings st) id k) as Ho.
  destruct (JsMap.delete id (listings st)) as [found ls]. cbn in *.
  repeat split; auto.
Qed.

Lemma deleteListing_removes_sample :
  fst (deleteListing "l9" Sample.store) = false /\
  getListing "l9" (snd (deleteListing "l9" Sample.store)) = None.
Proof.
  destruct (@deleteListing_removes "l9" Sample.store sample_store_reachable)
    as (Hf & Hg & _).
  split; [exact Hf | exact Hg].
Defined.

(** Creating a vehicle under an id that the store does not have adds exactly
    that record to the listing of all vehicles and leaves every other
    vehicle, and the other two maps, as they were. *)
Theorem createVehicle_adds_one (id : string) (now : Z) (ins : InsertVehicle.t) (st : t) :
  getVehicle id st = None ->
  Permutation (fst (createVehicle id now ins st) :: getAllVehicles st)
              (getAllVehicles (snd (createVehicle id now ins st))) /\
  List.length (getAllVehicles (snd (createVehicle id now ins st))) =
    S (List.length (getAllVehicles st)) /\
  (forall k, k <> id ->
     getVehicle k (snd (createVehicle id now ins st)) = getVehicle k st) /\
  listings (snd (createVehicle id now ins st)) = listings st /\
  aiExtractions (snd (createVehicle id now ins st)) = aiExtractions st.
Proof.
  intros Hfresh. unfold getVehicle in *.
  assert (Permutation (fst (createVehicle id now ins st) :: getAllVehicles st)
            (getAllVehicles (snd (createVehicle id now ins st)))) as Hperm.
  { unfold getAllVehicles, createVehicle. cbn [snd fst vehicles].
    rewrite (@HistoryProps.values_set_fresh _ _ _ _ Hfresh).
    rewrite <- (SortFacts.sort_perm vehicleTime (JsMap.values (vehicles st) ++ _)).
    rewrite <- (SortFacts.sort_perm vehicleTime (JsMap.values (vehicles st))).
    apply Permutation_cons_append. }
  split; [exact Hperm|]. split.
  - rewrite <- (Permutation_length Hperm). reflexivity.
  - cbn -[JsMap.set JsMap.get]. repeat split; auto.
    intros k Hk. now apply JsMapFacts.get_set_other.
Qed.

Lemma createVehicle_adds_one_sample :
  List.length (getAllVehicles (snd (createVehicle "v2" 2000 SampleInsert.civic Sample.store)))
    = 2%nat.
Proof.
  destruct (@createVehicle_adds_one "v2" 2000 SampleInsert.civic Sample.store eq_refl)
    as (_ & Hlen & _).
  exact Hlen.
Defined.

Section KeepsPlace.
Variable A : Type.
Variable key : A -> Z.
Variables x y : A.
Hypothesis same_key : key x = key y.

Lemma insert_replaced_same (l : list A) :
  History.Replaced x y (JsArray.insert (SortFacts.newestFirst key) x l)
                       (JsArray.insert (SortFacts.newestFirst key) y l).
Proof.
  induction l as [|a r IH]; cbn [JsArray.insert]; [constructor|].
  unfold SortFacts.newestFirst at 1 3. rewrite same_key.
  destruct (key a - key y <=? 0)%Z; now constructor.
Qed.

Lemma insert_replaced (z : A) (l l' : list A) :
  History.Replaced x y l l' ->
  History.Replaced x y (JsArray.insert (SortFacts.newestFirst key) z l)
                       (JsArray.insert (SortFacts.newestFirst key) z l').
Proof.
  induction 1 as [r|a before after H IH]; cbn [JsArray.insert].
  - unfold SortFacts.newestFirst at 1 3. rewrite same_key.
    destruct (key y - key z <=? 0)%Z; repeat constructor.
  - destruct (SortFacts.newestFirst key z a <=? 0)%Z; repeat constructor; auto.
Qed.

(** The sort keeps a record that is replaced by one of the same creation
    instant where it was. *)
Lemma sort_replaced (l l' : list A) :
  History.Replaced x y l l' ->
  History.Replaced x y (JsArray.sort (SortFacts.newestFirst key) l)
                       (JsArray.sort (SortFacts.newestFirst key) l').
Proof.
  induction 1 as [r|a before after H IH]; cbn [JsArray.sort fold_right].
  - apply insert_replaced_same.
  - now apply insert_replaced.
Qed.
End KeepsPlace.

Lemma replaced_split (A : Type) (x y : A) (l l' : list A) :
  History.Replaced x y l l' ->
  exists before after, l = (before ++ x :: after)%list /\ l' = (before ++ y :: after)%list.
Proof.
  induction 1 as [r|a before after H (b & c & Hl & Hl')].
  - now exists [], r.
  - exists (a :: b), c. subst. auto.
Qed.

(** An update leaves the vehicle where it stood in the listing of all
    vehicles: the listing afterwards is the listing before with the record
    replaced by the updated one. *)
Theorem updateVehicle_keeps_place
    (now : Z) (id : string) (u : VehicleUpdate.t) (st : t) (existing : Vehicle.t) :
  getVehicle id st = Some existing ->
  exists updated before after,
    fst (updateVehicle now id u st) = Some updated /\
    getAllVehicles st = (before ++ existing :: after)%list /\
    getAllVehicles (snd (updateVehicle now id u st)) = (before ++ updated :: after)%list.
Proof.
  unfold getVehicle, updateVehicle. intros Hget. rewrite Hget.
  eexists. cbn [fst snd vehicles].
  match goal with
  | |- context [JsMap.set id ?v _] =>
      pose proof (@HistoryProps.values_set_present _ _ _ v _ Hget) as Hrep
  end.
  apply (@sort_replaced _ vehicleTime) in Hrep; [|reflexivity].
  destruct (replaced_split Hrep) as (before & after & Hb & Ha).
  exists before, after. split; [reflexivity|]. split; [exact Hb | exact Ha].
Qed.

Lemma updateVehicle_keeps_place_sample :
  exists updated,
    getAllVehicles Sample.store = [Sample.civic] /\
    getAllVehicles (snd (updateVehicle 2000 "v1" Sample.featuresNull Sample.store))
      = [updated] /\
    Vehicle.updatedAt updated = Some 2000%Z.
Proof.
  destruct (@updateVehicle_keeps_place 2000 "v1" Sample.featuresNull Sample.store
              Sample.civic eq_refl) as (updated & before & after & Hu & Hb & Ha).
  exists updated. injection Hu as Hu. subst updated.
  repeat split; reflexivity.
Defined.

(** A listing created under an id that the store does not have is found
    under that id and comes last among the listings of the vehicle it
    names, whether or not the store has that vehicle; the listings of every
    other vehicle, and the vehicles and extractions, are as they were. Its
    status is the one given, or draft when none or the empty one is given. *)
Theorem createListing_links
    (id : string) (now : Z) (ins : InsertListing.t) (st : t) (vehicleId : string) :
  getListing id st = None ->
  InsertListing.vehicleId ins = Some vehicleId ->
  getListing id (snd (createListing id now ins st)) = Some (fst (createListing id now ins st)) /\
  getListingsByVehicle vehicleId (snd (createListing id now ins st)) =
    (getListingsByVehicle vehicleId st ++ [fst (createListing id now ins st)])%list /\
  (forall other, other <> vehicleId ->
     getListingsByVehicle other (snd (createListing id now ins st)) =
     getListingsByVehicle other st) /\
  vehicles (snd (createListing id now ins st)) = vehicles st /\
  aiExtractions (snd (createListing id now ins st)) = aiExtractions st /\
  (InsertListing.status ins = None \/ InsertListing.status ins = Some "" ->
   Listing.status (fst (createListing id now ins st)) = "draft") /\
  (forall s, InsertListing.status ins = Some s -> s <> "" ->
   Listing.status (fst (createListing id now ins st)) = s).
Proof.
  unfold getListing. intros Hfresh Hv.
  unfold getListingsByVehicle, createListing. cbn [fst snd listings vehicles aiExtractions].
  rewrite (@HistoryProps.values_set_fresh _ _ _ _ Hfresh).
  split; [apply JsMapFacts.get_set_same|].
  split; [|split; [|split; [|split; [|split]]]]; auto.
  - rewrite filter_app. cbn [filter Listing.vehicleId]. rewrite Hv.
    cbn [option_eqb]. now rewrite String.eqb_refl.
  - intros other Hne. rewrite filter_app. cbn [filter Listing.vehicleId]. rewrite Hv.
    cbn [option_eqb]. apply not_eq_sym in Hne. apply String.eqb_neq in Hne.
    rewrite Hne. apply app_nil_r.
  - intros [H|H]; cbn [Listing.status]; rewrite H; reflexivity.
  - intros s H Hs. cbn [Listing.status]. rewrite H.
    destruct s; [congruence | reflexivity].
Qed.

Lemma createListing_links_sample :
  getListingsByVehicle "v1" (snd (createListing "l1" 3000 SampleInsert.facebookDraft Sample.store))
    = [fst (createListing "l1" 3000 SampleInsert.facebookDraft Sample.store)] /\
  Listing.status (fst (createListing "l1" 3000 SampleInsert.facebookDraft Sample.store))
    = "draft".
Proof.
  destruct (@createListing_links "l1" 3000 SampleInsert.facebookDraft Sample.store "v1"
              eq_refl eq_refl) as (_ & Hby & _ & _ & _ & Hdraft & _).
  split; [exact Hby | apply Hdraft; left; reflexivity].
Defined.

(** An extraction created under an id that the store does not have is found
    under that id; with a vehicle id that is not empty it comes last among
    the extractions of that vehicle, and with none or the empty one its
    vehicle is [null] and the extractions of no vehicle change. *)
Theorem createAiExtraction_links
    (id : string) (now : Z) (ins : InsertAiExtraction.t) (st : t) :
  getAiExtraction id st = None ->
  getAiExtraction id (snd (createAiExtraction id now ins st))
    = Some (fst (createAiExtraction id now ins st)) /\
  (forall vehicleId, InsertAiExtraction.vehicleId ins = Some vehicleId -> vehicleId <> "" ->
     getAiExtractionsByVehicle vehicleId (snd (createAiExtraction id now ins st)) =
     (getAiExtractionsByVehicle vehicleId st ++ [fst (createAiExtraction id now ins st)])%list) /\
  (InsertAiExtraction.vehicleId ins = None \/ InsertAiExtraction.vehicleId ins = Some "" ->
     AiExtraction.vehicleId (fst (createAiExtraction id now ins st)) = None /\
     forall vehicleId,
       getAiExtractionsByVehicle vehicleId (snd (createAiExtraction id now ins st)) =
       getAiExtractionsByVehicle vehicleId st) /\
  vehicles (snd (createAiExtraction id now ins st)) = vehicles st /\
  listings (snd (createAiExtraction id now ins st)) = listings st.
Proof.
  unfold getAiExtraction. intros Hfresh.
  unfold getAiExtractionsByVehicle, createAiExtraction.
  cbn [fst snd listings vehicles aiExtractions].
  rewrite (@HistoryProps.values_set_fresh _ _ _ _ Hfresh).
  split; [apply JsMapFacts.get_set_same|].
  split; [|split; [|split]]; auto.
  - intros vehicleId Hv Hne. rewrite filter_app. cbn [filter AiExtraction.vehicleId].
    rewrite Hv. destruct vehicleId as [|c r]; [congruence|].
    cbn [Text.or_undefined Text.truthy option_eqb]. now rewrite String.eqb_refl.
  - intros Hv. split.
    + cbn [AiExtraction.vehicleId]. destruct Hv as [Hv|Hv]; rewrite Hv; reflexivity.
    + intros vehicleId. rewrite filter_app. cbn [filter AiExtraction.vehicleId].
      destruct Hv as [Hv|Hv]; rewrite Hv; cbn; apply app_nil_r.
Qed.

Lemma createAiExtraction_links_sample :
  getAiExtractionsByVehicle "v1"
    (snd (createAiExtraction "e1" 4000 SampleInsert.plateReading Sample.store))
  = [fst (createAiExtraction "e1" 4000 SampleInsert.plateReading Sample.store)].
Proof.
  destruct (@createAiExtraction_links "e1" 4000 SampleInsert.plateReading Sample.store
              eq_refl) as (_ & Hby & _).
  apply (Hby "v1" eq_refl). discriminate.
Defined.

End StoreProps.

(** ** The API layer: the vehicle routes *)

Module ApiProps.

(** *** What a passed check says of the value *)

Lemma numberRange_bounds (lo hi n : Z) (v : option Json) :
  VehicleFormSchema.numberRange lo hi v = Some n -> (lo <= n <= hi)%Z.
Proof.
  unfold VehicleFormSchema.numberRange. destruct v as [[]|]; try discriminate.
  destruct ((lo <=? n0) && (n0 <=? hi))%Z eqn:E; [|discriminate].
  intros H. injection H as H. subst. apply andb_true_iff in E. lia.
Qed.

Lemma stringMin_length (n : nat) (s : string) (v : option Json) :
  VehicleFormSchema.stringMin n v = Some s -> (n <= String.length s)%nat.
Proof.
  unfold VehicleFormSchema.stringMin. destruct v as [[]|]; try discriminate.
  destruct (n <=? String.length s0)%nat eqn:E; [|discriminate].
  intros H. injection H as H. subst. now apply Nat.leb_le.
Qed.

Lemma enum_in (allowed : list string) (s : string) (v : option Json) :
  VehicleFormSchema.enum allowed v = Some s -> In s allowed.
Proof.
  unfold VehicleFormSchema.enum. destruct v as [[]|]; try discriminate.
  destruct (existsb (String.eqb s0) allowed) eqn:E; [|discriminate].
  intros H. injection H as H. subst.
  apply existsb_exists in E. destruct E as (x & Hin & Hx).
  apply String.eqb_eq in Hx. now subst.
Qed.

Lemma partialKey_some (A : Type) (check : option Json -> option A) (v : option Json)
    (o : option A) :
  VehicleFormSchema.partialKey check v = Some o ->
  o = None \/ exists x, o = Some x /\ check v = Some x.
Proof.
  unfold VehicleFormSchema.partialKey. destruct v as [j|].
  - destruct (check (Some j)) as [x|]; [|discriminate].
    intros H. injection H as H. subst. right. eauto.
  - intros H. injection H as H. subst. now left.
Qed.

Ltac passed H :=
  match type of H with
  | context [match ?c with _ => _ end] =>
      let E := fresh "E" in destruct c eqn:E; [|discriminate H]
  end.

Ltac checked :=
  first [ eapply numberRange_bounds; eassumption
        | eapply stringMin_length; eassumption
        | eapply enum_in; eassumption ].

(** The data that the schema lets through is within the bounds of the
    form. *)
Lemma parse_bounds (currentYear : Z) (reqBody : option Json) (data : InsertVehicle.t) :
  VehicleFormSchema.parse currentYear reqBody = inr data ->
  (1900 <= InsertVehicle.year data <= currentYear + 1)%Z /\
  (0 <= InsertVehicle.mileage data <= 999999)%Z /\
  (1 <= InsertVehicle.price data <= 999999)%Z /\
  (1 <= String.length (InsertVehicle.make data))%nat /\
  (1 <= String.length (InsertVehicle.model data))%nat /\
  (1 <= String.length (InsertVehicle.location data))%nat /\
  (10 <= String.length (InsertVehicle.description data))%nat /\
  In (InsertVehicle.transmission data) ["automatic"; "manual"; "cvt"] /\
  In (InsertVehicle.fuelType data) ["gasoline"; "hybrid"; "electric"; "diesel"] /\
  In (InsertVehicle.condition data) ["excellent"; "good"; "fair"; "poor"].
Proof.
  unfold VehicleFormSchema.parse.
  destruct reqBody as [[| | | | |props]|]; try discriminate.
  cbv zeta. intros H. do 15 passed H.
  injection H as H. subst data.
  cbn [InsertVehicle.year InsertVehicle.mileage InsertVehicle.price InsertVehicle.make
       InsertVehicle.model InsertVehicle.location InsertVehicle.description
       InsertVehicle.transmission InsertVehicle.fuelType InsertVehicle.condition].
  do 9 (split; [checked|]). checked.
Qed.

Lemma values_set_forall (V : Type) (P : V -> Prop) (m : JsMap.t V) (k : string) (v : V) :
  P v -> Forall P (JsMap.values m) -> Forall P (JsMap.values (JsMap.set k v m)).
Proof.
  unfold JsMap.values. intros Hv Hm. rewrite Forall_map in Hm |- *.
  apply HistoryProps.set_forall; [exact Hv | exact Hm].
Qed.

Lemma values_delete_forall (V : Type) (P : V -> Prop) (m : JsMap.t V) (k : string) :
  Forall P (JsMap.values m) -> Forall P (JsMap.values (snd (JsMap.delete k m))).
Proof.
  unfold JsMap.values. intros Hm. rewrite Forall_map in Hm |- *.
  apply HistoryProps.delete_forall. exact Hm.
Qed.

Lemma values_get_forall (V : Type) (P : V -> Prop) (m : JsMap.t V) (k : string) (v : V) :
  Forall P (JsMap.values m) -> JsMap.get k m = Some v -> P v.
Proof.
  unfold JsMap.values. intros Hm Hget. rewrite Forall_map in Hm.
  rewrite Forall_forall in Hm. apply (Hm (k, v)). now apply HistoryProps.get_in.
Qed.

(** A body that passes the schema is answered 201 with a vehicle that has
    the generated id; [GET /api/vehicles/:id] then answers 200 with that
    vehicle, and answers for every other id as before. *)
Theorem postVehicle_then_get
    (currentYear : Z) (id : string) (now : Z) (reqBody : option Json) (st : MemStorage.t)
    (data : InsertVehicle.t) :
  VehicleFormSchema.parse currentYear reqBody = inr data ->
  exists vehicle,
    fst (Routes.postVehicle currentYear id now reqBody st)
      = Routes.mkReply 201 (Routes.VehicleJson vehicle) /\
    Vehicle.id vehicle = id /\
    Api.getVehicleById id (snd (Routes.postVehicle currentYear id now reqBody st))
      = Api.mkReply 200 (Api.VehicleJson vehicle) /\
    (forall other, other <> id ->
       Api.getVehicleById other (snd (Routes.postVehicle currentYear id now reqBody st))
       = Api.getVehicleById other st).
Proof.
  intros Hparse. unfold Routes.postVehicle. rewrite Hparse.
  unfold MemStorage.createVehicle. cbn [fst snd]. eexists.
  split; [reflexivity|]. split; [reflexivity|].
  unfold Api.getVehicleById, MemStorage.getVehicle. cbn [MemStorage.vehicles].
  split.
  - now rewrite JsMapFacts.get_set_same.
  - intros other Hne. now rewrite JsMapFacts.get_set_other.
Qed.

Lemma postVehicle_then_get_sample :
  exists vehicle,
    fst (Routes.postVehicle 2026 "v2" 7000 (Some SampleBody.civic) Sample.store)
      = Routes.mkReply 201 (Routes.VehicleJson vehicle) /\
    Api.getVehicleById "v2"
      (snd (Routes.postVehicle 2026 "v2" 7000 (Some SampleBody.civic) Sample.store))
      = Api.mkReply 200 (Api.VehicleJson vehicle).
Proof.
  destruct (@postVehicle_then_get 2026 "v2" 7000 (Some SampleBody.civic) Sample.store
              _ eq_refl) as (vehicle & Hreply & _ & Hget & _).
  exists vehicle. split; [exact Hreply | exact Hget].
Defined.

(** The fields that the partial schema lets through are within the bounds
    of the form. *)
Lemma parsePartial_bounds (currentYear : Z) (reqBody : option Json) (u : VehicleUpdate.t) :
  VehicleFormSchema.parsePartial currentYear reqBody = inr u ->
  (forall x, VehicleUpdate.year u = Some x -> (1900 <= x <= currentYear + 1)%Z) /\
  (forall x, VehicleUpdate.mileage u = Some x -> (0 <= x <= 999999)%Z) /\
  (forall x, VehicleUpdate.price u = Some x -> (1 <= x <= 999999)%Z) /\
  (forall x, VehicleUpdate.make u = Some x -> (1 <= String.length x)%nat) /\
  (forall x, VehicleUpdate.model u = Some x -> (1 <= String.length x)%nat) /\
  (forall x, VehicleUpdate.location u = Some x -> (1 <= String.length x)%nat) /\
  (forall x, VehicleUpdate.description u = Some x -> (10 <= String.length x)%nat) /\
  (forall x, VehicleUpdate.transmission u = Some x ->
             In x ["automatic"; "manual"; "cvt"]) /\
  (forall x, VehicleUpdate.fuelType u = Some x ->
             In x ["gasoline"; "hybrid"; "electric"; "diesel"]) /\
  (forall x, VehicleUpdate.condition u = Some x ->
             In x ["excellent"; "good"; "fair"; "poor"]).
Proof.
  unfold VehicleFormSchema.parsePartial.
  destruct reqBody as [[| | | | |props]|]; try discriminate.
  cbv zeta. intros H. do 15 passed H.
  injection H as H. subst u.
  cbn [VehicleUpdate.year VehicleUpdate.mileage VehicleUpdate.price VehicleUpdate.make
       VehicleUpdate.model VehicleUpdate.location VehicleUpdate.description
       VehicleUpdate.transmission VehicleUpdate.fuelType VehicleUpdate.condition].
  repeat match goal with
         | E : VehicleFormSchema.partialKey _ _ = Some _ |- _ =>
             apply partialKey_some in E
         end.
  do 9 (split; [intros x Hx; subst;
                match goal with
                | E : Some x = None \/ _ |- _ =>
                    destruct E as [E|(y & E & Hc)]; [discriminate|];
                    injection E as E; subst y; checked
                end|]).
  intros x Hx; subst.
  match goal with
  | E : Some x = None \/ _ |- _ =>
      destruct E as [E|(y & E & Hc)]; [discriminate|];
      injection E as E; subst y; checked
  end.
Qed.

(** Every vehicle that [POST /api/vehicles], [PUT /api/vehicles/:id] and
    [DELETE /api/vehicles/:id] leave in the store is within the bounds of
    the form schema, when the vehicles of the store they start from are. *)
Theorem routes_keep_bounds (currentYear : Z) (st : MemStorage.t) :
  Bounds.store currentYear st ->
  (forall id now reqBody,
     Bounds.store currentYear (snd (Routes.postVehicle currentYear id now reqBody st))) /\
  (forall now id reqBody,
     Bounds.store currentYear (snd (Api.putVehicle currentYear now id reqBody st))) /\
  (forall id, Bounds.store currentYear (snd (Api.deleteVehicle id st))).
Proof.
  unfold Bounds.store. intros Hst. split; [|split].
  - intros id now reqBody. unfold Routes.postVehicle.
    destruct (VehicleFormSchema.parse currentYear reqBody) as [issues|data] eqn:E;
      [exact Hst|].
    unfold MemStorage.createVehicle. cbn [snd MemStorage.vehicles].
    apply values_set_forall; [|exact Hst].
    exact (parse_bounds _ _ E).
  - intros now id reqBody. unfold Api.putVehicle.
    destruct (VehicleFormSchema.parsePartial currentYear reqBody) as [issues|u] eqn:E;
      [exact Hst|].
    unfold MemStorage.updateVehicle.
    destruct (JsMap.get id (MemStorage.vehicles st)) as [existing|] eqn:G; [|exact Hst].
    cbn [snd MemStorage.vehicles].
    apply values_set_forall; [|exact Hst].
    pose proof (values_get_forall _ _ Hst G) as Hex.
    destruct Hex as (B1 & B2 & B3 & B4 & B5 & B6 & B7 & B8 & B9 & B10).
    destruct (parsePartial_bounds _ _ E)
      as (U1 & U2 & U3 & U4 & U5 & U6 & U7 & U8 & U9 & U10).
    unfold Bounds.vehicle.
    cbn [Vehicle.year Vehicle.mileage Vehicle.price Vehicle.make Vehicle.model
         Vehicle.location Vehicle.description Vehicle.transmission Vehicle.fuelType
         Vehicle.condition].
    unfold MemStorage.given.
    destruct (VehicleUpdate.year u); destruct (VehicleUpdate.mileage u);
      destruct (VehicleUpdate.price u); destruct (VehicleUpdate.make u);
      destruct (VehicleUpdate.model u); destruct (VehicleUpdate.location u);
      destruct (VehicleUpdate.description u); destruct (VehicleUpdate.transmission u);
      destruct (VehicleUpdate.fuelType u); destruct (VehicleUpdate.condition u);
      auto 20.
  - intros id. unfold Api.deleteVehicle, MemStorage.deleteVehicle.
    pose proof (@values_delete_forall _ _ (MemStorage.vehicles st) id Hst) as Hd.
    destruct (JsMap.delete id (MemStorage.vehicles st)) as [found vs].
    cbn [negb]. destruct found; exact Hd.
Qed.

Lemma routes_keep_bounds_sample :
  Bounds.store 2026
    (snd (Api.putVehicle 2026 8000 "v1" (Some SampleBody.cheaper) Sample.store)).
Proof.
  assert (Bounds.store 2026 Sample.store) as Hst.
  { unfold Bounds.store, Bounds.vehicle. repeat constructor; cbn; auto 10; lia. }
  destruct (@routes_keep_bounds 2026 Sample.store Hst) as (_ & Hput & _).
  apply Hput.
Defined.

(** [PUT /api/vehicles/:id] checks the body before it looks for the id: a
    body that does not pass is answered 400 whether or not the id is known;
    a body that passes is answered 404 for an id that is not there, and in
    both cases the store is as it was. For an id that is there the answer is
    200 with the updated vehicle, which [GET /api/vehicles/:id] then
    returns, with its id and creation instant kept. *)
Theorem putVehicle_replies
    (currentYear : Z) (now : Z) (id : string) (reqBody : option Json) (st : MemStorage.t) :
  match VehicleFormSchema.parsePartial currentYear reqBody with
  | inl issues =>
      Api.putVehicle currentYear now id reqBody st
        = (Api.mkReply 400 (Api.IssuesJson issues), st)
  | inr _ =>
      match MemStorage.getVehicle id st with
      | None =>
          Api.putVehicle currentYear now id reqBody st
            = (Api.mkReply 404 (Api.MessageJson "Vehicle not found"), st)
      | Some existing =>
          exists vehicle,
            fst (Api.putVehicle currentYear now id reqBody st)
              = Api.mkReply 200 (Api.VehicleJson vehicle) /\
            Api.getVehicleById id (snd (Api.putVehicle currentYear now id reqBody st))
              = Api.mkReply 200 (Api.VehicleJson vehicle) /\
            Vehicle.id vehicle = Vehicle.id existing /\
            Vehicle.createdAt vehicle = Vehicle.createdAt existing /\
            Vehicle.updatedAt vehicle = Some now
      end
  end.
Proof.
  unfold Api.putVehicle.
  destruct (VehicleFormSchema.parsePartial currentYear reqBody) as [issues|u];
    [reflexivity|].
  unfold MemStorage.getVehicle, MemStorage.updateVehicle.
  destruct (JsMap.get id (MemStorage.vehicles st)) as [existing|] eqn:G; [|reflexivity].
  eexists. cbn [fst snd]. split; [reflexivity|].
  unfold Api.getVehicleById, MemStorage.getVehicle. cbn [MemStorage.vehicles].
  rewrite JsMapFacts.get_set_same. auto.
Qed.

(** A price outside of 1 to 999999 in the body of a [PUT] is answered 400
    with an issue on the price, and nothing is written. *)
Theorem putVehicle_price_out_of_range
    (currentYear : Z) (now : Z) (id : string) (props : list (string * Json)) (p : Z)
    (st : MemStorage.t) :
  JsMap.get "price" props = Some (JNum p) ->
  (p < 1 \/ 999999 < p)%Z ->
  exists issues,
    Api.putVehicle currentYear now id (Some (JObj props)) st
      = (Api.mkReply 400 (Api.IssuesJson issues), st) /\
    In "price" issues.
Proof.
  intros Hget Hp. unfold Api.putVehicle, VehicleFormSchema.parsePartial. rewrite Hget.
  assert (VehicleFormSchema.partialKey (VehicleFormSchema.numberRange 1 999999)
            (Some (JNum p)) = None) as Hprice.
  { cbn. destruct ((1 <=? p) && (p <=? 999999))%Z eqn:E; [|reflexivity].
    apply andb_true_iff in E. lia. }
  rewrite Hprice. cbv zeta.
  repeat match goal with
         | |- context [match VehicleFormSchema.partialKey ?c ?v with _ => _ end] =>
             destruct (VehicleFormSchema.partialKey c v)
         end;
    (eexists; split; [reflexivity|]);
    repeat first [ rewrite in_app_iff
                 | progress cbn [In VehicleFormSchema.issue app] ];
    auto 30.
Qed.

Lemma putVehicle_price_zero :
  exists issues,
    Api.putVehicle 2026 8000 "v1" (Some SampleBody.free) Sample.store
      = (Api.mkReply 400 (Api.IssuesJson issues), Sample.store) /\
    In "price" issues.
Proof.
  apply (@putVehicle_price_out_of_range 2026 8000 "v1" [("price", JNum 0)] 0 Sample.store).
  - reflexivity.
  - lia.
Defined.

(** [DELETE /api/vehicles/:id] on a store that the methods built: an id that
    is not there is answered 404 and the store is as it was; an id that is
    there is answered 204, after which [GET /api/vehicles/:id] answers 404
    for it, while the listings and extractions are as they were. *)
Theorem deleteVehicle_replies (id : string) (st : MemStorage.t) :
  History.Reachable st ->
  match MemStorage.getVehicle id st with
  | None =>
      Api.deleteVehicle id st = (Api.mkReply 404 (Api.MessageJson "Vehicle not found"), st)
  | Some _ =>
      fst (Api.deleteVehicle id st) = Api.mkReply 204 Api.NoContent /\
      Api.getVehicleById id (snd (Api.deleteVehicle id st))
        = Api.mkReply 404 (Api.MessageJson "Vehicle not found") /\
      (forall other, other <> id ->
         Api.getVehicleById other (snd (Api.deleteVehicle id st))
         = Api.getVehicleById other st) /\
      MemStorage.listings (snd (Api.deleteVehicle id st)) = MemStorage.listings st /\
      MemStorage.aiExtractions (snd (Api.deleteVehicle id st))
        = MemStorage.aiExtractions st
  end.
Proof.
  intros Hr. destruct (HistoryProps.reachable_invariant Hr) as (Nv & _).
  unfold Api.deleteVehicle, Api.getVehicleById, MemStorage.deleteVehicle,
    MemStorage.getVehicle.
  pose proof (HistoryProps.delete_found (MemStorage.vehicles st) id) as Hf.
  pose proof (@HistoryProps.get_delete_same _ (MemStorage.vehicles st) id Nv) as Hg.
  pose proof (fun k => @HistoryProps.get_delete_other _ (MemStorage.vehicles st) id k) as Ho.
  pose proof (@JsMapFacts.delete_absent _ (MemStorage.vehicles st) id) as Ha.
  destruct (JsMap.delete id (MemStorage.vehicles st)) as [found vs] eqn:E.
  cbn [fst snd] in *.
  destruct (JsMap.get id (MemStorage.vehicles st)) as [v|] eqn:G; subst found; cbn [negb].
  - cbn [fst snd MemStorage.vehicles MemStorage.listings MemStorage.aiExtractions].
    rewrite Hg. repeat split; auto.
    intros other Hne. now rewrite Ho.
  - specialize (Ha eq_refl). injection Ha as Hvs. subst vs. now destruct st.
Qed.

Lemma deleteVehicle_replies_sample :
  fst (Api.deleteVehicle "v1" Sample.store) = Api.mkReply 204 Api.NoContent /\
  Api.getVehicleById "v1" (snd (Api.deleteVehicle "v1" Sample.store))
    = Api.mkReply 404 (Api.MessageJson "Vehicle not found").
Proof.
  pose proof (@deleteVehicle_replies "v1" Sample.store StoreProps.sample_store_reachable)
    as H.
  cbn [MemStorage.getVehicle] in H.
  change (MemStorage.getVehicle "v1" Sample.store) with (Some Sample.civic) in H.
  destruct H as (Hf & Hg & _). split; [exact Hf | exact Hg].
Defined.

End ApiProps.

(** ** The vision inference adapter: calls, errors and results *)

Module AdapterProps.
Import OllamaService.

Section Adapter.
Variable endpoint : Http.Call -> Http.Outcome OllamaResponse.
Variable JSON_parse : string -> option (JsMap.t Json).
Variable baseUrl : string.
Variable model : string.

#[local] Abbreviation analyze :=
  (analyzeVehicleImage endpoint JSON_parse baseUrl model).

(** The adapter issues its one request whether it returns or throws, and
    writes no file and draws no identifier. *)
Lemma analyze_world (image : string) (w : Effect.World) :
  snd (analyze image w) =
  Effect.mkWorld (Effect.calls w ++ [generateCall baseUrl model image])%list
                 (Effect.written w) (Effect.drawn w).
Proof.
  unfold analyzeVehicleImage, Effect.try_catch, Effect.bind, Effect.fetch.
  destruct (endpoint (generateCall baseUrl model image)) as [reason|r]; [reflexivity|].
  destruct (Http.ok r); cbn; [|reflexivity].
  unfold Effect.json. destruct (Http.json r) as [data|]; [|reflexivity].
  cbn. unfold extract, Effect.try_catch.
  destruct (response data) as [text|]; [|reflexivity].
  destruct (jsonMatch text) as [span|]; [|reflexivity].
  destruct (JSON_parse span); reflexivity.
Qed.

(** Whatever the endpoint does, the adapter issues exactly one request, the
    single-shot one for the image, and when it throws the message starts
    with the fixed prefix: after it comes the reason of an endpoint that
    cannot be reached, or the status and status text of an answer that is
    not ok. *)
Theorem analyzeVehicleImage_one_call_and_errors (image : string) :
  Effect.calls (snd (Effect.run (analyze image))) = [generateCall baseUrl model image] /\
  (forall message,
     fst (Effect.run (analyze image)) = Effect.Throw message ->
     exists cause, message = OllamaService.failurePrefix ++ cause) /\
  (forall reason,
     endpoint (generateCall baseUrl model image) = Http.Rejected reason ->
     fst (Effect.run (analyze image)) = Effect.Throw (OllamaService.failurePrefix ++ reason)) /\
  (forall r,
     endpoint (generateCall baseUrl model image) = Http.Responded r ->
     Http.ok r = false ->
     fst (Effect.run (analyze image)) =
     Effect.Throw (OllamaService.failurePrefix ++ "Ollama API error: " ++ Number.toString (Http.status r)
                   ++ " " ++ Http.statusText r)).
Proof.
  split; [|split; [|split]].
  - unfold Effect.run. now rewrite analyze_world.
  - unfold Effect.run, analyzeVehicleImage, Effect.try_catch, Effect.bind, Effect.fetch.
    intros message.
    destruct (endpoint (generateCall baseUrl model image)) as [reason|r];
      [cbn; intros H; injection H as H; eauto|].
    destruct (Http.ok r); cbn; [|intros H; injection H as H; eauto].
    unfold Effect.json. destruct (Http.json r) as [data|];
      [|cbn; intros H; injection H as H; eauto].
    cbn. unfold extract, Effect.try_catch.
    destruct (response data) as [text|]; [|cbn; intros H; injection H as H; eauto].
    destruct (jsonMatch text) as [span|]; [|discriminate].
    destruct (JSON_parse span); discriminate.
  - intros reason Hc.
    unfold Effect.run, analyzeVehicleImage, Effect.try_catch, Effect.bind, Effect.fetch.
    now rewrite Hc.
  - intros r Hc Hok.
    unfold Effect.run, analyzeVehicleImage, Effect.try_catch, Effect.bind, Effect.fetch.
    now rewrite Hc, Hok.
Qed.

(** Whenever the adapter returns, the confidence of the result is 85, 60 or
    50, and its extracted text and its raw response are the same text. *)
Theorem analyzeVehicleImage_result_shape (image : string) (result : VisionAnalysisResult) :
  fst (Effect.run (analyze image)) = Effect.Return result ->
  (JsMap.get "confidence" result = Some (JNum 85) \/
   JsMap.get "confidence" result = Some (JNum 60) \/
   JsMap.get "confidence" result = Some (JNum 50)) /\
  exists text,
    JsMap.get "extractedText" result = Some (JStr text) /\
    JsMap.get "rawResponse" result = Some (JStr text).
Proof.
  unfold Effect.run, analyzeVehicleImage, Effect.try_catch, Effect.bind, Effect.fetch.
  destruct (endpoint (generateCall baseUrl model image)) as [reason|r]; [discriminate|].
  destruct (Http.ok r); cbn; [|discriminate].
  unfold Effect.json. destruct (Http.json r) as [data|]; [|discriminate].
  cbn. unfold extract, Effect.try_catch.
  destruct (response data) as [text|]; [|discriminate].
  destruct (jsonMatch text) as [span|]; [destruct (JSON_parse span) as [parsed|]|];
    cbn [Effect.ret Effect.throw fst snd textJson];
    intros H; injection H as H; subst result.
  - destruct (OllamaProps.result_fields parsed 85 (JStr text)) as (Hc & He & Hr & _).
    split; eauto.
  - destruct (OllamaProps.result_fields (parseTextResponse text) 60 (JStr text))
      as (Hc & He & Hr & _).
    split; eauto.
  - destruct (OllamaProps.result_fields (@JsMap.empty Json) 50 (JStr text))
      as (Hc & He & Hr & _).
    split; eauto.
Qed.
End Adapter.

Lemma analyzeVehicleImage_result_shape_sample :
  exists result,
    fst (Effect.run
           (analyzeVehicleImage Sample.ollama Sample.parseJson "http://localhost:11434"
              "llava" "C")) = Effect.Return result /\
    exists text,
      JsMap.get "extractedText" result = Some (JStr text) /\
      JsMap.get "rawResponse" result = Some (JStr text).
Proof.
  eexists. split; [reflexivity|].
  eapply (@analyzeVehicleImage_result_shape Sample.ollama Sample.parseJson
            "http://localhost:11434" "llava" "C").
  reflexivity.
Defined.

End AdapterProps.

(** ** The API layer: the routes that reach the adapters *)

Module AdapterRouteProps.

Section Vin.
Import VinLookupService.
Variable registry : Http.Call -> Http.Outcome NhtsaData.
Variable apiKey : string.
Variable baseUrl : string.

(** [lookupVin] never throws and issues at most one call. A result that
    succeeds comes from the registry and carries no error; a result that
    fails carries one of four fixed messages, never the error text of the
    registry. *)
Theorem lookupVin_outcomes (vin : string) :
  exists result,
    fst (Effect.run (lookupVin registry apiKey baseUrl vin)) = Effect.Return result /\
    (List.length (Effect.calls (snd (Effect.run (lookupVin registry apiKey baseUrl vin))))
       <= 1)%nat /\
    (success result = true -> source result = Some "NHTSA" /\ error result = None) /\
    (success result = false ->
       exists message, error result = Some message /\ In message failureMessages).
Proof.
  unfold lookupVin, Effect.run.
  destruct (isValidVin vin) eqn:Hv; cbn [negb].
  2:{ eexists. split; [reflexivity|]. cbn. split; [lia|]. split; [discriminate|].
      intros _. eexists. split; [reflexivity|]. cbn. auto. }
  unfold Effect.try_catch, Effect.bind.
  pose proof (VinProps.lookupWithNHTSA_one_call registry baseUrl vin Effect.start) as Hc.
  assert (forall r w, lookupWithNHTSA registry baseUrl vin Effect.start = (Effect.Return r, w) ->
                      success r = true -> source r = Some "NHTSA" /\ error r = None) as Hs.
  { unfold lookupWithNHTSA, Effect.bind, Effect.fetch. cbv zeta.
    destruct (registry (Http.Get (registryUrl baseUrl vin))) as [reason|resp];
      [discriminate|].
    destruct (Http.ok resp); cbn; [|discriminate].
    unfold Effect.json. destruct (Http.json resp) as [data|]; [|discriminate].
    cbn. destruct (Results data) as [[|first rest]|];
      try (intros r w H; injection H as H _; subst r; discriminate).
    destruct (MemStorage.option_eqb (ErrorCode first) "0");
      intros r w H; injection H as H _; subst r; cbn; [auto | discriminate]. }
  destruct (lookupWithNHTSA registry baseUrl vin Effect.start) as [[r|e] w'] eqn:E;
    cbn [snd] in Hc.
  - destruct (success r) eqn:Sr.
    + exists r. cbn [fst snd Effect.ret]. rewrite Hc. cbn. split; [reflexivity|].
      split; [lia|]. split; [intros _; exact (Hs r w' eq_refl Sr) | congruence].
    + destruct (Text.truthy apiKey); cbn [fst snd Effect.ret lookupWithCommercialAPI];
        (eexists; split; [reflexivity|]); rewrite Hc; cbn;
        (split; [lia|]); (split; [discriminate|]);
        intros _; (eexists; split; [reflexivity|]); cbn; auto.
  - eexists. cbn [fst snd Effect.ret]. split; [reflexivity|]. rewrite Hc. cbn.
    split; [lia|]. split; [discriminate|].
    intros _. eexists. split; [reflexivity|]. cbn. auto.
Qed.

(** What [x || undefined] never is. *)
Lemma or_undefined_not_empty (x : option string) : Text.or_undefined x <> Some "".
Proof. destruct x as [[|c r]|]; discriminate. Qed.

Lemma failed_noEmptyField (message : string) : noEmptyField (failed message).
Proof. unfold noEmptyField. cbn. repeat split; discriminate. Qed.

Lemma lookupWithNHTSA_noEmptyField (vin : string) (r : VinLookupResult) (w : Effect.World) :
  lookupWithNHTSA registry baseUrl vin Effect.start = (Effect.Return r, w) ->
  noEmptyField r.
Proof.
  unfold lookupWithNHTSA, Effect.bind, Effect.fetch. cbv zeta.
  destruct (registry (Http.Get (registryUrl baseUrl vin))) as [reason|resp];
    [discriminate|].
  destruct (Http.ok resp); cbn; [|discriminate].
  unfold Effect.json. destruct (Http.json resp) as [data|]; [|discriminate].
  cbn. destruct (Results data) as [[|first rest]|];
    try (intros H; injection H as H _; subst r; apply failed_noEmptyField).
  destruct (MemStorage.option_eqb (ErrorCode first) "0");
    intros H; injection H as H _; subst r; [|apply failed_noEmptyField].
  unfold noEmptyField. cbn.
  repeat split; try apply or_undefined_not_empty.
  - destruct (Text.or_undefined (EngineHP first)) as [[|c hp]|]; discriminate.
  - unfold number_or_undefined. destruct (parseInt (ModelYear first)) as [[| |]|];
      discriminate.
Qed.

(** A field that the registry gives as the empty string is left out of the
    result: no result of [lookupVin] has an empty make, model, trim, engine,
    transmission, body style or drivetrain, or the year 0. *)
Theorem lookupVin_no_empty_field (vin : string) (result : VinLookupResult) :
  fst (Effect.run (lookupVin registry apiKey baseUrl vin)) = Effect.Return result ->
  make result <> Some "" /\ model result <> Some "" /\ trim result <> Some "" /\
  engine result <> Some "" /\ transmission result <> Some "" /\
  bodyStyle result <> Some "" /\ drivetrain result <> Some "" /\
  year result <> Some 0%Z.
Proof.
  change (fst (Effect.run (lookupVin registry apiKey baseUrl vin)) = Effect.Return result ->
          noEmptyField result).
  unfold lookupVin, Effect.run.
  destruct (isValidVin vin); cbn [negb].
  2:{ intros H. injection H as H. subst. apply failed_noEmptyField. }
  unfold Effect.try_catch, Effect.bind.
  pose proof (lookupWithNHTSA_noEmptyField vin) as Hn.
  destruct (lookupWithNHTSA registry baseUrl vin Effect.start) as [[r|e] w'].
  - destruct (success r).
    + intros H. injection H as H. subst. exact (Hn _ _ eq_refl).
    + destruct (Text.truthy apiKey); intros H; injection H as H; subst;
        apply failed_noEmptyField.
  - intros H. injection H as H. subst. apply failed_noEmptyField.
Qed.

Lemma lookupVin_returns (vin : string) :
  exists result,
    fst (Effect.run (lookupVin registry apiKey baseUrl vin)) = Effect.Return result.
Proof.
  destruct (isValidVin vin) eqn:Hv.
  - destruct (VinProps.lookupVin_valid_one_call registry apiKey baseUrl vin Hv)
      as (_ & result & H).
    eauto.
  - rewrite (VinProps.lookupVin_invalid_no_call registry apiKey baseUrl vin Hv).
    eexists. reflexivity.
Qed.

(** [GET /api/vin/:vin] answers 200 for every string, with the result of the
    lookup: its 500 branch is never taken. *)
Theorem vinLookup_always_200 (vin : string) :
  exists result,
    fst (Effect.run (Api.vinLookup registry apiKey baseUrl vin))
      = Effect.Return (Api.mkReply 200 (Api.VinJson result)) /\
    fst (Effect.run (lookupVin registry apiKey baseUrl vin)) = Effect.Return result.
Proof.
  destruct (lookupVin_returns vin) as (result & Hrun).
  exists result. split; [|exact Hrun].
  unfold Api.vinLookup, Effect.run, Effect.try_catch, Effect.bind in *.
  destruct (lookupVin registry apiKey baseUrl vin Effect.start) as [[r|e] w].
  - cbn in *. congruence.
  - discriminate.
Qed.
End Vin.

(** The sample registry leaves the trim of the Accord empty: the result has
    no trim. *)
Lemma lookupVin_no_empty_field_sample :
  exists result,
    fst (Effect.run
           (VinLookupService.lookupVin SampleRegistry.registry ""
              "https://vpic.nhtsa.dot.gov/api" "1HGCM82633A004352"))
      = Effect.Return result /\
    VinLookupService.make result = Some "HONDA" /\
    VinLookupService.trim result <> Some "".
Proof.
  eexists. split; [reflexivity|]. split; [reflexivity|].
  eapply (@lookupVin_no_empty_field SampleRegistry.registry ""
            "https://vpic.nhtsa.dot.gov/api" "1HGCM82633A004352").
  reflexivity.
Defined.

Section Health.
Import OllamaService.
Variable tags : Http.Call -> Http.Outcome TagsData.
Variable baseUrl : string.

(** The health route, by the answer of the endpoint to the request for the
    tags. *)
Lemma ollamaHealth_run :
  Effect.run (Api.ollamaHealth tags baseUrl) =
  (Effect.Return
     (Api.mkReply 200
        (Api.HealthJson (fst (healthOf (tags (tagsCall baseUrl))))
           (snd (healthOf (tags (tagsCall baseUrl))))
           (if fst (healthOf (tags (tagsCall baseUrl)))
            then "Local AI Ready" else "Ollama not available"))),
   Effect.mkWorld [tagsCall baseUrl; tagsCall baseUrl] [] 0).
Proof.
  unfold Api.ollamaHealth, Effect.run, Effect.try_catch, Effect.bind,
    checkHealth, listModels, Effect.try_catch, Effect.bind, Effect.fetch, healthOf.
  destruct (tags (tagsCall baseUrl)) as [reason|r]; [reflexivity|].
  cbn. destruct (Http.ok r); cbn; [|reflexivity].
  unfold Effect.json. destruct (Http.json r) as [data|]; reflexivity.
Qed.

(** [GET /api/ollama/health] never fails: whatever the endpoint does, the
    answer is 200 after two requests for the tags, the status text is that
    the local AI is ready when the check is healthy and that Ollama is not
    available otherwise, and the check is healthy exactly when the endpoint
    answers it ok. The reply of the [catch] of the route is never sent. *)
Theorem ollamaHealth_never_fails :
  exists healthy models,
    Effect.run (Api.ollamaHealth tags baseUrl) =
    (Effect.Return
       (Api.mkReply 200
          (Api.HealthJson healthy models
             (if healthy then "Local AI Ready" else "Ollama not available"))),
     Effect.mkWorld [tagsCall baseUrl; tagsCall baseUrl] [] 0) /\
    (healthy = true <->
     exists r, tags (tagsCall baseUrl) = Http.Responded r /\ Http.ok r = true).
Proof.
  exists (fst (healthOf (tags (tagsCall baseUrl)))),
         (snd (healthOf (tags (tagsCall baseUrl)))).
  split; [apply ollamaHealth_run|].
  unfold healthOf.
  destruct (tags (tagsCall baseUrl)) as [reason|r]; cbn.
  - split; [discriminate|]. intros (r & H & _). discriminate.
  - destruct (Http.ok r) eqn:Hok; cbn.
    + split; [|reflexivity]. intros _. exists r. split; [reflexivity|exact Hok].
    + split; [discriminate|]. intros (r' & H & Hok'). injection H as H. subst r'.
      congruence.
Qed.
End Health.

Section Analyze.
Variable endpoint : Http.Call -> Http.Outcome OllamaService.OllamaResponse.
Variable JSON_parse : string -> option (JsMap.t Json).
Variable baseUrl : string.
Variable model : string.

#[local] Abbreviation analyze :=
  (OllamaService.analyzeVehicleImage endpoint JSON_parse baseUrl model).
#[local] Abbreviation route := (Api.analyzeImage endpoint JSON_parse baseUrl model).

(** [POST /api/images/analyze] without image data, or with the empty
    string for it, is answered 400; no request goes to the endpoint and the
    store is as it was. *)
Theorem analyzeImage_requires_image
    (id : string) (now : Z) (imageBase64 vehicleId : option string) (st : MemStorage.t) :
  imageBase64 = None \/ imageBase64 = Some "" ->
  Effect.run (route id now imageBase64 vehicleId st) =
  (Effect.Return (Api.mkReply 400 (Api.MessageJson "Image data is required"), st),
   Effect.start).
Proof. intros [H|H]; subst; reflexivity. Qed.

(** [POST /api/images/analyze] with image data. When the adapter throws,
    the answer is 400 with the message of the adapter and the store is as
    it was. When it returns, the answer is 200 with the result; with a
    vehicle id that is not empty the result is stored as an extraction for
    that id, whether or not the store has such a vehicle, under the image
    url [base64_image]; with no vehicle id the store is as it was. *)
Theorem analyzeImage_replies
    (id : string) (now : Z) (image : string) (vehicleId : option string)
    (st : MemStorage.t) :
  image <> "" ->
  match fst (Effect.run (analyze image)) with
  | Effect.Throw message =>
      fst (Effect.run (route id now (Some image) vehicleId st))
        = Effect.Return (Api.mkReply 400 (Api.MessageJson message), st)
  | Effect.Return result =>
      exists st',
        fst (Effect.run (route id now (Some image) vehicleId st))
          = Effect.Return (Api.mkReply 200 (Api.AnalysisJson result), st') /\
        (vehicleId = None \/ vehicleId = Some "" -> st' = st) /\
        (forall vehicle, vehicleId = Some vehicle -> vehicle <> "" ->
           exists extraction,
             MemStorage.getAiExtraction id st' = Some extraction /\
             AiExtraction.vehicleId extraction = Some vehicle /\
             AiExtraction.imageUrl extraction = "base64_image" /\
             AiExtraction.extractedData extraction = Some (JObj result) /\
             MemStorage.vehicles st' = MemStorage.vehicles st /\
             MemStorage.listings st' = MemStorage.listings st)
  end.
Proof.
  intros Hne. unfold Api.analyzeImage, Effect.run, Effect.try_catch, Effect.bind.
  rewrite (VinProps.or_undefined_some Hne).
  destruct (analyze image Effect.start) as [[result|message] w]; cbn [fst];
    [|reflexivity].
  eexists. split; [reflexivity|]. split.
  - intros [H|H]; subst; reflexivity.
  - intros vehicle Hv Hn. subst vehicleId.
    rewrite (VinProps.or_undefined_some Hn).
    unfold MemStorage.createAiExtraction, MemStorage.getAiExtraction.
    cbn [snd MemStorage.aiExtractions MemStorage.vehicles MemStorage.listings].
    rewrite JsMapFacts.get_set_same. eexists. split; [reflexivity|].
    cbn. destruct vehicle; [congruence|]. auto.
Qed.
End Analyze.

(** The sample endpoint cannot be reached for image [B]: 400 with the
    message of the adapter. *)
Lemma analyzeImage_replies_sample :
  fst (Effect.run
         (Api.analyzeImage Sample.ollama Sample.parseJson "http://localhost:11434"
            "llava" "e1" 9000 (Some "B") (Some "v1") Sample.store))
  = Effect.Return
      (Api.mkReply 400
         (Api.MessageJson "Failed to analyze image with Ollama: connect ECONNREFUSED"),
       Sample.store).
Proof.
  apply (@analyzeImage_replies Sample.ollama Sample.parseJson "http://localhost:11434"
           "llava" "e1" 9000 "B" (Some "v1") Sample.store).
  discriminate.
Defined.

Lemma analyzeImage_requires_image_sample :
  Effect.run
    (Api.analyzeImage Sample.ollama Sample.parseJson "http://localhost:11434" "llava"
       "e1" 9000 (Some "") (Some "v1") Sample.store) =
  (Effect.Return (Api.mkReply 400 (Api.MessageJson "Image data is required"), Sample.store),
   Effect.start).
Proof.
  apply (@analyzeImage_requires_image Sample.ollama Sample.parseJson
           "http://localhost:11434" "llava" "e1" 9000 (Some "") (Some "v1") Sample.store).
  right. reflexivity.
Defined.

End AdapterRouteProps.

(** ** The VIN client *)

Module VinClientProps.
Import VinLookupClient.

Lemma toUpperCase_length (s : string) :
  String.length (Text.toUpperCase s) = String.length s.
Proof. induction s as [|c r IH]; simpl; auto. Qed.

Lemma accepts_upper (c : ascii) :
  Regex.accepts false Regex.vinChars (Text.upper_char c) =
  Regex.accepts true Regex.vinChars c.
Proof. destruct c as [[] [] [] [] [] [] [] []]; reflexivity. Qed.

Lemma all_chars_upper (s : string) :
  Text.all_chars (Regex.accepts false Regex.vinChars) (Text.toUpperCase s) =
  Text.all_chars (Regex.accepts true Regex.vinChars) s.
Proof.
  induction s as [|c r IH]; [reflexivity|].
  cbn [Text.toUpperCase Text.map_chars Text.all_chars].
  fold (Text.toUpperCase r). now rewrite accepts_upper, IH.
Qed.

Lemma isValidVin_vinShape (vin : string) : isValidVin vin = VinSpec.vinShape vin.
Proof.
  unfold isValidVin, VinSpec.vinShape, VinLookupService.vinPattern.
  rewrite VinProps.testWhole_times, toUpperCase_length, all_chars_upper.
  destruct (String.length vin =? 17)%nat; simpl; auto.
  now destruct (Text.all_chars _ vin).
Qed.

(** Every string that [validateVin] accepts is accepted by [isValidVin];
    on ASCII text the two validators accept the same strings; and the
    upper-case form of a string that [isValidVin] accepts, which is what
    the client puts into its request, is a VIN that the server accepts. *)
Theorem client_validators_agree (vin : string) :
  (validateVin vin = true -> isValidVin vin = true) /\
  (Text.isAscii vin = true -> isValidVin vin = validateVin vin) /\
  (isValidVin vin = true -> VinLookupService.isValidVin (Text.toUpperCase vin) = true).
Proof.
  split; [|split].
  - intros H. now rewrite isValidVin_vinShape, <- VinProps.validateVin_vinShape.
  - intros _. now rewrite isValidVin_vinShape, VinProps.validateVin_vinShape.
  - rewrite isValidVin_vinShape, VinProps.isValidVin_upperVinShape.
    unfold VinSpec.vinShape, VinSpec.upperVinShape.
    now rewrite toUpperCase_length, all_chars_upper.
Qed.

Lemma kept_char (c : ascii) :
  Regex.accepts false notVinChars c = negb (Regex.accepts false Regex.vinChars c).
Proof. unfold Regex.accepts, notVinChars. cbn. now destruct (Regex.members Regex.vinChars c). Qed.

Lemma removeAll_chars (s : string) :
  Text.all_chars (Regex.accepts false Regex.vinChars) (removeAll notVinChars s) = true.
Proof.
  induction s as [|c r IH]; [reflexivity|].
  cbn [removeAll]. rewrite kept_char.
  destruct (Regex.accepts false Regex.vinChars c) eqn:E; cbn [negb]; auto.
  cbn [Text.all_chars]. now rewrite E, IH.
Qed.

Lemma removeAll_clean (s : string) :
  Text.all_chars (Regex.accepts false Regex.vinChars) s = true ->
  removeAll notVinChars s = s.
Proof.
  induction s as [|c r IH]; [reflexivity|].
  cbn [Text.all_chars removeAll]. rewrite kept_char. intros H.
  apply andb_true_iff in H. destruct H as [Hc Hr]. rewrite Hc. cbn [negb].
  now rewrite IH.
Qed.

Lemma upper_of_vinChar (c : ascii) :
  Regex.accepts false Regex.vinChars c = true -> Text.upper_char c = c.
Proof. destruct c as [[] [] [] [] [] [] [] []]; vm_compute; congruence. Qed.

Lemma toUpperCase_clean (s : string) :
  Text.all_chars (Regex.accepts false Regex.vinChars) s = true -> Text.toUpperCase s = s.
Proof.
  induction s as [|c r IH]; [reflexivity|].
  cbn [Text.all_chars]. intros H. apply andb_true_iff in H. destruct H as [Hc Hr].
  cbn [Text.toUpperCase Text.map_chars]. fold (Text.toUpperCase r).
  now rewrite (upper_of_vinChar _ Hc), IH.
Qed.

Lemma removeAll_length (s : string) :
  (String.length (removeAll notVinChars s) <= String.length s)%nat.
Proof.
  induction s as [|c r IH]; [auto|].
  cbn [removeAll]. destruct (Regex.accepts false notVinChars c); cbn [String.length]; lia.
Qed.

(** [formatVin] leaves only characters of the VIN alphabet; formatting
    twice is formatting once; on ASCII text it never makes the text longer;
    and a string that [validateVin] accepts is formatted to its upper-case
    form, which the server accepts. *)
Theorem formatVin_normalizes (vin : string) :
  Text.all_chars (Regex.accepts false Regex.vinChars) (formatVin vin) = true /\
  formatVin (formatVin vin) = formatVin vin /\
  (Text.isAscii vin = true ->
     (String.length (formatVin vin) <= String.length vin)%nat) /\
  (validateVin vin = true ->
     formatVin vin = Text.toUpperCase vin /\
     VinLookupService.isValidVin (formatVin vin) = true).
Proof.
  unfold formatVin. split; [apply removeAll_chars|]. split; [|split].
  2:{ intros _. rewrite <- (toUpperCase_length vin). apply removeAll_length. }
  - pose proof (removeAll_chars (Text.toUpperCase vin)) as H.
    rewrite (toUpperCase_clean _ H). now apply removeAll_clean.
  - intros Hv. rewrite VinProps.validateVin_vinShape in Hv.
    unfold VinSpec.vinShape in Hv. apply andb_true_iff in Hv. destruct Hv as [Hl Hc].
    rewrite <- all_chars_upper in Hc.
    rewrite (removeAll_clean _ Hc). split; [reflexivity|].
    rewrite VinProps.isValidVin_upperVinShape. unfold VinSpec.upperVinShape.
    now rewrite toUpperCase_length, Hl, Hc.
Qed.

Section Lookup.
Variable api : Http.Call -> Http.Outcome VinLookupService.VinLookupResult.
Variable baseUrl : string.

(** The lookup of the client. A string that its validator does not accept
    is answered with the format error and no request. For one that it
    accepts exactly one request goes out, for the upper-case VIN; an answer
    that is ok and holds JSON is returned as it is, an answer that is not ok
    and an API that cannot be reached become failures with their message,
    and only an ok answer whose body is not JSON makes the lookup throw. *)
Theorem client_lookupVin_outcomes (vin : string) :
  if isValidVin vin
  then
    Effect.calls (snd (Effect.run (lookupVin api baseUrl vin))) = [lookupCall baseUrl vin] /\
    fst (Effect.run (lookupVin api baseUrl vin)) =
      match api (lookupCall baseUrl vin) with
      | Http.Rejected reason => Effect.Return (VinLookupService.failed reason)
      | Http.Responded r =>
          if Http.ok r
          then match Http.json r with
               | Some result => Effect.Return result
               | None => Effect.Throw "Unexpected token in JSON"
               end
          else Effect.Return
                 (VinLookupService.failed ("HTTP " ++ Number.toString (Http.status r)))
      end
  else
    Effect.run (lookupVin api baseUrl vin) =
    (Effect.Return
       (VinLookupService.failed "Invalid VIN format. VIN must be 17 characters."),
     Effect.start).
Proof.
  unfold lookupVin, Effect.run.
  destruct (isValidVin vin); [|reflexivity]. cbn [negb].
  unfold Effect.bind, Effect.try_catch, Effect.fetch.
  destruct (api (lookupCall baseUrl vin)) as [reason|r]; [split; reflexivity|].
  destruct (Http.ok r); cbn; [|split; reflexivity].
  unfold Effect.json. destruct (Http.json r); split; reflexivity.
Qed.
End Lookup.

End VinClientProps.

(** ** The image intake and the upload handler: effects *)

Module IntakeProps.
Import Routes.

(** Every file of a batch that the upload middleware admits passes the
    validation of the handler, so that validation never ends a batch that
    reaches it; and such a batch has at most ten files. *)
Theorem admitted_files_pass_validation (files : list UploadedFile) :
  Api.admitted files = true ->
  (List.length files <= 10)%nat /\
  Forall validFile files /\
  Forall (fun file =>
            forall w, ImageProcessor.validateImageFile (mimetype file) (size file) w
                      = (Effect.Return tt, w)) files.
Proof.
  unfold Api.admitted. intros H. apply andb_true_iff in H. destruct H as [Hn Hall].
  apply Nat.leb_le in Hn. split; [exact Hn|].
  rewrite forallb_forall in Hall.
  assert (Forall validFile files) as Hvalid.
  { apply Forall_forall. intros file Hin. specialize (Hall file Hin).
    apply andb_true_iff in Hall. destruct Hall as [Hf Hs]. apply Z.leb_le in Hs.
    split; [exact Hf | exact Hs]. }
  split; [exact Hvalid|].
  eapply Forall_impl; [|exact Hvalid].
  intros file [Ht Hs] w. now apply UploadProps.validateImageFile_valid.
Qed.

Lemma admitted_sample : Forall validFile Sample.threeFiles.
Proof.
  apply (@admitted_files_pass_validation Sample.threeFiles). reflexivity.
Defined.

Section Intake.
Variable endpoint : Http.Call -> Http.Outcome OllamaService.OllamaResponse.
Variable JSON_parse : string -> option (JsMap.t Json).
Variable baseUrl : string.
Variable model : string.
Variable uploadDir : string.
Variable randomUUID : nat -> string.
Variable extname : string -> string.
Variable toBase64 : string -> string.
Variable diskError : string -> option string.

#[local] Abbreviation process :=
  (ImageProcessor.processUploadedImage uploadDir randomUUID extname toBase64 diskError).
#[local] Abbreviation loop :=
  (uploadLoop endpoint JSON_parse baseUrl model uploadDir randomUUID extname toBase64
     diskError).
#[local] Abbreviation upload :=
  (uploadImages endpoint JSON_parse baseUrl model uploadDir randomUUID extname toBase64
     diskError).
#[local] Abbreviation callOf :=
  (fun file : UploadedFile =>
     OllamaService.generateCall baseUrl model (toBase64 (buffer file))).

Lemma process_run (bytes name mime : string) (w : Effect.World) :
  let filename := randomUUID (Effect.drawn w) ++ extname name in
  let filepath := uploadDir ++ "/" ++ filename in
  process bytes name mime w =
  match diskError uploadDir with
  | Some e => (Effect.Throw e, w)
  | None =>
      match diskError filepath with
      | Some e =>
          (Effect.Throw e,
           Effect.mkWorld (Effect.calls w) (Effect.written w) (S (Effect.drawn w)))
      | None =>
          (Effect.Return
             {| ImageProcessor.filename := filename;
                ImageProcessor.originalName := name;
                ImageProcessor.size := Z.of_nat (String.length bytes);
                ImageProcessor.mimetype := mime;
                ImageProcessor.base64 := toBase64 bytes;
                ImageProcessor.url := "/uploads/vehicles/" ++ filename |},
           Effect.mkWorld (Effect.calls w)
             (Effect.written w ++ [(filepath, bytes)])%list (S (Effect.drawn w)))
      end
  end.
Proof.
  cbv zeta.
  unfold ImageProcessor.processUploadedImage, Effect.bind, ImageProcessor.mkdir,
    ImageProcessor.drawUUID, ImageProcessor.writeFile.
  destruct (diskError uploadDir); [reflexivity|]. cbn [Effect.drawn Effect.calls Effect.written].
  destruct (diskError (uploadDir ++ "/" ++ randomUUID (Effect.drawn w) ++ extname name));
    reflexivity.
Qed.

(** The intake of one image. It draws one identifier for the stored name,
    keeps the extension of the original name, writes the bytes as they are
    under that name in the upload directory, and returns a url that ends in
    the same name; it issues no request. When the directory is refused it
    throws before it draws a name, and when the file is refused nothing is
    written. *)
Theorem processUploadedImage_effects (bytes name mime : string) (w : Effect.World) :
  let filename := randomUUID (Effect.drawn w) ++ extname name in
  let filepath := uploadDir ++ "/" ++ filename in
  process bytes name mime w =
  match diskError uploadDir with
  | Some e => (Effect.Throw e, w)
  | None =>
      match diskError filepath with
      | Some e =>
          (Effect.Throw e,
           Effect.mkWorld (Effect.calls w) (Effect.written w) (S (Effect.drawn w)))
      | None =>
          (Effect.Return
             {| ImageProcessor.filename := filename;
                ImageProcessor.originalName := name;
                ImageProcessor.size := Z.of_nat (String.length bytes);
                ImageProcessor.mimetype := mime;
                ImageProcessor.base64 := toBase64 bytes;
                ImageProcessor.url := "/uploads/vehicles/" ++ filename |},
           Effect.mkWorld (Effect.calls w)
             (Effect.written w ++ [(filepath, bytes)])%list (S (Effect.drawn w)))
      end
  end.
Proof. exact (process_run bytes name mime w). Qed.

#[local] Abbreviation storedPath := (Disk.storedPath uploadDir randomUUID extname).
#[local] Abbreviation accepts := (Disk.accepts uploadDir randomUUID extname diskError).

(** The loop over a run of valid files that the disk accepts, with whatever
    files come after. *)
Lemma uploadLoop_accepted (good : list UploadedFile) :
  Forall validFile good ->
  diskError uploadDir = None ->
  forall tail images extractions w,
  accepts (Effect.drawn w) good ->
  exists images' extractions' w',
    loop (good ++ tail) images extractions w = loop tail images' extractions' w' /\
    Effect.calls w' = (Effect.calls w ++ map callOf good)%list /\
    map snd (Effect.written w') = (map snd (Effect.written w) ++ map buffer good)%list /\
    Effect.drawn w' = (Effect.drawn w + List.length good)%nat.
Proof.
  intros Hvalid Hdir.
  induction Hvalid as [|file rest [Htype Hsize] Hrest IH];
    intros tail images extractions w Hdisk.
  - exists images, extractions, w. cbn [app map List.length].
    rewrite !app_nil_r, Nat.add_0_r. auto.
  - destruct Hdisk as [Hfile Hdisk]. unfold Disk.storedPath in Hfile.
    cbn [app uploadLoop].
    rewrite (@UploadProps.bind_return _ _ _ _ _ _ _
               (@UploadProps.validateImageFile_valid _ _ w Htype Hsize)).
    pose proof (process_run (buffer file) (originalname file) (mimetype file) w) as Hp.
    cbv zeta in Hp. rewrite Hdir, Hfile in Hp.
    rewrite (@UploadProps.bind_return _ _ _ _ _ _ _ Hp).
    cbn [ImageProcessor.base64 ImageProcessor.url].
    unfold Effect.bind at 1, Effect.try_catch, Effect.bind, analyze.
    match goal with
    | |- context [OllamaService.analyzeVehicleImage _ _ _ _ ?img ?w1] =>
        pose proof (AdapterProps.analyze_world endpoint JSON_parse baseUrl model img w1)
          as Hw;
        destruct (OllamaService.analyzeVehicleImage endpoint JSON_parse baseUrl model
                    img w1) as [[aiResult|message] w2]
    end; cbn [snd fst Effect.ret Effect.calls Effect.written Effect.drawn] in *; subst w2;
      match goal with
      | |- context [loop (rest ++ tail) ?i ?e ?w2] =>
          destruct (IH tail i e w2 Hdisk) as (images' & extractions' & w' & Hl & Hc & Hwr & Hd)
      end;
      exists images', extractions', w'; (split; [exact Hl|]);
      cbn [Effect.calls Effect.written Effect.drawn] in *;
      rewrite Hc, Hwr, Hd; cbn [map List.length];
      rewrite !map_app, <- !app_assoc; cbn [map app snd];
      repeat split; auto; lia.
Qed.

(** The upload is not undone when it fails: when the disk refuses the write
    of a file that comes after valid files that it accepted, the answer is
    400 with the message of the disk, no image and no extraction is
    returned, and the files before it stay written, each after its
    inference request; the files after it are not touched. *)
Theorem uploadImages_stops_at_disk_failure
    (good : list UploadedFile) (bad : UploadedFile) (rest : list UploadedFile)
    (e : string) :
  Forall validFile good ->
  validFile bad ->
  diskError uploadDir = None ->
  accepts 0 good ->
  diskError (storedPath (List.length good) bad) = Some e ->
  exists w',
    Effect.run (upload (Some (good ++ bad :: rest)%list))
      = (Effect.Return (mkReply 400 (MessageJson e)), w') /\
    map snd (Effect.written w') = map buffer good /\
    Effect.calls w' = map callOf good.
Proof.
  intros Hvalid [Htype Hsize] Hdir Hdisk Hbad.
  destruct (uploadLoop_accepted Hvalid Hdir (bad :: rest) [] [] Effect.start Hdisk)
    as (images & extractions & w' & Hl & Hc & Hw & Hd).
  cbn [Effect.start Effect.calls Effect.written Effect.drawn map app Nat.add] in Hc, Hw, Hd.
  pose proof (process_run (buffer bad) (originalname bad) (mimetype bad) w') as Hp.
  cbv zeta in Hp. unfold Disk.storedPath in Hbad. rewrite Hdir, Hd, Hbad in Hp.
  eexists.
  unfold Effect.run, uploadImages, Effect.try_catch, Effect.bind at 1.
  destruct (good ++ bad :: rest)%list as [|f fs] eqn:E.
  - destruct good; discriminate.
  - rewrite Hl. cbn [uploadLoop].
    rewrite (@UploadProps.bind_return _ _ _ _ _ _ _
               (@UploadProps.validateImageFile_valid _ _ w' Htype Hsize)).
    unfold Effect.bind at 1. rewrite Hp. cbn [Effect.ret fst snd].
    split; [reflexivity|]. cbn [Effect.calls Effect.written]. auto.
Qed.

Hypothesis disk_accepts : forall path, diskError path = None.

(** The loop over a run of valid files, with whatever files come after. *)
Lemma uploadLoop_prefix (good : list UploadedFile) :
  Forall validFile good ->
  forall tail images extractions w,
  exists images' extractions' w',
    loop (good ++ tail) images extractions w = loop tail images' extractions' w' /\
    Effect.calls w' = (Effect.calls w ++ map callOf good)%list /\
    map snd (Effect.written w') = (map snd (Effect.written w) ++ map buffer good)%list /\
    Effect.drawn w' = (Effect.drawn w + List.length good)%nat /\
    map ImageProcessor.originalName images' =
      (map ImageProcessor.originalName images ++ map originalname good)%list.
Proof.
  induction 1 as [|file rest [Htype Hsize] Hrest IH]; intros tail images extractions w.
  - exists images, extractions, w. cbn [app map List.length].
    rewrite !app_nil_r, Nat.add_0_r. auto.
  - cbn [app uploadLoop].
    rewrite (@UploadProps.bind_return _ _ _ _ _ _ _
               (@UploadProps.validateImageFile_valid _ _ w Htype Hsize)).
    pose proof (process_run (buffer file) (originalname file) (mimetype file) w) as Hp.
    cbv zeta in Hp. rewrite !disk_accepts in Hp.
    rewrite (@UploadProps.bind_return _ _ _ _ _ _ _ Hp).
    cbn [ImageProcessor.base64 ImageProcessor.url].
    unfold Effect.bind at 1, Effect.try_catch, Effect.bind, analyze.
    match goal with
    | |- context [OllamaService.analyzeVehicleImage _ _ _ _ ?img ?w1] =>
        pose proof (AdapterProps.analyze_world endpoint JSON_parse baseUrl model img w1)
          as Hw;
        destruct (OllamaService.analyzeVehicleImage endpoint JSON_parse baseUrl model
                    img w1) as [[aiResult|message] w2]
    end; cbn [snd fst Effect.ret Effect.calls Effect.written Effect.drawn] in *; subst w2;
      match goal with
      | |- context [loop (rest ++ tail) ?i ?e ?w2] =>
          destruct (IH tail i e w2) as (images' & extractions' & w' & Hl & Hc & Hwr & Hd & Hn)
      end;
      exists images', extractions', w'; (split; [exact Hl|]);
      cbn [Effect.calls Effect.written Effect.drawn] in *;
      rewrite Hc, Hwr, Hd, Hn; cbn [map List.length];
      rewrite !map_app, <- !app_assoc; cbn [map app snd ImageProcessor.originalName];
      repeat split; auto; lia.
Qed.

(** A batch of valid files on a disk that accepts them is handled one file
    after the other: the images come back in the order of the files, the
    bytes of each file are written as they are, in that order, one
    identifier is drawn per file, and exactly one inference request goes
    out per file, in that order. *)
Theorem uploadImages_in_order (files : list UploadedFile) :
  files <> [] ->
  Forall validFile files ->
  exists images extractions message w',
    Effect.run (upload (Some files))
      = (Effect.Return (mkReply 200 (UploadJson images extractions message)), w') /\
    map ImageProcessor.originalName images = map originalname files /\
    map snd (Effect.written w') = map buffer files /\
    Effect.calls w' = map callOf files /\
    Effect.drawn w' = List.length files.
Proof.
  intros Hne Hvalid.
  destruct (uploadLoop_prefix Hvalid [] [] [] Effect.start)
    as (images & extractions & w' & Hl & Hc & Hw & Hd & Hn).
  rewrite app_nil_r in Hl. cbn [uploadLoop] in Hl.
  exists images, extractions.
  destruct files as [|file rest]; [congruence|].
  unfold Effect.run, uploadImages, Effect.try_catch, Effect.bind.
  rewrite Hl. cbn [Effect.ret fst snd].
  eexists. exists w'. split; [reflexivity|]. auto.
Qed.

End Intake.

Lemma uploadImages_in_order_sample :
  exists images extractions message w',
    Effect.run (Sample.upload (Some Sample.threeFiles))
      = (Effect.Return (mkReply 200 (UploadJson images extractions message)), w') /\
    map ImageProcessor.originalName images = ["front.jpg"; "rear.jpg"; "side.jpg"] /\
    map snd (Effect.written w') = ["A"; "B"; "C"].
Proof.
  destruct (@uploadImages_in_order Sample.ollama Sample.parseJson
              "http://localhost:11434" "llava" "/srv/app/uploads/vehicles" Sample.uuid
              Sample.jpegExtension Sample.encoded Sample.diskAccepts
              (fun _ => eq_refl) Sample.threeFiles)
    as (images & extractions & message & w' & Hrun & Hn & Hw & _).
  - discriminate.
  - repeat constructor; cbn; unfold ImageProcessor.maxSize; lia.
  - exists images, extractions, message, w'. auto.
Defined.

(** The second of three files finds the disk full: the answer is 400 with
    the message of the disk, and the first file stays written. *)
Lemma uploadImages_stops_sample :
  exists w',
    Effect.run
      (Routes.uploadImages Sample.ollama Sample.parseJson "http://localhost:11434" "llava"
         "/srv/app/uploads/vehicles" Sample.uuid Sample.jpegExtension Sample.encoded
         SampleDisk.full (Some Sample.threeFiles))
      = (Effect.Return
           (mkReply 400 (MessageJson "ENOSPC: no space left on device, write")), w') /\
    map snd (Effect.written w') = ["A"] /\
    Effect.calls w'
      = [OllamaService.generateCall "http://localhost:11434" "llava" "A"].
Proof.
  destruct (@uploadImages_stops_at_disk_failure Sample.ollama Sample.parseJson
              "http://localhost:11434" "llava" "/srv/app/uploads/vehicles" Sample.uuid
              Sample.jpegExtension Sample.encoded SampleDisk.full
              [Routes.mkFile "A" "front.jpg" "image/jpeg" 1]
              (Routes.mkFile "B" "rear.jpg" "image/JPEG" 1)
              [Routes.mkFile "C" "side.jpg" "image/png" 1]
              "ENOSPC: no space left on device, write")
    as (w' & Hrun & Hw & Hc).
  - repeat constructor; cbn; unfold ImageProcessor.maxSize; lia.
  - split; [reflexivity | cbn; unfold ImageProcessor.maxSize; lia].
  - reflexivity.
  - split; [reflexivity | exact I].
  - reflexivity.
  - exists w'. auto.
Defined.

End IntakeProps.

(** ** The text fallback of the adapter *)

Module FallbackProps.
Import OllamaService.

Lemma lower_upper (c : ascii) : Text.lower_char (Text.upper_char c) = Text.lower_char c.
Proof. destruct c as [[] [] [] [] [] [] [] []]; reflexivity. Qed.

Lemma same_lower (a b : ascii) :
  Regex.same true a b = true -> Text.lower_char a = Text.lower_char b.
Proof.
  unfold Regex.same. intros H. apply Ascii.eqb_eq in H.
  rewrite <- (lower_upper a), <- (lower_upper b). now rewrite H.
Qed.

(** A literal under the [i] flag takes a prefix that is the literal up to
    the case of its letters. *)
Lemma literal_split (l s rest : string) :
  Regex.literal true l s = Some rest ->
  exists p, s = p ++ rest /\ Text.toLowerCase p = Text.toLowerCase l.
Proof.
  revert s. induction l as [|a l IH]; intros s; cbn [Regex.literal].
  - intros H. injection H as H. subst. now exists "".
  - destruct s as [|b s]; [discriminate|].
    destruct (Regex.same true a b) eqn:E; [|discriminate].
    intros H. destruct (IH _ H) as (p & Hs & Hp).
    exists (String b p). subst s. split; [reflexivity|].
    cbn [Text.toLowerCase Text.map_chars]. fold (Text.toLowerCase p) (Text.toLowerCase l).
    now rewrite Hp, (same_lower _ _ E).
Qed.

Section Continuations.
Variable R : Type.

Lemma star_result (cs : Regex.charset) (s : string) (k : string -> option R) (x : R) :
  Regex.star true cs s k = Some x -> exists r, k r = Some x.
Proof.
  induction s as [|c r IH]; cbn [Regex.star]; [eauto|].
  destruct (Regex.accepts true cs c); [|eauto].
  destruct (Regex.star true cs r k) eqn:E; [|eauto].
  intros H. injection H as H. subst. auto.
Qed.

Lemma plus_result (cs : Regex.charset) (s : string) (k : string -> option R) (x : R) :
  Regex.plus true cs s k = Some x -> exists r, k r = Some x.
Proof.
  unfold Regex.plus. destruct s as [|c r]; [discriminate|].
  destruct (Regex.accepts true cs c); [apply star_result | discriminate].
Qed.

(** The capture of a condition word is one of the four words up to the case
    of its letters. *)
Lemma conditionWord_capture (s : string) (cap : option string)
    (k : string -> option string -> option R) (x : R) :
  Regex.exec true conditionWord s cap k = Some x ->
  exists rest captured,
    k rest (Some captured) = Some x /\ In (Text.toLowerCase captured) conditionWords.
Proof.
  unfold conditionWord. cbn [Regex.exec].
  assert (forall w rest, In w conditionWords -> Regex.literal true w s = Some rest ->
                         In (Text.toLowerCase (Regex.consumed s rest)) conditionWords)
    as Hword.
  { intros w rest Hin Hl. destruct (literal_split _ _ Hl) as (p & Hs & Hp). subst s.
    rewrite OllamaProps.consumed_append, Hp.
    unfold conditionWords in Hin. cbn [In] in Hin.
    destruct Hin as [H|[H|[H|[H|[]]]]]; subst w; cbn; auto. }
  repeat match goal with
         | |- context [Regex.literal true ?w s] =>
             let E := fresh "E" in
             destruct (Regex.literal true w s) as [?rest|] eqn:E
         end;
    repeat match goal with
           | |- context [k ?r (Some (Regex.consumed s ?r))] =>
               let K := fresh "K" in
               destruct (k r (Some (Regex.consumed s r))) eqn:K
           end;
    intros H; try discriminate; injection H as H; subst;
    match goal with
    | K : k ?r (Some (Regex.consumed s ?r)) = Some x,
      E : Regex.literal true ?w s = Some ?r |- _ =>
        exists r, (Regex.consumed s r); split; [exact K|];
        apply (Hword w r); [unfold conditionWords; cbn; auto | exact E]
    end.
Qed.
End Continuations.

(** A match of [lead[:\s]+(excellent|good|fair|poor)] captures one of the
    four words up to case. *)
Lemma condition_search (lead text whole captured : string) :
  Regex.search true
    (Regex.Seq (Regex.Lit lead) (Regex.Seq (Regex.Plus Regex.colonOrSpace) conditionWord))
    text = Some (whole, Some captured) ->
  In (Text.toLowerCase captured) conditionWords.
Proof.
  induction text as [|c r IH]; cbn [Regex.search].
  - cbn [Regex.exec]. destruct (Regex.literal true lead ""); [|discriminate].
    destruct (Regex.plus _ _ _ _) eqn:E; [|discriminate].
    apply plus_result in E. destruct E as (r2 & E).
    apply conditionWord_capture in E. destruct E as (rest & cap & E & Hin).
    intros H. injection H as H. subst p. injection E as _ Hc. now subst.
  - destruct (Regex.exec _ _ _ _ _) as [m|] eqn:E; [|exact IH].
    cbn [Regex.exec] in E.
    destruct (Regex.literal true lead (String c r)); [|discriminate].
    apply plus_result in E. destruct E as (r2 & E).
    apply conditionWord_capture in E. destruct E as (rest & cap & E & Hin).
    intros H. injection H as H. subst m. injection E as _ Hc. now subst.
Qed.

Lemma assign_other (key other : string) (m : option (string * option string))
    (f : string -> string) (r : JsMap.t Json) :
  key <> other -> JsMap.get key (assign other m f r) = JsMap.get key r.
Proof.
  intros Hne. unfold assign. destruct m as [[whole [captured|]]|]; auto.
  now apply JsMapFacts.get_set_other.
Qed.

(** Whatever the text, the fallback writes only the four keys license
    plate, damage, interior and exterior, and an interior or exterior that
    it writes is one of excellent, good, fair and poor, in lower case. *)
Theorem parseTextResponse_fields (text : string) :
  (forall key v, JsMap.get key (parseTextResponse text) = Some v ->
     In key ["licensePlate"; "damage"; "interior"; "exterior"]) /\
  (forall v, JsMap.get "interior" (parseTextResponse text) = Some v ->
     exists word, v = JStr word /\ In word conditionWords) /\
  (forall v, JsMap.get "exterior" (parseTextResponse text) = Some v ->
     exists word, v = JStr word /\ In word conditionWords).
Proof.
  split; [intros key v; apply OllamaProps.parseTextResponse_keys|].
  unfold parseTextResponse. cbv zeta. split; intros v.
  - rewrite assign_other by discriminate.
    unfold assign at 1.
    destruct (Regex.search true interiorPattern text) as [[whole [captured|]]|] eqn:E.
    + rewrite JsMapFacts.get_set_same. intros H. injection H as H. subst v.
      eexists. split; [reflexivity|]. exact (condition_search _ _ E).
    + rewrite !assign_other by discriminate. discriminate.
    + rewrite !assign_other by discriminate. discriminate.
  - unfold assign at 1.
    destruct (Regex.search true exteriorPattern text) as [[whole [captured|]]|] eqn:E.
    + rewrite JsMapFacts.get_set_same. intros H. injection H as H. subst v.
      eexists. split; [reflexivity|]. exact (condition_search _ _ E).
    + rewrite !assign_other by discriminate. discriminate.
    + rewrite !assign_other by discriminate. discriminate.
Qed.

End FallbackProps.

(** ** The API layer: the listing routes *)

Module ListingRouteProps.

(** [POST /api/listings/generate]. For a vehicle id that the store does not
    have the answer is 404 and nothing is created. For one that it has the
    answer is 200 with a draft listing for that vehicle and the platform
    asked for; its text is the same for every platform; the vehicles are as
    they were, and under an id that is new the listing comes last among the
    listings of the vehicle. *)
Theorem generateListing_creates_draft
    (id : string) (now : Z) (vehicleId : string) (platform : option string)
    (st : MemStorage.t) :
  match MemStorage.getVehicle vehicleId st with
  | None =>
      Routes.generateListing id now vehicleId platform st
        = (Routes.mkReply 404 (Routes.MessageJson "Vehicle not found"), st)
  | Some vehicle =>
      exists listing,
        fst (Routes.generateListing id now vehicleId platform st)
          = Routes.mkReply 200 (Routes.ListingJson listing) /\
        Listing.status listing = "draft" /\
        Listing.vehicleId listing = Some vehicleId /\
        Listing.platform listing = MemStorage.given platform "facebook" /\
        Listing.listingData listing =
          Some (Routes.contentJson (Routes.generateListingContent vehicle "facebook")) /\
        MemStorage.vehicles (snd (Routes.generateListing id now vehicleId platform st))
          = MemStorage.vehicles st /\
        (MemStorage.getListing id st = None ->
         MemStorage.getListingsByVehicle vehicleId
           (snd (Routes.generateListing id now vehicleId platform st))
         = (MemStorage.getListingsByVehicle vehicleId st ++ [listing])%list)
  end.
Proof.
  unfold Routes.generateListing.
  destruct (MemStorage.getVehicle vehicleId st) as [vehicle|]; [|reflexivity].
  cbv zeta.
  unfold MemStorage.createListing. cbn [fst snd]. eexists.
  split; [reflexivity|].
  cbn [Listing.status Listing.vehicleId Listing.platform Listing.listingData
       MemStorage.vehicles InsertListing.status InsertListing.vehicleId
       InsertListing.platform InsertListing.listingData].
  repeat split; auto.
  unfold MemStorage.getListing, MemStorage.getListingsByVehicle. intros Hfresh.
  cbn [MemStorage.listings].
  rewrite (@HistoryProps.values_set_fresh _ _ _ _ Hfresh), filter_app.
  cbn [filter Listing.vehicleId MemStorage.option_eqb]. now rewrite String.eqb_refl.
Qed.

(** [POST /api/listings] needs a title and a platform that are strings:
    without one of them the answer is 400 and the store is as it was, and
    the issues of the answer name each of the two that is missing or not a
    string. *)
Theorem postListing_requires_title_and_platform
    (id : string) (now : Z) (props : list (string * Json)) (st : MemStorage.t) :
  InsertListingSchema.text (JsMap.get "title" props) = None \/
  InsertListingSchema.text (JsMap.get "platform" props) = None ->
  exists issues,
    Api.postListing id now (Some (JObj props)) st
      = (Api.mkReply 400 (Api.IssuesJson issues), st) /\
    (InsertListingSchema.text (JsMap.get "title" props) = None -> In "title" issues) /\
    (InsertListingSchema.text (JsMap.get "platform" props) = None ->
     In "platform" issues).
Proof.
  intros H. unfold Api.postListing, InsertListingSchema.parse. cbv zeta.
  destruct (VehicleFormSchema.optionalText (JsMap.get "vehicleId" props));
    destruct (InsertListingSchema.text (JsMap.get "title" props)) eqn:Et;
    destruct (InsertListingSchema.text (JsMap.get "platform" props)) eqn:Ep;
    try (destruct H; discriminate);
    (eexists; split; [reflexivity|]);
    (split; intros E; try discriminate E);
    repeat first [ rewrite in_app_iff
                 | progress cbn [In VehicleFormSchema.issue app] ];
    auto 10.
Qed.

(** A body with a platform and no title, and a body with neither. *)
Lemma postListing_requires_title_sample :
  (exists issues,
     Api.postListing "l1" 3000 (Some (JObj [("platform", JStr "facebook")])) Sample.store
       = (Api.mkReply 400 (Api.IssuesJson issues), Sample.store) /\
     In "title" issues) /\
  (exists issues,
     Api.postListing "l1" 3000 (Some (JObj [("vehicleId", JStr "v1")])) Sample.store
       = (Api.mkReply 400 (Api.IssuesJson issues), Sample.store) /\
     In "title" issues /\ In "platform" issues).
Proof.
  split.
  - destruct (@postListing_requires_title_and_platform "l1" 3000
                [("platform", JStr "facebook")] Sample.store (or_introl eq_refl))
      as (issues & Hrun & Htitle & _).
    exists issues. split; [exact Hrun | exact (Htitle eq_refl)].
  - destruct (@postListing_requires_title_and_platform "l1" 3000
                [("vehicleId", JStr "v1")] Sample.store (or_introl eq_refl))
      as (issues & Hrun & Htitle & Hplatform).
    exists issues. split; [exact Hrun|].
    split; [exact (Htitle eq_refl) | exact (Hplatform eq_refl)].
Defined.

(** A body that passes the listing schema is answered 201 with the listing,
    which is then found under its id; the vehicle it names is not looked
    up, so the listing is created whether or not the store has that
    vehicle, and the vehicles are as they were. *)
Theorem postListing_creates
    (id : string) (now : Z) (reqBody : option Json) (st : MemStorage.t)
    (data : InsertListing.t) :
  InsertListingSchema.parse reqBody = inr data ->
  exists listing,
    fst (Api.postListing id now reqBody st) = Api.mkReply 201 (Api.ListingJson listing) /\
    MemStorage.getListing id (snd (Api.postListing id now reqBody st)) = Some listing /\
    Listing.vehicleId listing = InsertListing.vehicleId data /\
    Listing.title listing = InsertListing.title data /\
    MemStorage.vehicles (snd (Api.postListing id now reqBody st)) = MemStorage.vehicles st.
Proof.
  intros Hparse. unfold Api.postListing. rewrite Hparse.
  unfold MemStorage.createListing, MemStorage.getListing. cbn [fst snd MemStorage.listings].
  eexists. split; [reflexivity|]. rewrite JsMapFacts.get_set_same. auto.
Qed.

Lemma postListing_creates_sample :
  exists listing,
    fst (Api.postListing "l1" 3000
           (Some (JObj [ ("vehicleId", JStr "no-such-vehicle");
                         ("title", JStr "Civic for sale");
                         ("platform", JStr "craigslist") ])) Sample.store)
      = Api.mkReply 201 (Api.ListingJson listing) /\
    Listing.vehicleId listing = Some "no-such-vehicle" /\
    Listing.status listing = "draft".
Proof.
  destruct (@postListing_creates "l1" 3000
              (Some (JObj [ ("vehicleId", JStr "no-such-vehicle");
                            ("title", JStr "Civic for sale");
                            ("platform", JStr "craigslist") ])) Sample.store
              _ eq_refl) as (listing & Hreply & _ & Hv & _).
  exists listing. split; [exact Hreply|]. split; [exact Hv|].
  cbn in Hreply. injection Hreply as Hreply. now subst listing.
Defined.

End ListingRouteProps.
